(** * OperationSSC: the load tracker of [old_code/current_load.py]

    A shallow embedding of the [CurrentLoad] class (directory scanner, load
    reader, lookahead planner, query engine and transition controller)
    together with the properties of its specification.

    The program is Python 2 ([output.split('\n')] on the bytes of a pipe,
    [(klo + khi) / 2] used as a list index), so [/] on integers is floor
    division and [str] comparison is bytewise lexicographic.  Integers are
    unbounded and modelled by [Z]; strings by [string]; the dictionary of
    [getRecentLoads] by [gmap string string]; exceptions by a sum type;
    the object's attributes by a record threaded through a state-and-error
    monad. *)

From Stdlib Require Import ZArith Lia Ascii String.
From stdpp Require Import base option list sorting strings gmap.

Local Open Scope Z_scope.

(** ** Cyclic counter arithmetic *)

(** [vcduWrap = 1 << 24]: maximum VCDU value + 1. *)
Definition vcduWrap : Z := Z.shiftl 1 24.

(** [deltaVCDU(a, b)]: minimum difference between two vcdu values, allowing
    for wrap around. *)
Definition deltaVCDU (a b : Z) : Z :=
  let d := b - a in
  if d <? 0 then
    if Z.abs d >? Z.abs (d + vcduWrap) then d + vcduWrap else d
  else if d >? Z.abs (d - vcduWrap) then d - vcduWrap
  else d.

(** ** Python values and exceptions *)

(** The exceptions the tracker can raise or let escape. *)
Inductive exn : Type :=
  | CurrentLoadException (msg : string)
  | AttributeError (attr : string)
  | IndexError
  | ValueError
  | TypeError
  | IOError
  | OSError.

(** A computation that either raises or returns. *)
Definition res (A : Type) : Type := exn + A.

Definition res_bind {A B : Type} (c : res A) (k : A -> res B) : res B :=
  match c with
  | inl e => inl e
  | inr a => k a
  end.

Notation "'do' x <- c ; k" := (res_bind c (fun x => k))
  (at level 10, x name, c at level 100, k at level 200).

(** Python string comparison ([str] of Python 2: bytewise lexicographic). *)
Definition str_le (s t : string) : bool := String.leb s t.
Definition str_lt (s t : string) : bool := String.ltb s t.
Definition str_ge (s t : string) : bool := String.leb t s.
Definition str_gt (s t : string) : bool := String.ltb t s.

(** [l[k]] on a list: negative indices count from the end, anything outside
    [[-len, len)] raises [IndexError]. *)
Definition py_index {A : Type} (l : list A) (k : Z) : res A :=
  let n := Z.of_nat (length l) in
  let k' := if k <? 0 then k + n else k in
  if (k' <? 0) || (n <=? k') then inl IndexError
  else match l !! Z.to_nat k' with
       | Some a => inr a
       | None => inl IndexError
       end.

(** [s[:n]] *)
Definition py_take (n : nat) (s : string) : string := String.substring 0 n s.

(** [s[-n:]] *)
Definition py_last (n : nat) (s : string) : string :=
  String.substring (String.length s - n) n s.

(** [s[-8:-1]] *)
Definition py_slice_m8_m1 (s : string) : string :=
  let len := String.length s in
  String.substring (len - 8) (Nat.min len 8 - 1) s.

(** [s.rstrip()] *)
Fixpoint py_rstrip (s : string) : string :=
  match s with
  | EmptyString => EmptyString
  | String c r =>
      match py_rstrip r with
      | EmptyString => if Ascii.is_space c then EmptyString
                       else String c EmptyString
      | r' => String c r'
      end
  end.

(** [s.split()]: the maximal runs of non-whitespace characters. *)
Definition py_split (s : string) : list string := String.words s.

(** [s.split('\n')] *)
Fixpoint py_split_lines (cur : string) (s : string) : list string :=
  match s with
  | EmptyString => [String.rev cur]
  | String c r =>
      if Ascii.eqb c "010" then String.rev cur :: py_split_lines EmptyString r
      else py_split_lines (String c cur) r
  end.

(** [int(tok)] on a whitespace-free token: decimal digits with an optional
    sign; any other token is a [ValueError]. *)
Fixpoint digits_value (acc : Z) (s : string) : option Z :=
  match s with
  | EmptyString => Some acc
  | String c r =>
      match Ascii.is_nat c with
      | Some d => digits_value (10 * acc + Z.of_nat d) r
      | None => None
      end
  end.

Definition py_int (tok : string) : res Z :=
  let unsigned (s : string) : option Z :=
    match s with
    | EmptyString => None
    | _ => digits_value 0 s
    end in
  let r := match tok with
           | String "-" s => Z.opp <$> unsigned s
           | String "+" s => unsigned s
           | s => unsigned s
           end in
  match r with
  | Some z => inr z
  | None => inl ValueError
  end.

(** ** The two regular expressions *)

Inductive cls : Type :=
  | Digit                (* \d *)
  | Upper                (* [A-Z] *)
  | UpperAN              (* [A-N] *)
  | Lit (c : ascii).

Definition in_range (lo hi c : ascii) : bool :=
  Ascii.leb lo c && Ascii.leb c hi.

Definition cls_ok (k : cls) (c : ascii) : bool :=
  match k with
  | Digit => in_range "0" "9" c
  | Upper => in_range "A" "Z" c
  | UpperAN => in_range "A" "N" c
  | Lit d => Ascii.eqb d c
  end.

(** Does [s] start with characters of the classes [pat], in order? *)
Fixpoint match_classes (pat : list cls) (s : string) : bool :=
  match pat, s with
  | [], _ => true
  | _ :: _, EmptyString => false
  | k :: pat', String c r => cls_ok k c && match_classes pat' r
  end.

(** [gmtre = (\d{4}:\d{3}:\d{2}:\d{2}:\d{2}\.\d{3})] *)
Definition gmt_classes : list cls :=
  [Digit; Digit; Digit; Digit; Lit ":"; Digit; Digit; Digit; Lit ":";
   Digit; Digit; Lit ":"; Digit; Digit; Lit ":"; Digit; Digit; Lit ".";
   Digit; Digit; Digit].

(** [gmtre.match(t)]: group 1 when [t] starts with a date-time tag. *)
Definition gmtre_match (t : string) : option string :=
  if match_classes gmt_classes t then Some (py_take 21 t) else None.

(** The part of [lrdre] after the greedy [.*]:
    [/\d{4}:\d{3}:([A-N])-[A-Z]{3}\d{4}\2], twenty characters. *)
Definition lrd_classes : list cls :=
  [Lit "/"; Digit; Digit; Digit; Digit; Lit ":"; Digit; Digit; Digit;
   Lit ":"; UpperAN; Lit "-"; Upper; Upper; Upper;
   Digit; Digit; Digit; Digit; UpperAN].

Definition lrd_tail_ok (s : string) : bool :=
  match_classes lrd_classes s
  && bool_decide (String.get 10 s = String.get 19 s).

(** End offset of the match of [lrdre] at the start of [t]: [.*] is greedy
    and does not cross a newline, so the last admissible [/] wins. *)
Fixpoint lrdre_end (t : string) : option nat :=
  match t with
  | EmptyString => None
  | String c r =>
      let deeper := if Ascii.eqb c "010" then None else S <$> lrdre_end r in
      match deeper with
      | Some e => Some e
      | None => if lrd_tail_ok t then Some 20%nat else None
      end
  end.

(** [lrdre.match(t)]: group 1. *)
Definition lrdre_match (t : string) : option string :=
  (fun e => py_take e t) <$> lrdre_end t.

(** ** The loops of the query engine

    The four query methods share three loop shapes; each is written once,
    over the test its body performs, and recurses on the distance the loop
    still has to cover, so that the loop condition is false whenever the
    recursion bottoms out. *)

(** [while i < len: if <brk i>: break; i += 1] *)
Fixpoint scanUp (brk : Z -> res bool) (len : Z) (n : nat) (i : Z) : res Z :=
  match n with
  | O => inr i
  | S n' =>
      if i <? len then
        do b <- brk i;
        if b then inr i else scanUp brk len n' (i + 1)
      else inr i
  end.

(** [while i > lo: if <brk i>: break; i -= 1] *)
Fixpoint scanDown (brk : Z -> res bool) (lo : Z) (n : nat) (i : Z) : res Z :=
  match n with
  | O => inr i
  | S n' =>
      if i >? lo then
        do b <- brk i;
        if b then inr i else scanDown brk lo n' (i - 1)
      else inr i
  end.

(** [while khi > klo + 1: k = (klo + khi) / 2;
       if <ge k>: klo = k else: khi = k] *)
Fixpoint bisect (ge : Z -> res bool) (n : nat) (klo khi : Z) : res Z :=
  match n with
  | O => inr klo
  | S n' =>
      if khi >? klo + 1 then
        let k := (klo + khi) / 2 in
        do b <- ge k;
        if b then bisect ge n' k khi else bisect ge n' klo k
      else inr klo
  end.

Definition whileUp (brk : Z -> res bool) (len i : Z) : res Z :=
  scanUp brk len (Z.to_nat (len - i)) i.

Definition whileDown (brk : Z -> res bool) (lo i : Z) : res Z :=
  scanDown brk lo (Z.to_nat (i - lo)) i.

Definition whileBisect (ge : Z -> res bool) (klo khi : Z) : res Z :=
  bisect ge (Z.to_nat (khi - klo)) klo khi.


(** ** The environment: storage and the external [find] process *)

(** What [Popen(...).communicate()] and [returncode] give back. *)
Record PopenResult : Type := mkPopen {
  returncode : Z;
  output : string;
  errout : string
}.

(** The storage the tracker reads.  [find_newer root ref] is the run of
    [find root -maxdepth 1 -newer ref -a -type d]; [getmtime] is
    [os.path.getmtime] (a modification time, here on an integer clock;
    [OSError] for a path that cannot be examined); [open_lines] is
    [open(path)] iterated line by line, each line with its terminator
    ([IOError] when the file cannot be opened). *)
Record FS : Type := mkFS {
  find_newer : string -> string -> PopenResult;
  getmtime : string -> res Z;
  open_lines : string -> res (list string)
}.

(** ** The tracker object *)

(** Index of first new state vector entry in .svrdb *)
Definition startIndex : Z := 40.

(** The attributes of a [CurrentLoad] instance.  [nextLoads] holds Python's
    [None] or a path; [nextStart], [nextFirstTime] and [nextFirstVCDU] are
    assigned only by [checkForNewLoads], and [None] here means that the
    attribute does not exist yet, so that reading it raises
    [AttributeError]. *)
Record CurrentLoad : Type := mkCurrentLoad {
  loadReviewDir : string;
  svrdb : list string;
  currentStateIndex : Z;
  currentLoads : string;
  nextLoads : option string;
  nextStart : option string;
  nextFirstTime : option string;
  nextFirstVCDU : option Z
}.

(** A method: it may raise, and the object is left as it was at that
    moment. *)
Definition M (A : Type) : Type := CurrentLoad -> res A * CurrentLoad.

Definition ret {A : Type} (a : A) : M A := fun s => (inr a, s).

Definition raise {A : Type} (e : exn) : M A := fun s => (inl e, s).

Definition bind {A B : Type} (c : M A) (k : A -> M B) : M B :=
  fun s => match c s with
           | (inl e, s') => (inl e, s')
           | (inr a, s') => k a s'
           end.

Definition self : M CurrentLoad := fun s => (inr s, s).

Definition lift {A : Type} (c : res A) : M A := fun s => (c, s).

Definition assign (f : CurrentLoad -> CurrentLoad) : M unit :=
  fun s => (inr tt, f s).

Notation "'run' x <- c ; k" := (bind c (fun x => k))
  (at level 10, x name, c at level 100, k at level 200).

(** Reading an attribute that may not have been assigned. *)
Definition attr {A : Type} (name : string) (v : option A) : res A :=
  match v with
  | Some a => inr a
  | None => inl (AttributeError name)
  end.

(** Truth value of a string, and of a value that is [None] or a string. *)
Definition truthy (s : string) : bool := negb (String.eqb s "").

Definition truthy_opt (o : option string) : bool :=
  match o with
  | Some s => truthy s
  | None => false
  end.

(** The three groups of assignments the methods make. *)

(** [self.svrdb = ...; self.currentStateIndex = CurrentLoad.startIndex;
    self.currentLoads = dir; self.nextLoads = None] *)
Definition activated (dir : string) (records : list string)
    (s : CurrentLoad) : CurrentLoad :=
  {| loadReviewDir := loadReviewDir s;
     svrdb := records;
     currentStateIndex := startIndex;
     currentLoads := dir;
     nextLoads := None;
     nextStart := nextStart s;
     nextFirstTime := nextFirstTime s;
     nextFirstVCDU := nextFirstVCDU s |}.

(** [self.nextLoads = nextLoads; self.nextStart = nextStart;
    self.nextFirstTime = firstTime; self.nextFirstVCDU = firstVCDU] *)
Definition withPending (dir : string) (start : option string)
    (firstTime : string) (firstVCDU : Z) (s : CurrentLoad) : CurrentLoad :=
  {| loadReviewDir := loadReviewDir s;
     svrdb := svrdb s;
     currentStateIndex := currentStateIndex s;
     currentLoads := currentLoads s;
     nextLoads := Some dir;
     nextStart := start;
     nextFirstTime := Some firstTime;
     nextFirstVCDU := Some firstVCDU |}.

(** [self.currentStateIndex = i] *)
Definition withIndex (i : Z) (s : CurrentLoad) : CurrentLoad :=
  {| loadReviewDir := loadReviewDir s;
     svrdb := svrdb s;
     currentStateIndex := i;
     currentLoads := currentLoads s;
     nextLoads := nextLoads s;
     nextStart := nextStart s;
     nextFirstTime := nextFirstTime s;
     nextFirstVCDU := nextFirstVCDU s |}.

(** *** Directory scanner *)

(** One step of the pruning loop:
    [if (not lrdate in pruned) or pruned[lrdate] < t: pruned[lrdate] = t]. *)
Definition prune_step (pruned : gmap string string) (t : string)
  : gmap string string :=
  let lrdate := py_slice_m8_m1 t in
  match pruned !! lrdate with
  | None => <[lrdate := t]> pruned
  | Some u => if str_lt u t then <[lrdate := t]> pruned else pruned
  end.

(** The order of [sort(key=getmtime, reverse=True)] on keyed entries. *)
Definition mtime_ge (a b : Z * string) : Prop := b.1 <= a.1.

Global Instance mtime_ge_dec : RelDecision mtime_ge.
Proof. intros a b. unfold mtime_ge. apply _. Defined.

(** The keys of a sort are computed first, in list order; the first one
    that raises ends the call. *)
Fixpoint keyed (key : string -> res Z) (l : list string)
  : res (list (Z * string)) :=
  match l with
  | [] => inr []
  | x :: l' =>
      do m <- key x;
      do r <- keyed key l';
      inr ((m, x) :: r)
  end.

(** The values of the dictionary come out in no order the program controls;
    here they are taken in the order of [map_to_list], and everything stated
    about the scanner below holds for any other order. *)
Definition dict_values (pruned : gmap string string) : list string :=
  (map_to_list pruned).*2.

(** The middle of [getRecentLoads]: filter for the load review directory
    name format, then only keep the latest loads for each date. *)
Definition selectLatest (rawlist : list string) : list string :=
  let dirlist := omap lrdre_match rawlist in
  let pruned := foldl prune_step ∅ dirlist in
  dict_values pruned.

(** [dirlist.sort(key=lambda x: os.path.getmtime(x), reverse=True)] *)
Definition sortRecentFirst (fs : FS) (dirlist : list string)
  : res (list string) :=
  do ks <- keyed (getmtime fs) dirlist;
  inr ((merge_sort mtime_ge ks).*2).

(** [getRecentLoads(refFile)]: identify load directories more recent than
    the reference file. *)
Definition getRecentLoads (fs : FS) (root refFile : string)
  : res (list string) :=
  let x := find_newer fs root refFile in
  if negb (returncode x =? 0) then inl (CurrentLoadException (errout x))
  else
    let rawlist := py_split_lines "" (output x) in
    sortRecentFirst fs (selectLatest rawlist).

(** *** Load reader *)

(** [startTime(loadDir)]: time of first command for the specified loads. *)
Definition startTime (fs : FS) (loadDir : string) : res (option string) :=
  let hrcselPath :=
    loadDir +:+ "/" +:+ py_last 8 loadDir +:+ ".combined.hrcsel" in
  do hrcsel <- open_lines fs hrcselPath;
  inr (head (omap gmtre_match hrcsel)).

(** [firstTimeVCDU(loadDir)]: time and vcdu of the initial state vector. *)
Definition firstTimeVCDU (fs : FS) (loadDir : string)
  : res (option (string * Z)) :=
  let svrdbPath := loadDir +:+ "/" +:+ py_last 8 loadDir +:+ ".svrdb" in
  do lines <- open_lines fs svrdbPath;
  match List.find (fun t => bool_decide (is_Some (gmtre_match t))) lines with
  | None => inr None
  | Some t =>
      match take 2 (py_split t) with
      | [tag; vv] => do v <- py_int vv; inr (Some (tag, v))
      | _ => inl ValueError
      end
  end.

(** [slurpState(dir)]: read state vectors for specified loads. *)
Definition slurpState (fs : FS) (dir : string) : M unit :=
  let svrdbPath := dir +:+ "/" +:+ py_last 8 dir +:+ ".svrdb" in
  run lines <- lift (open_lines fs svrdbPath);
  assign (activated dir (py_rstrip <$> lines)).

(** *** Lookahead planner *)

(** [checkForNewLoads()]: note the presence of newer loads. *)
Definition checkForNewLoads (fs : FS) : M unit :=
  run s <- self;
  run dirlist <-
    lift (match nextLoads s with
          | Some d => if truthy d
                      then getRecentLoads fs (loadReviewDir s) d
                      else getRecentLoads fs (loadReviewDir s) (currentLoads s)
          | None => getRecentLoads fs (loadReviewDir s) (currentLoads s)
          end);
  match dirlist with
  | [] => ret tt
  | nextLoads' :: _ =>
      run nextStart' <- lift (startTime fs nextLoads');
      run first <- lift (firstTimeVCDU fs nextLoads');
      match first with
      | None => raise TypeError
      | Some (firstTime, firstVCDU) =>
          (* Discard failures *)
          if truthy_opt nextStart' && negb (firstVCDU =? 0) then
            assign (withPending nextLoads' nextStart' firstTime firstVCDU)
          else ret tt
      end
  end.

(** The loop of [__init__]: the most recent loads that start before the
    present. *)
Fixpoint firstStarted (fs : FS) (current_time : string) (dirlist : list string)
  : res (option string) :=
  match dirlist with
  | [] => inr None
  | d :: rest =>
      do start_time <- startTime fs d;
      match start_time with
      | Some st => if truthy st && str_le st current_time then inr (Some d)
                   else firstStarted fs current_time rest
      | None => firstStarted fs current_time rest
      end
  end.

(** [CurrentLoad(loadReviewDir)].  The temporary reference file [tfname]
    (dated [datespan] days back) and the formatted present [current_time]
    come from the clock and are arguments here. *)
Definition init (fs : FS) (loadReviewDir tfname current_time : string)
  : res CurrentLoad :=
  do dirlist <- getRecentLoads fs loadReviewDir tfname;
  do found <- firstStarted fs current_time dirlist;
  match found with
  | None => inl (CurrentLoadException "Failed to locate active loads")
  | Some d =>
      let blank :=
        {| loadReviewDir := loadReviewDir; svrdb := [];
           currentStateIndex := 0; currentLoads := "";
           nextLoads := None; nextStart := None;
           nextFirstTime := None; nextFirstVCDU := None |} in
      match (run _ <- slurpState fs d; checkForNewLoads fs) blank with
      | (inl e, _) => inl e
      | (inr _, s) => inr s
      end
  end.

(** *** Record accessors *)

(** [stateTime(k)]: time tag of state vector string at k. *)
Definition stateTime (svrdb : list string) (k : Z) : res string :=
  do line <- py_index svrdb k;
  inr (py_take 21 line).

(** [stateVCDU(k)]: VCDU value from state vector string at k. *)
Definition stateVCDU (svrdb : list string) (k : Z) : res Z :=
  do line <- py_index svrdb k;
  do tok <- py_index (py_split line) 1;
  py_int tok.

(** *** Transition controller *)

(** The condition of [checkAndChangeLoads], evaluated left to right with
    Python's short-circuit [and] and [or]. *)
Definition switchRequired (s : CurrentLoad)
    (atTime : option string) (atVCDU : option Z) : res bool :=
  let klast := Z.of_nat (length (svrdb s)) - 1 in
  do byVCDU <-
    match atVCDU with
    | None => inr false
    | Some v =>
        do n <- attr "nextFirstVCDU" (nextFirstVCDU s);
        if v >=? n then inr true
        else do c <- stateVCDU (svrdb s) klast; inr (v >=? c)
    end;
  if byVCDU then inr true
  else if truthy_opt atTime then
    match atTime with
    | None => inr false
    | Some t =>
        do n <- attr "nextFirstTime" (nextFirstTime s);
        if str_ge t n then inr true
        else do l <- stateTime (svrdb s) klast; inr (str_ge t l)
    end
  else inr false.

(** [checkAndChangeLoads(atTime, atVCDU)]: when required, switch to a new
    set of loads. *)
Definition checkAndChangeLoads (fs : FS)
    (atTime : option string) (atVCDU : option Z) : M unit :=
  run s <- self;
  run required <- lift (switchRequired s atTime atVCDU);
  if required then
    (* New loads should be ready *)
    match nextLoads s with
    | Some d =>
        if truthy d then
          (* Switch to new loads *)
          run _ <- slurpState fs d;
          checkForNewLoads fs
        else raise (CurrentLoadException "No new loads found")
    | None => raise (CurrentLoadException "No new loads found")
    end
  else ret tt.

(** *** Query engine *)

(** [self.currentStateIndex = i; return self.svrdb[self.currentStateIndex]] *)
Definition resolve (i : Z) : M string :=
  run _ <- assign (withIndex i);
  run s <- self;
  lift (py_index (svrdb s) (currentStateIndex s)).

(** The index the linear search by time arrives at from the cursor [cur]. *)
Definition linearTimeIndex (svrdb : list string) (cur : Z) (atTime : string)
  : res Z :=
  let len := Z.of_nat (length svrdb) in
  do t0 <- stateTime svrdb cur;
  if str_ge atTime t0 then
    do i <- whileUp (fun i => do t <- stateTime svrdb i;
                              inr (str_gt t atTime)) len (cur + 1);
    inr (i - 1)
  else
    whileDown (fun i => do t <- stateTime svrdb i;
                        inr (str_le t atTime)) startIndex (cur - 1).

(** The index the linear search by VCDU arrives at from the cursor [cur]. *)
Definition linearVCDUIndex (svrdb : list string) (cur : Z) (atVCDU : Z)
  : res Z :=
  let len := Z.of_nat (length svrdb) in
  do vcdu <- stateVCDU svrdb cur;
  let dvcdu := deltaVCDU vcdu atVCDU in
  if dvcdu >=? 0 then
    do i <- whileUp (fun i => do vcdu <- stateVCDU svrdb i;
                              inr (deltaVCDU vcdu atVCDU <? 0)) len (cur + 1);
    inr (i - 1)
  else
    whileDown (fun i => do vcdu <- stateVCDU svrdb i;
                        inr (deltaVCDU vcdu atVCDU >=? 0)) startIndex (cur - 1).

(** The index the binary search by time arrives at. *)
Definition binaryTimeIndex (svrdb : list string) (atTime : string) : res Z :=
  whileBisect (fun k => do t <- stateTime svrdb k; inr (str_ge atTime t))
              startIndex (Z.of_nat (length svrdb)).

(** The index the binary search by VCDU arrives at. *)
Definition binaryVCDUIndex (svrdb : list string) (atVCDU : Z) : res Z :=
  whileBisect (fun k => do vcdu <- stateVCDU svrdb k;
                        inr (deltaVCDU vcdu atVCDU >=? 0))
              startIndex (Z.of_nat (length svrdb)).

(** [getStateAtTime(atTime)]: the state vector at the specified time using
    linear search. *)
Definition getStateAtTime (fs : FS) (atTime : string) : M string :=
  run _ <- checkAndChangeLoads fs (Some atTime) None;
  run s <- self;
  run i <- lift (linearTimeIndex (svrdb s) (currentStateIndex s) atTime);
  resolve i.

(** [getStateAtVCDU(atVCDU)]: the state vector at the specified VCDU by
    linear search. *)
Definition getStateAtVCDU (fs : FS) (atVCDU : Z) : M string :=
  run _ <- checkAndChangeLoads fs None (Some atVCDU);
  run s <- self;
  run i <- lift (linearVCDUIndex (svrdb s) (currentStateIndex s) atVCDU);
  resolve i.

(** [binaryGetStateAtTime(atTime)]: the state vector at the specified time
    by binary search. *)
Definition binaryGetStateAtTime (fs : FS) (atTime : string) : M string :=
  run _ <- checkAndChangeLoads fs (Some atTime) None;
  run s <- self;
  run i <- lift (binaryTimeIndex (svrdb s) atTime);
  resolve i.

(** [binaryGetStateAtVCDU(atVCDU)]: the state vector at the specified
    VCDU. *)
Definition binaryGetStateAtVCDU (fs : FS) (atVCDU : Z) : M string :=
  run _ <- checkAndChangeLoads fs None (Some atVCDU);
  run s <- self;
  run i <- lift (binaryVCDUIndex (svrdb s) atVCDU);
  resolve i.

(** ** Concrete loads for the scenarios *)

(** A record carried over from the tail of the previous load. *)
Definition carried : string := "2024:099:00:00:00.000 1000 carried".

(** Forty carried records, then three records of the load itself. *)
Definition demo_svrdb : list string :=
  replicate 40 carried ++
  ["2024:100:00:00:00.000 2000 s40";
   "2024:100:00:00:10.000 2040 s41";
   "2024:100:00:00:20.000 2080 s42"].

(** Storage on which nothing can be found or read. *)
Definition no_fs : FS :=
  {| find_newer := fun _ _ => mkPopen 1 "" "find: no such directory";
     getmtime := fun _ => inl OSError;
     open_lines := fun _ => inl IOError |}.

(** A tracker on [demo_svrdb] with the cursor at [cur] and a successor
    that takes over a week later. *)
Definition demo_load (cur : Z) : CurrentLoad :=
  {| loadReviewDir := "/d0/hrc/occ/mp";
     svrdb := demo_svrdb;
     currentStateIndex := cur;
     currentLoads := "/d0/hrc/occ/mp/2024:100:A-APR0924A";
     nextLoads := Some "/d0/hrc/occ/mp/2024:107:A-APR1624A";
     nextStart := Some "2024:107:00:00:00.000";
     nextFirstTime := Some "2024:106:23:59:50.000";
     nextFirstVCDU := Some 50000 |}.

(** A load with two adjacent records of one timestamp. *)
Definition tie_svrdb : list string :=
  replicate 40 carried ++
  ["2024:099:23:00:00.000 2000 s40";
   "2024:100:00:00:00.000 2040 s41";
   "2024:100:00:00:00.000 2041 s42";
   "2024:100:00:00:30.000 2080 s43"].

Definition tie_load (cur : Z) : CurrentLoad :=
  {| loadReviewDir := "/d0/hrc/occ/mp";
     svrdb := tie_svrdb;
     currentStateIndex := cur;
     currentLoads := "/d0/hrc/occ/mp/2024:100:A-APR0924A";
     nextLoads := Some "/d0/hrc/occ/mp/2024:107:A-APR1624A";
     nextStart := Some "2024:107:00:00:00.000";
     nextFirstTime := Some "2024:106:23:59:50.000";
     nextFirstVCDU := Some 50000 |}.

(** The paths of the two loads of the scenarios. *)
Definition root_dir : string := "/d0/hrc/occ/mp".
Definition old_dir : string := "/d0/hrc/occ/mp/2024:100:A-APR0924A".
Definition new_dir : string := "/d0/hrc/occ/mp/2024:107:A-APR1624A".

(** A load that ends just before the counter wraps. *)
Definition wrap_svrdb : list string :=
  replicate 40 "2024:099:00:00:00.000 16777000 carried" ++
  ["2024:100:00:00:00.000 16777100 s40";
   "2024:100:00:00:10.000 16777150 s41";
   "2024:100:00:00:20.000 16777210 s42"].

(** The tracker on it, with a successor whose first record has counter 5. *)
Definition wrap_load : CurrentLoad :=
  {| loadReviewDir := root_dir;
     svrdb := wrap_svrdb;
     currentStateIndex := 40;
     currentLoads := old_dir;
     nextLoads := Some new_dir;
     nextStart := Some "2024:107:00:00:00.000";
     nextFirstTime := Some "2024:107:00:00:00.000";
     nextFirstVCDU := Some 5 |}.

(** The state vector file of the successor, as read line by line. *)
Definition new_lines : list string :=
  replicate 40 "2024:107:00:00:00.000 5 carried
" ++
  ["2024:107:00:00:01.000 8 n40
";
   "2024:107:00:00:10.000 30 n41
";
   "2024:107:00:00:20.000 70 n42
"].

(** Storage that holds the successor and nothing newer. *)
Definition next_fs : FS :=
  {| find_newer := fun _ _ => mkPopen 0 "" "";
     getmtime := fun _ => inr 0;
     open_lines := fun p =>
       if String.eqb p (new_dir +:+ "/APR1624A.svrdb") then inr new_lines
       else if String.eqb p (new_dir +:+ "/APR1624A.combined.hrcsel")
            then inr ["2024:107:00:00:00.000 first command
"]
       else inl IOError |}.

(** The tracker right after the switch to the successor on [next_fs]. *)
Definition switched_load : CurrentLoad :=
  {| loadReviewDir := root_dir;
     svrdb := py_rstrip <$> new_lines;
     currentStateIndex := 40;
     currentLoads := new_dir;
     nextLoads := None;
     nextStart := Some "2024:107:00:00:00.000";
     nextFirstTime := Some "2024:107:00:00:00.000";
     nextFirstVCDU := Some 5 |}.

(** Storage that holds one load and no successor.  [tf] is the temporary
    reference file of the constructor. *)
Definition single_fs (tf : string) : FS :=
  {| find_newer := fun _ ref =>
       if String.eqb ref tf
       then mkPopen 0 "/d0/hrc/occ/mp
/d0/hrc/occ/mp/2024:100:A-APR0924A
" ""
       else mkPopen 0 "" "";
     getmtime := fun _ => inr 1712620800;
     open_lines := fun p =>
       if String.eqb p (old_dir +:+ "/APR0924A.svrdb")
       then inr ((fun l => l +:+ "
") <$> demo_svrdb)
       else if String.eqb p (old_dir +:+ "/APR0924A.combined.hrcsel")
            then inr ["# commands
"; "2024:100:00:00:00.000 first command
"]
       else inl IOError |}.

(** The tracker the constructor builds on [single_fs]: no successor was
    found, so the three boundary attributes were never assigned. *)
Definition fresh_load : CurrentLoad :=
  {| loadReviewDir := root_dir;
     svrdb := demo_svrdb;
     currentStateIndex := 40;
     currentLoads := old_dir;
     nextLoads := None;
     nextStart := None;
     nextFirstTime := None;
     nextFirstVCDU := None |}.

(** Storage on which [find] reports the successor, whose state vector file
    holds the given lines. *)
Definition candidate_fs (lines : list string) : FS :=
  {| find_newer := fun _ _ =>
       mkPopen 0 "/d0/hrc/occ/mp/2024:107:A-APR1624A
" "";
     getmtime := fun _ => inr 1713225600;
     open_lines := fun p =>
       if String.eqb p (new_dir +:+ "/APR1624A.svrdb") then inr lines
       else if String.eqb p (new_dir +:+ "/APR1624A.combined.hrcsel")
            then inr ["2024:107:00:00:00.000 first command
"]
       else inl IOError |}.

(** Storage on which [find] prints the given text. *)
Definition listing_fs (text : string) : FS :=
  {| find_newer := fun _ _ => mkPopen 0 text "";
     getmtime := fun p =>
       if String.eqb p "/d0/hrc/occ/mp/2024:100:A-APR0924A" then inr 1712620800
       else if String.eqb p "/d0/hrc/occ/mp/2024:100:B-APR1024B"
            then inr 1712707200
       else if String.eqb p "/d0/hrc/occ/mp/2024:101:B-APR0924B"
            then inr 1712710000
       else inl OSError;
     open_lines := fun _ => inl IOError |}.

(** A load whose last two records share one timestamp. *)
Definition tie_end_svrdb : list string :=
  replicate 40 carried ++
  ["2024:099:23:00:00.000 2000 s40";
   "2024:100:00:00:00.000 2040 s41";
   "2024:100:00:00:00.000 2041 s42"].

(** The tracker on it, with the successor of [next_fs] pending. *)
Definition tie_end_load : CurrentLoad :=
  {| loadReviewDir := root_dir;
     svrdb := tie_end_svrdb;
     currentStateIndex := 40;
     currentLoads := old_dir;
     nextLoads := Some new_dir;
     nextStart := Some "2024:107:00:00:00.000";
     nextFirstTime := Some "2024:107:00:00:00.000";
     nextFirstVCDU := Some 5 |}.

(** A tracker on [tie_svrdb] as the constructor leaves it when no successor
    was found: the boundary attributes are unassigned. *)
Definition fresh_tie_load : CurrentLoad :=
  {| loadReviewDir := root_dir;
     svrdb := tie_svrdb;
     currentStateIndex := 40;
     currentLoads := old_dir;
     nextLoads := None;
     nextStart := None;
     nextFirstTime := None;
     nextFirstVCDU := None |}.

(** ** Vocabulary of the properties *)

(** Over an index range [[lo, len)] and a test [P] ("the record at this
    index is at or before the query"), an index is _resolved_ when it is in
    range, is [lo] or passes the test, and is the last index or is followed
    by one that fails it. *)
Definition resolved (lo len : Z) (P : Z -> bool) (r : Z) : Prop :=
  lo <= r < len /\ (r = lo \/ P r = true) /\
  (r + 1 = len \/ P (r + 1) = false).

(** The test is downward closed: records are in query order. *)
Definition antitone (lo len : Z) (P : Z -> bool) : Prop :=
  forall i j, lo <= i -> i <= j -> j < len -> P j = true -> P i = true.

(** The body of a linear search after its first test: forward scan and one
    step back, or backward scan. *)
Definition linearBody (lo len : Z) (up dn : Z -> res bool)
    (b0 : bool) (cur : Z) : res Z :=
  if b0 then do i <- whileUp up len (cur + 1); inr (i - 1)
  else whileDown dn lo (cur - 1).

(** The time tag at an index of the range. *)
Definition timeAt (svrdb : list string) (i : Z) : string :=
  match svrdb !! Z.to_nat i with
  | Some line => py_take 21 line
  | None => ""
  end.

(** Records are non-decreasing in timestamp from [startIndex] on. *)
Definition timeOrdered (svrdb : list string) : Prop :=
  forall i t u, startIndex <= i ->
    stateTime svrdb i = inr t -> stateTime svrdb (i + 1) = inr u ->
    str_le t u = true.

(** The record at [i] is at or before the query time. *)
Definition atOrBefore (svrdb : list string) (atTime : string) (i : Z) : bool :=
  str_le (timeAt svrdb i) atTime.

(** A list of strings is in non-decreasing order. *)
Fixpoint sortedb (l : list string) : bool :=
  match l with
  | a :: r => match r with
              | b :: _ => str_le a b && sortedb r
              | [] => true
              end
  | [] => true
  end.

(** Decision procedure for [timeOrdered]. *)
Definition timeOrderedb (svrdb : list string) : bool :=
  sortedb (py_take 21 <$> drop (Z.to_nat startIndex) svrdb).

(** The key of the pruning dictionary: the seven characters before the
    final revision letter of a load directory name ([lrdate] in the
    program). *)
Definition loadTag (t : string) : string := py_slice_m8_m1 t.

(** The year and day-of-year of a load directory name: the eight characters
    that start nineteen from the end. *)
Definition yearAndDay (t : string) : string :=
  String.substring (String.length t - 19) 8 t.

(** [x] is at least as recently modified as [y]. *)
Definition recentFirst (fs : FS) (x y : string) : Prop :=
  exists mx my, getmtime fs x = inr mx /\ getmtime fs y = inr my /\ my <= mx.

(** [x] is the greatest name of its tag among [l]. *)
Definition latestOfTag (l : list string) (x : string) : Prop :=
  x ∈ l /\ forall y, y ∈ l -> loadTag y = loadTag x -> str_le y x = true.

(** The state of the pruning loop after the names [l]: every entry is a
    name of [l] stored under its tag, and every name of [l] is at or below
    the entry of its tag. *)
Definition pruneInv (l : list string) (m : gmap string string) : Prop :=
  (forall k v, m !! k = Some v -> v ∈ l /\ loadTag v = k) /\
  (forall y, y ∈ l ->
     exists v, m !! loadTag y = Some v /\ str_le y v = true).

(** The counter at an index of the range. *)
Definition vcduAt (svrdb : list string) (i : Z) : Z :=
  match stateVCDU svrdb i with
  | inr c => c
  | inl _ => 0
  end.

(** Every record from [startIndex] on has a counter that reads. *)
Definition vcduReadable (svrdb : list string) : Prop :=
  forall i, startIndex <= i < Z.of_nat (length svrdb) ->
            exists c, stateVCDU svrdb i = inr c.

(** The record at [i] is at or before the queried counter, in the sense of
    the signed wraparound difference. *)
Definition counterAtOrBefore (svrdb : list string) (atVCDU : Z) (i : Z)
  : bool :=
  deltaVCDU (vcduAt svrdb i) atVCDU >=? 0.

(** A load whose counters advance by less than half a cycle from record to
    record, and by more than half a cycle in all. *)
Definition long_svrdb : list string :=
  replicate 40 "2024:099:00:00:00.000 0 carried" ++
  ["2024:100:00:00:00.000 0 s40";
   "2024:125:00:00:00.000 8388607 s41";
   "2024:150:00:00:00.000 16777214 s42"].

(** ** Further concrete loads *)

(** A tracker on a state vector file of two lines only. *)
Definition short_load : CurrentLoad :=
  {| loadReviewDir := root_dir;
     svrdb := ["2024:100:00:00:00.000 2000 a";
               "2024:100:00:00:10.000 2040 b"];
     currentStateIndex := startIndex;
     currentLoads := old_dir;
     nextLoads := Some new_dir;
     nextStart := Some "2024:107:00:00:00.000";
     nextFirstTime := Some "2024:107:00:00:00.000";
     nextFirstVCDU := Some 50000 |}.

(** ** Vocabulary for the text of the records *)

(** A character class that holds no whitespace. *)
Definition graphic (k : cls) : bool :=
  match k with
  | Lit d => negb (Ascii.is_space d)
  | _ => true
  end.

(** The characters of a string up to its first whitespace. *)
Fixpoint first_word (s : string) : string :=
  match s with
  | EmptyString => EmptyString
  | String c r => if Ascii.is_space c then EmptyString
                  else String c (first_word r)
  end.

(** What follows them. *)
Fixpoint after_word (s : string) : string :=
  match s with
  | EmptyString => EmptyString
  | String c r => if Ascii.is_space c then r else after_word r
  end.

(** ** What every tracker satisfies *)

(** The facts about the attributes that the constructor establishes and
    every method keeps: a pending successor and the active load are names
    of at least twenty characters (so that [if self.nextLoads] tests for
    [None]); a pending successor comes with all three boundary attributes;
    the boundary attributes are assigned together; the cached first command
    time has 21 characters; the cached counter is never 0; no record ends
    in whitespace. *)
Definition trackerInv (s : CurrentLoad) : Prop :=
  (forall d, nextLoads s = Some d ->
     (20 <= String.length d)%nat /\
     exists st ft fv, nextStart s = Some st /\ nextFirstTime s = Some ft /\
                      nextFirstVCDU s = Some fv) /\
  (nextStart s = None <-> nextFirstTime s = None) /\
  (nextFirstTime s = None <-> nextFirstVCDU s = None) /\
  (forall st, nextStart s = Some st -> String.length st = 21%nat) /\
  nextFirstVCDU s <> Some 0 /\
  (forall line, line ∈ svrdb s -> py_rstrip line = line) /\
  (20 <= String.length (currentLoads s))%nat.

(** The trackers a program can hold: built by the constructor, then used
    through the public methods, on whatever the storage holds at each
    call, whether the call returns or raises. *)
Inductive reachable : CurrentLoad -> Prop :=
  | reach_init fs root tf now s :
      init fs root tf now = inr s -> reachable s
  | reach_checkForNewLoads fs s :
      reachable s -> reachable (checkForNewLoads fs s).2
  | reach_getStateAtTime fs atTime s :
      reachable s -> reachable (getStateAtTime fs atTime s).2
  | reach_getStateAtVCDU fs atVCDU s :
      reachable s -> reachable (getStateAtVCDU fs atVCDU s).2
  | reach_binaryGetStateAtTime fs atTime s :
      reachable s -> reachable (binaryGetStateAtTime fs atTime s).2
  | reach_binaryGetStateAtVCDU fs atVCDU s :
      reachable s -> reachable (binaryGetStateAtVCDU fs atVCDU s).2.

(** * Properties *)

(** ** Sanity checks of the Python helpers *)

Example py_index_last : py_index [10; 20; 30] (-1) = inr 30.
Proof. reflexivity. Qed.
Example py_index_out : py_index [10; 20; 30] 3 = inl IndexError.
Proof. reflexivity. Qed.
Example py_slice_tag :
  py_slice_m8_m1 "/d0/mp/2024:100:A-APR0824A" = "APR0824"
  /\ py_last 8 "/d0/mp/2024:100:A-APR0824A" = "APR0824A".
Proof. split; reflexivity. Qed.
Example py_rstrip_ex : py_rstrip "a b  
" = "a b".
Proof. reflexivity. Qed.
Example py_split_lines_ex : py_split_lines "" "a
b
" = ["a"; "b"; ""].
Proof. reflexivity. Qed.
Example py_int_ex : py_int "16777210" = inr 16777210 /\ py_int "x1" = inl ValueError.
Proof. split; reflexivity. Qed.

Example gmtre_match_ex :
  gmtre_match "2024:100:00:00:00.000 16777210 rest" = Some "2024:100:00:00:00.000"
  /\ gmtre_match "# 2024:100:00:00:00.000" = None.
Proof. split; reflexivity. Qed.

Example lrdre_match_ex :
  lrdre_match "/d0/mp/2024:100:A-APR0824A" = Some "/d0/mp/2024:100:A-APR0824A"
  /\ lrdre_match "/d0/mp/2024:100:A-APR0824A.old" = Some "/d0/mp/2024:100:A-APR0824A"
  /\ lrdre_match "/d0/mp/2024:100:A-APR0824B" = None
  /\ lrdre_match "/d0/mp/2024:100:T-APR0824T" = None
  /\ lrdre_match "/d0/mp" = None.
Proof. repeat split; reflexivity. Qed.

(** ** Cyclic counter arithmetic *)

Lemma vcduWrap_val : vcduWrap = 16777216.
Proof. reflexivity. Qed.

Example deltaVCDU_wraps_forward : deltaVCDU 16777210 10 = 16.
Proof. reflexivity. Qed.

Example deltaVCDU_wraps_backward : deltaVCDU 5 16777210 = -11.
Proof. reflexivity. Qed.

Example deltaVCDU_antipodal_up : deltaVCDU 0 8388608 = 8388608.
Proof. reflexivity. Qed.

(** Case analysis of [deltaVCDU] on counters of the 24-bit range. *)
Lemma deltaVCDU_cases (a b : Z) :
  0 <= a < 16777216 -> 0 <= b < 16777216 ->
  (b - a < -8388608 /\ deltaVCDU a b = b - a + 16777216) \/
  (-8388608 <= b - a <= 8388608 /\ deltaVCDU a b = b - a) \/
  (8388608 < b - a /\ deltaVCDU a b = b - a - 16777216).
Proof.
  intros Ha Hb. unfold deltaVCDU. rewrite vcduWrap_val. cbv zeta.
  destruct (Z.ltb_spec (b - a) 0) as [Hneg|Hpos].
  - destruct (Z.gtb_spec (Z.abs (b - a)) (Z.abs (b - a + 16777216))); lia.
  - destruct (Z.gtb_spec (b - a) (Z.abs (b - a - 16777216))); lia.
Qed.

(** C6, as the specification states it, fails at the antipodal point

    The value [deltaVCDU 8388608 0] is [-2^23], which is outside the
    half-open interval [(-2^23, 2^23]]. *)
Lemma deltaVCDU_antipodal_down :
  0 <= 8388608 < 2 ^ 24 /\ 0 <= 0 < 2 ^ 24 /\
  ~ (- 2 ^ 23 < deltaVCDU 8388608 0 <= 2 ^ 23).
Proof. vm_compute. intuition discriminate. Qed.

(** C6 (amended): for all [a], [b] in [[0, 2^24)], [deltaVCDU a b] is
    congruent to [b - a] modulo [2^24] and lies in the closed interval
    [[-2^23, 2^23]]; the lower end [-2^23] is returned exactly when
    [b - a = -2^23], and in every other case the result is the unique
    integer of [(-2^23, 2^23]] congruent to [b - a]. *)
Theorem deltaVCDU_minimal_difference (a b : Z) :
  0 <= a < 2 ^ 24 -> 0 <= b < 2 ^ 24 ->
  (deltaVCDU a b - (b - a)) mod 2 ^ 24 = 0 /\
  - 2 ^ 23 <= deltaVCDU a b <= 2 ^ 23 /\
  (deltaVCDU a b = - 2 ^ 23 <-> b - a = - 2 ^ 23) /\
  (b - a <> - 2 ^ 23 ->
   - 2 ^ 23 < deltaVCDU a b <= 2 ^ 23 /\
   forall d : Z, - 2 ^ 23 < d <= 2 ^ 23 -> (d - (b - a)) mod 2 ^ 24 = 0 ->
                 d = deltaVCDU a b).
Proof.
  change (2 ^ 24) with 16777216. change (2 ^ 23) with 8388608.
  intros Ha Hb.
  destruct (deltaVCDU_cases a b Ha Hb) as [[Hr ->]|[[Hr ->]|[Hr ->]]].
  - repeat split; try lia.
    + replace (b - a + 16777216 - (b - a)) with (1 * 16777216) by lia.
      apply Z_mod_mult.
    + intros d Hd Hm. apply Z.mod_divide in Hm; [|lia].
      destruct Hm as [k Hk]. lia.
  - repeat split; try lia.
    + replace (b - a - (b - a)) with 0 by lia. reflexivity.
    + intros d Hd Hm. apply Z.mod_divide in Hm; [|lia].
      destruct Hm as [k Hk]. lia.
  - repeat split; try lia.
    + replace (b - a - 16777216 - (b - a)) with (-1 * 16777216) by lia.
      apply Z_mod_mult.
    + intros d Hd Hm. apply Z.mod_divide in Hm; [|lia].
      destruct Hm as [k Hk]. lia.
Qed.

Lemma deltaVCDU_minimal_difference_witness :
  (deltaVCDU 16777210 10 - (10 - 16777210)) mod 2 ^ 24 = 0 /\
  - 2 ^ 23 <= deltaVCDU 16777210 10 <= 2 ^ 23.
Proof.
  destruct (deltaVCDU_minimal_difference 16777210 10) as (H1 & H2 & _).
  - vm_compute. intuition discriminate.
  - vm_compute. intuition discriminate.
  - exact (conj H1 H2).
Defined.


(** ** The loops terminate within the depth they are given *)

(** The recursion depth chosen above is enough: any larger one gives the
    same result, so no loop is cut short. *)
Lemma scanUp_depth brk len n i :
  (Z.to_nat (len - i) <= n)%nat ->
  scanUp brk len n i = whileUp brk len i.
Proof.
  unfold whileUp. revert i.
  induction n as [|n IH]; intros i Hn.
  - replace (Z.to_nat (len - i)) with O by lia. reflexivity.
  - destruct (Z.to_nat (len - i)) as [|m] eqn:Hm; simpl.
    + destruct (Z.ltb_spec i len); [lia|reflexivity].
    + destruct (i <? len); [|reflexivity].
      destruct (brk i) as [e|[|]]; simpl; try reflexivity.
      rewrite IH by lia. replace m with (Z.to_nat (len - (i + 1))) by lia.
      reflexivity.
Qed.

Lemma scanDown_depth brk lo n i :
  (Z.to_nat (i - lo) <= n)%nat ->
  scanDown brk lo n i = whileDown brk lo i.
Proof.
  unfold whileDown. revert i.
  induction n as [|n IH]; intros i Hn.
  - replace (Z.to_nat (i - lo)) with O by lia. reflexivity.
  - destruct (Z.to_nat (i - lo)) as [|m] eqn:Hm; simpl.
    + destruct (Z.gtb_spec i lo); [lia|reflexivity].
    + destruct (i >? lo); [|reflexivity].
      destruct (brk i) as [e|[|]]; simpl; try reflexivity.
      rewrite IH by lia. replace m with (Z.to_nat (i - 1 - lo)) by lia.
      reflexivity.
Qed.

Lemma bisect_mid klo khi :
  klo + 1 < khi -> klo < (klo + khi) / 2 < khi.
Proof.
  intros H.
  assert (H1 : 2 * ((klo + khi) / 2) <= klo + khi)
    by (apply Z.mul_div_le; lia).
  assert (H2 : klo + khi < 2 * ((klo + khi) / 2) + 2).
  { pose proof (Z.mod_pos_bound (klo + khi) 2 ltac:(lia)).
    pose proof (Z.div_mod (klo + khi) 2 ltac:(lia)). lia. }
  lia.
Qed.

Lemma bisect_depth ge n m klo khi :
  (Z.to_nat (khi - klo) <= n)%nat -> (Z.to_nat (khi - klo) <= m)%nat ->
  bisect ge n klo khi = bisect ge m klo khi.
Proof.
  revert m klo khi.
  induction n as [|n IH]; intros m klo khi Hn Hm.
  - destruct m as [|m]; [reflexivity|]. simpl.
    destruct (Z.gtb_spec khi (klo + 1)); [lia|reflexivity].
  - destruct m as [|m]; simpl.
    + destruct (Z.gtb_spec khi (klo + 1)); [lia|reflexivity].
    + destruct (Z.gtb_spec khi (klo + 1)) as [Hgt|]; [|reflexivity].
      pose proof (bisect_mid klo khi ltac:(lia)).
      destruct (ge ((klo + khi) / 2)) as [e|[|]]; simpl; try reflexivity;
        apply IH; lia.
Qed.



(** ** What the three loops compute

    Over an index range [[lo, len)] and a test [P] ("the record at this
    index is at or before the query"), an index is _resolved_ when it is in
    range, is [lo] or passes the test, and is the last index or is followed
    by one that fails it. *)

Section SearchSpec.

Variables (lo len : Z) (P : Z -> bool).

Lemma resolved_unique r r' :
  antitone lo len P -> resolved lo len P r -> resolved lo len P r' -> r = r'.
Proof.
  intros Hmono (Hr & Hlo & Hhi) (Hr' & Hlo' & Hhi').
  destruct (Z.lt_trichotomy r r') as [Hlt|[Heq|Hgt]]; [|exact Heq|].
  - exfalso. destruct Hlo' as [->|Hp]; [lia|].
    destruct Hhi as [Hend|Hf]; [lia|].
    rewrite (Hmono (r + 1) r') in Hf by (lia || assumption). discriminate.
  - exfalso. destruct Hlo as [->|Hp]; [lia|].
    destruct Hhi' as [Hend|Hf]; [lia|].
    rewrite (Hmono (r' + 1) r) in Hf by (lia || assumption). discriminate.
Qed.

(** Under [antitone lo len P], the resolved index is the greatest index that
    passes the test (or [lo] when none does). *)
Lemma resolved_greatest r j :
  antitone lo len P -> resolved lo len P r -> lo <= j < len -> P j = true -> j <= r.
Proof.
  intros Hmono (Hr & _ & Hhi) Hj Hp.
  destruct (Z.le_gt_cases j r) as [|Hgt]; [assumption|exfalso].
  destruct Hhi as [Hend|Hf]; [lia|].
  rewrite (Hmono (r + 1) j) in Hf by (lia || assumption). discriminate.
Qed.

Variables (up dn ge : Z -> res bool).
Hypothesis Hup : forall i, lo <= i < len -> up i = inr (negb (P i)).
Hypothesis Hdn : forall i, lo <= i < len -> dn i = inr (P i).
Hypothesis Hge : forall i, lo <= i < len -> ge i = inr (P i).

Lemma scanUp_spec n i :
  lo <= i <= len -> (Z.to_nat (len - i) <= n)%nat ->
  exists r, scanUp up len n i = inr r /\ i <= r <= len /\
            (forall j, i <= j < r -> P j = true) /\
            (r = len \/ P r = false).
Proof.
  revert i. induction n as [|n IH]; intros i Hi Hn; simpl.
  - exists i. repeat split; lia.
  - destruct (Z.ltb_spec i len) as [Hlt|Hge'].
    + rewrite Hup by lia. simpl. destruct (P i) eqn:HP; simpl.
      * destruct (IH (i + 1)) as (r & Hr & Hrange & Hall & Hstop);
          [lia|lia|].
        exists r. split; [exact Hr|]. split; [lia|]. split; [|exact Hstop].
        intros j Hj. destruct (Z.eq_dec j i) as [->|]; [exact HP|].
        apply Hall; lia.
      * exists i. repeat split; try lia; right; exact HP.
    + exists i. repeat split; lia.
Qed.

Lemma scanDown_spec n i :
  lo <= i < len -> (Z.to_nat (i - lo) <= n)%nat ->
  exists r, scanDown dn lo n i = inr r /\ lo <= r <= i /\
            (forall j, r < j <= i -> P j = false) /\
            (r = lo \/ P r = true).
Proof.
  revert i. induction n as [|n IH]; intros i Hi Hn; simpl.
  - exists i. repeat split; lia.
  - destruct (Z.gtb_spec i lo) as [Hgt|Hle].
    + rewrite Hdn by lia. simpl. destruct (P i) eqn:HP; simpl.
      * exists i. repeat split; try lia; right; exact HP.
      * destruct (IH (i - 1)) as (r & Hr & Hrange & Hall & Hstop);
          [lia|lia|].
        exists r. split; [exact Hr|]. split; [lia|]. split; [|exact Hstop].
        intros j Hj. destruct (Z.eq_dec j i) as [->|]; [exact HP|].
        apply Hall; lia.
    + exists i. repeat split; lia.
Qed.

Lemma bisect_spec n klo khi :
  lo <= klo -> klo < khi -> khi <= len ->
  (Z.to_nat (khi - klo) <= n)%nat ->
  exists r, bisect ge n klo khi = inr r /\ klo <= r < khi /\
            (r = klo \/ P r = true) /\
            (r + 1 = khi \/ P (r + 1) = false).
Proof.
  revert klo khi. induction n as [|n IH]; intros klo khi Hlo Hlt Hhi Hn.
  - lia.
  - simpl. destruct (Z.gtb_spec khi (klo + 1)) as [Hgt|Hle].
    + pose proof (bisect_mid klo khi ltac:(lia)) as Hk.
      rewrite Hge by lia. simpl.
      destruct (P ((klo + khi) / 2)) eqn:HP.
      * destruct (IH ((klo + khi) / 2) khi) as (r & Hr & Hrange & Hl & Hh);
          [lia..|].
        exists r. split; [exact Hr|]. split; [lia|]. split; [|exact Hh].
        right. destruct Hl as [->|Hl]; assumption.
      * destruct (IH klo ((klo + khi) / 2)) as (r & Hr & Hrange & Hl & Hh);
          [lia..|].
        exists r. split; [exact Hr|]. split; [lia|]. split; [exact Hl|].
        right. destruct Hh as [Heq|Hh]; [|exact Hh].
        rewrite Heq. exact HP.
    + exists klo. repeat split; lia.
Qed.

(** The binary search resolves, from any cursor. *)
Lemma whileBisect_resolved :
  lo < len -> exists r, whileBisect ge lo len = inr r /\ resolved lo len P r.
Proof.
  intros Hlen. unfold whileBisect.
  destruct (bisect_spec (Z.to_nat (len - lo)) lo len) as (r & Hr & H1 & H2 & H3);
    [lia..|].
  exists r. split; [exact Hr|]. split; [lia|]. split; assumption.
Qed.

(** The linear search resolves, unless it starts at [lo] with a query
    that precedes the record there. *)
Lemma linearBody_resolved cur :
  lo <= cur < len -> (lo < cur \/ P lo = true) ->
  exists r, linearBody lo len up dn (P cur) cur = inr r /\ resolved lo len P r.
Proof.
  intros Hcur Hok. unfold linearBody.
  destruct (P cur) eqn:HP.
  - unfold whileUp.
    destruct (scanUp_spec (Z.to_nat (len - (cur + 1))) (cur + 1))
      as (r & Hr & Hrange & Hall & Hstop); [lia..|].
    rewrite Hr. simpl. exists (r - 1). split; [reflexivity|].
    split; [lia|]. split.
    + right. destruct (Z.eq_dec (r - 1) cur) as [->|]; [exact HP|].
      apply Hall; lia.
    + replace (r - 1 + 1) with r by lia. exact Hstop.
  - assert (Hlt : lo < cur).
    { destruct Hok as [|Hlo]; [assumption|].
      destruct (Z.eq_dec cur lo) as [->|]; [congruence|lia]. }
    unfold whileDown.
    destruct (scanDown_spec (Z.to_nat (cur - 1 - lo)) (cur - 1))
      as (r & Hr & Hrange & Hall & Hstop); [lia..|].
    exists r. split; [exact Hr|]. split; [lia|]. split; [exact Hstop|].
    right. destruct (Z.eq_dec (r + 1) cur) as [->|]; [exact HP|].
    apply Hall; lia.
Qed.

(** The excluded case: from the cursor [lo], with a query that precedes
    the record there, the backward scan starts below [lo], its loop does
    not run, and the index [lo - 1] comes out. *)
Lemma linearBody_below :
  P lo = false -> linearBody lo len up dn (P lo) lo = inr (lo - 1).
Proof.
  intros HP. unfold linearBody, whileDown. rewrite HP.
  replace (Z.to_nat (lo - 1 - lo)) with O by lia. reflexivity.
Qed.

(** Away from that case the two strategies agree. *)
Lemma linear_binary_agree cur :
  antitone lo len P -> lo <= cur < len -> (lo < cur \/ P lo = true) ->
  exists r, linearBody lo len up dn (P cur) cur = inr r /\
            whileBisect ge lo len = inr r /\ resolved lo len P r.
Proof.
  intros Hmono Hcur Hok.
  destruct (linearBody_resolved cur Hcur Hok) as (r & Hr & Hres).
  destruct whileBisect_resolved as (r' & Hr' & Hres'); [lia|].
  exists r. split; [exact Hr|]. split; [|exact Hres].
  rewrite Hr'. f_equal. apply resolved_unique; assumption.
Qed.

End SearchSpec.

(** ** Strings in Python order *)

Lemma str_le_iff s t : str_le s t = true <-> (s ≤ t)%string.
Proof. unfold str_le, String.le. symmetry. apply Is_true_true. Qed.

Lemma str_le_refl s : str_le s s = true.
Proof. apply str_le_iff. reflexivity. Qed.

Lemma str_le_trans s t u :
  str_le s t = true -> str_le t u = true -> str_le s u = true.
Proof. rewrite !str_le_iff. intros H1 H2. by trans t. Qed.

Lemma str_gt_not_le t a : str_gt t a = negb (str_le t a).
Proof.
  unfold str_gt, str_le, String.ltb, String.leb.
  rewrite (String.compare_antisym a t).
  destruct (String.compare t a); reflexivity.
Qed.

Lemma str_ge_le a t : str_ge a t = str_le t a.
Proof. reflexivity. Qed.

(** ** Records read by index *)

Lemma startIndex_nonneg : 0 <= startIndex.
Proof. discriminate. Qed.

Lemma py_index_in_range {A : Type} (l : list A) (k : Z) :
  0 <= k < Z.of_nat (length l) ->
  exists a, l !! Z.to_nat k = Some a /\ py_index l k = inr a.
Proof.
  intros Hk. unfold py_index. cbv zeta.
  destruct (Z.ltb_spec k 0); [lia|].
  destruct (Z.ltb_spec k 0); [lia|].
  destruct (Z.leb_spec (Z.of_nat (length l)) k); [lia|]. simpl.
  destruct (lookup_lt_is_Some_2 l (Z.to_nat k)) as [a Ha]; [lia|].
  exists a. rewrite Ha. split; reflexivity.
Qed.

Lemma py_index_inr_nonneg {A : Type} (l : list A) (k : Z) (a : A) :
  0 <= k -> py_index l k = inr a ->
  k < Z.of_nat (length l) /\ l !! Z.to_nat k = Some a.
Proof.
  intros Hk. unfold py_index. cbv zeta.
  destruct (Z.ltb_spec k 0); [lia|].
  destruct (Z.ltb_spec k 0); [lia|].
  destruct (Z.leb_spec (Z.of_nat (length l)) k); simpl; [discriminate|].
  destruct (l !! Z.to_nat k) eqn:E; [|discriminate].
  intros [= ->]. split; [lia|reflexivity].
Qed.

Lemma stateTime_in_range svrdb i :
  0 <= i < Z.of_nat (length svrdb) -> stateTime svrdb i = inr (timeAt svrdb i).
Proof.
  intros Hi. unfold stateTime, timeAt.
  destruct (py_index_in_range svrdb i Hi) as (a & Ha & ->).
  rewrite Ha. reflexivity.
Qed.

Lemma stateTime_inr svrdb i t :
  0 <= i -> stateTime svrdb i = inr t ->
  i < Z.of_nat (length svrdb) /\ t = timeAt svrdb i.
Proof.
  intros Hi. unfold stateTime, timeAt.
  destruct (py_index svrdb i) as [e|a] eqn:E; simpl; [discriminate|].
  intros [= <-]. destruct (py_index_inr_nonneg _ _ _ Hi E) as [Hlt ->].
  split; [exact Hlt|reflexivity].
Qed.

(** ** Queries by time on a load in time order *)

Lemma timeOrdered_pairwise svrdb i j :
  timeOrdered svrdb -> startIndex <= i -> i <= j ->
  j < Z.of_nat (length svrdb) ->
  str_le (timeAt svrdb i) (timeAt svrdb j) = true.
Proof.
  intros Hord Hi Hij Hj. pose proof startIndex_nonneg.
  replace j with (i + Z.of_nat (Z.to_nat (j - i))) in * by lia.
  generalize dependent (Z.to_nat (j - i)). intros n _.
  induction n as [|n IH]; intros Hj.
  - rewrite Z.add_0_r. apply str_le_refl.
  - apply str_le_trans with (timeAt svrdb (i + Z.of_nat n)); [apply IH; lia|].
    apply (Hord (i + Z.of_nat n)); [lia|apply stateTime_in_range; lia|].
    replace (i + Z.of_nat n + 1) with (i + Z.of_nat (S n)) by lia.
    apply stateTime_in_range; lia.
Qed.

Lemma atOrBefore_antitone svrdb atTime :
  timeOrdered svrdb ->
  antitone startIndex (Z.of_nat (length svrdb)) (atOrBefore svrdb atTime).
Proof.
  intros Hord i j Hi Hij Hj. unfold atOrBefore. intros Hp.
  eapply str_le_trans; [|exact Hp].
  apply timeOrdered_pairwise; assumption.
Qed.

Section TimeSearch.

Variables (svrdb : list string) (atTime : string).

Lemma time_up_test i :
  startIndex <= i < (Z.of_nat (length svrdb)) ->
  (do t <- stateTime svrdb i; inr (str_gt t atTime)) = inr (negb (atOrBefore svrdb atTime i)).
Proof.
  intros Hi. pose proof startIndex_nonneg.
  rewrite stateTime_in_range by lia. simpl.
  rewrite str_gt_not_le. reflexivity.
Qed.

Lemma time_dn_test i :
  startIndex <= i < (Z.of_nat (length svrdb)) ->
  (do t <- stateTime svrdb i; inr (str_le t atTime)) = inr (atOrBefore svrdb atTime i).
Proof.
  intros Hi. pose proof startIndex_nonneg.
  rewrite stateTime_in_range by lia. reflexivity.
Qed.

Lemma time_ge_test i :
  startIndex <= i < (Z.of_nat (length svrdb)) ->
  (do t <- stateTime svrdb i; inr (str_ge atTime t)) = inr (atOrBefore svrdb atTime i).
Proof.
  intros Hi. pose proof startIndex_nonneg.
  rewrite stateTime_in_range by lia. reflexivity.
Qed.

Lemma linearTimeIndex_body cur :
  startIndex <= cur < (Z.of_nat (length svrdb)) ->
  linearTimeIndex svrdb cur atTime =
  linearBody startIndex (Z.of_nat (length svrdb))
    (fun i => do t <- stateTime svrdb i; inr (str_gt t atTime))
    (fun i => do t <- stateTime svrdb i; inr (str_le t atTime))
    (atOrBefore svrdb atTime cur) cur.
Proof.
  intros Hcur. pose proof startIndex_nonneg.
  unfold linearTimeIndex, linearBody.
  rewrite stateTime_in_range by lia. reflexivity.
Qed.

(** The binary search by time resolves whenever the load has a record at
    [startIndex]. *)
Lemma binaryTimeIndex_resolved :
  startIndex < (Z.of_nat (length svrdb)) ->
  exists r, binaryTimeIndex svrdb atTime = inr r /\
            resolved startIndex (Z.of_nat (length svrdb)) (atOrBefore svrdb atTime) r.
Proof.
  intros Hlen. unfold binaryTimeIndex.
  apply whileBisect_resolved; [apply time_ge_test|exact Hlen].
Qed.

(** From a cursor above [startIndex], or with a query at or after the
    record at [startIndex], the linear search by time resolves. *)
Lemma linearTimeIndex_resolved cur :
  startIndex <= cur < (Z.of_nat (length svrdb)) -> (startIndex < cur \/ atOrBefore svrdb atTime startIndex = true) ->
  exists r, linearTimeIndex svrdb cur atTime = inr r /\
            resolved startIndex (Z.of_nat (length svrdb)) (atOrBefore svrdb atTime) r.
Proof.
  intros Hcur Hok. rewrite linearTimeIndex_body by exact Hcur.
  apply linearBody_resolved;
    [apply time_up_test|apply time_dn_test|exact Hcur|exact Hok].
Qed.

(** From the cursor [startIndex], with a query before the record there,
    the linear search by time leaves the range. *)
Lemma linearTimeIndex_below :
  startIndex < (Z.of_nat (length svrdb)) -> atOrBefore svrdb atTime startIndex = false ->
  linearTimeIndex svrdb startIndex atTime = inr (startIndex - 1).
Proof.
  intros Hlen HP. rewrite linearTimeIndex_body by lia.
  apply linearBody_below. exact HP.
Qed.

(** On a load in time order the two searches by time agree, outside the
    case above. *)
Lemma linear_binary_time_agree cur :
  timeOrdered svrdb ->
  startIndex <= cur < (Z.of_nat (length svrdb)) -> (startIndex < cur \/ atOrBefore svrdb atTime startIndex = true) ->
  exists r, linearTimeIndex svrdb cur atTime = inr r /\
            binaryTimeIndex svrdb atTime = inr r /\
            resolved startIndex (Z.of_nat (length svrdb)) (atOrBefore svrdb atTime) r.
Proof.
  intros Hord Hcur Hok.
  destruct (linearTimeIndex_resolved cur Hcur Hok) as (r & Hr & Hres).
  destruct binaryTimeIndex_resolved as (r' & Hr' & Hres'); [lia|].
  exists r. split; [exact Hr|]. split; [|exact Hres].
  rewrite Hr'. f_equal.
  apply (resolved_unique startIndex (Z.of_nat (length svrdb)) (atOrBefore svrdb atTime)); try assumption.
  apply atOrBefore_antitone. exact Hord.
Qed.

End TimeSearch.

(** ** Queries by counter *)

Lemma stateVCDU_in_range svrdb i :
  vcduReadable svrdb -> startIndex <= i < Z.of_nat (length svrdb) ->
  stateVCDU svrdb i = inr (vcduAt svrdb i).
Proof.
  intros Hread Hi. unfold vcduAt.
  destruct (Hread i Hi) as [c ->]. reflexivity.
Qed.

Lemma neg_test_not_ge (d : Z) : (d <? 0) = negb (d >=? 0).
Proof. destruct (Z.ltb_spec d 0), (Z.geb_spec d 0); (reflexivity || lia). Qed.

Section VCDUSearch.

Variables (svrdb : list string) (atVCDU : Z).
Hypothesis Hread : vcduReadable svrdb.

Lemma vcdu_up_test i :
  startIndex <= i < Z.of_nat (length svrdb) ->
  (do vcdu <- stateVCDU svrdb i; inr (deltaVCDU vcdu atVCDU <? 0))
  = inr (negb (counterAtOrBefore svrdb atVCDU i)).
Proof.
  intros Hi. rewrite stateVCDU_in_range by assumption. simpl.
  rewrite neg_test_not_ge. reflexivity.
Qed.

Lemma vcdu_ge_test i :
  startIndex <= i < Z.of_nat (length svrdb) ->
  (do vcdu <- stateVCDU svrdb i; inr (deltaVCDU vcdu atVCDU >=? 0))
  = inr (counterAtOrBefore svrdb atVCDU i).
Proof.
  intros Hi. rewrite stateVCDU_in_range by assumption. reflexivity.
Qed.

Lemma linearVCDUIndex_body cur :
  startIndex <= cur < Z.of_nat (length svrdb) ->
  linearVCDUIndex svrdb cur atVCDU =
  linearBody startIndex (Z.of_nat (length svrdb))
    (fun i => do vcdu <- stateVCDU svrdb i; inr (deltaVCDU vcdu atVCDU <? 0))
    (fun i => do vcdu <- stateVCDU svrdb i; inr (deltaVCDU vcdu atVCDU >=? 0))
    (counterAtOrBefore svrdb atVCDU cur) cur.
Proof.
  intros Hcur. unfold linearVCDUIndex, linearBody.
  rewrite stateVCDU_in_range by assumption. reflexivity.
Qed.

(** The binary search by counter resolves. *)
Lemma binaryVCDUIndex_resolved :
  startIndex < Z.of_nat (length svrdb) ->
  exists r, binaryVCDUIndex svrdb atVCDU = inr r /\
            resolved startIndex (Z.of_nat (length svrdb))
              (counterAtOrBefore svrdb atVCDU) r.
Proof.
  intros Hlen. unfold binaryVCDUIndex.
  apply whileBisect_resolved; [apply vcdu_ge_test|exact Hlen].
Qed.

(** The linear search by counter resolves, from a cursor above
    [startIndex] or for a query at or after the record at [startIndex]. *)
Lemma linearVCDUIndex_resolved cur :
  startIndex <= cur < Z.of_nat (length svrdb) ->
  (startIndex < cur \/ counterAtOrBefore svrdb atVCDU startIndex = true) ->
  exists r, linearVCDUIndex svrdb cur atVCDU = inr r /\
            resolved startIndex (Z.of_nat (length svrdb))
              (counterAtOrBefore svrdb atVCDU) r.
Proof.
  intros Hcur Hok. rewrite linearVCDUIndex_body by exact Hcur.
  apply linearBody_resolved;
    [apply vcdu_up_test|apply vcdu_ge_test|exact Hcur|exact Hok].
Qed.

(** When the records are in counter order for the query, the two searches
    by counter agree, outside the case of the cursor at [startIndex] with
    a query before the record there. *)
Lemma linear_binary_vcdu_agree cur :
  antitone startIndex (Z.of_nat (length svrdb))
    (counterAtOrBefore svrdb atVCDU) ->
  startIndex <= cur < Z.of_nat (length svrdb) ->
  (startIndex < cur \/ counterAtOrBefore svrdb atVCDU startIndex = true) ->
  exists r, linearVCDUIndex svrdb cur atVCDU = inr r /\
            binaryVCDUIndex svrdb atVCDU = inr r /\
            resolved startIndex (Z.of_nat (length svrdb))
              (counterAtOrBefore svrdb atVCDU) r.
Proof.
  intros Hmono Hcur Hok.
  destruct (linearVCDUIndex_resolved cur Hcur Hok) as (r & Hr & Hres).
  destruct binaryVCDUIndex_resolved as (r' & Hr' & Hres'); [lia|].
  exists r. split; [exact Hr|]. split; [|exact Hres].
  rewrite Hr'. f_equal.
  apply (resolved_unique startIndex (Z.of_nat (length svrdb))
           (counterAtOrBefore svrdb atVCDU)); assumption.
Qed.

End VCDUSearch.

(** Counters that are offsets from a common base, with the query less than
    half a cycle away: the signed difference is the difference of the
    offsets. *)
Lemma deltaVCDU_unwrapped (base o v : Z) :
  - 8388608 < v - o < 8388608 ->
  deltaVCDU ((base + o) mod 16777216) ((base + v) mod 16777216) = v - o.
Proof.
  intros Hd.
  pose proof (Z.mod_pos_bound (base + o) 16777216 ltac:(lia)) as Ha.
  pose proof (Z.mod_pos_bound (base + v) 16777216 ltac:(lia)) as Hb.
  pose proof (Z.div_mod (base + o) 16777216 ltac:(lia)) as Hqa.
  pose proof (Z.div_mod (base + v) 16777216 ltac:(lia)) as Hqb.
  destruct (deltaVCDU_cases _ _ Ha Hb) as [[Hr ->]|[[Hr ->]|[Hr ->]]]; lia.
Qed.

(** So a load whose counters run through less than half a cycle is in
    counter order for every query within that half cycle, across the
    wrap. *)
Lemma offsets_antitone svrdb atVCDU (base v : Z) (offs : Z -> Z) :
  (forall i, startIndex <= i < Z.of_nat (length svrdb) ->
             vcduAt svrdb i = (base + offs i) mod 16777216 /\
             - 8388608 < v - offs i < 8388608) ->
  (forall i j, startIndex <= i -> i <= j -> j < Z.of_nat (length svrdb) ->
               offs i <= offs j) ->
  atVCDU = (base + v) mod 16777216 ->
  antitone startIndex (Z.of_nat (length svrdb))
    (counterAtOrBefore svrdb atVCDU).
Proof.
  intros Hoffs Hmono -> i j Hi Hij Hj. unfold counterAtOrBefore.
  destruct (Hoffs i ltac:(lia)) as [-> Hbi].
  destruct (Hoffs j ltac:(lia)) as [-> Hbj].
  rewrite !deltaVCDU_unwrapped by assumption.
  pose proof (Hmono i j Hi Hij Hj).
  destruct (Z.geb_spec (v - offs j) 0); [|discriminate].
  destruct (Z.geb_spec (v - offs i) 0); [reflexivity|lia].
Qed.

(** Without that bound the searches by counter can part even from a cursor
    above [startIndex]: in [long_svrdb] each record is within half a cycle
    of the one before it, yet for the counter 5 the linear search from the
    cursor 42 stays at 42 and the binary search arrives at 40. *)
Lemma counter_order_needs_half_cycle :
  deltaVCDU 0 8388607 >= 0 /\ deltaVCDU 8388607 16777214 >= 0 /\
  linearVCDUIndex long_svrdb 42 5 = inr 42 /\
  binaryVCDUIndex long_svrdb 5 = inr 40.
Proof. repeat split; vm_compute; (reflexivity || discriminate). Qed.

(** ** The query methods, run on an object *)

Lemma checkAndChangeLoads_stable fs s atTime atVCDU :
  switchRequired s atTime atVCDU = inr false ->
  checkAndChangeLoads fs atTime atVCDU s = (inr tt, s).
Proof.
  intros H. unfold checkAndChangeLoads, bind, self, lift. rewrite H.
  reflexivity.
Qed.

(** A required switch without a successor: the call raises and the object
    is as before. *)
Lemma checkAndChangeLoads_no_successor fs s atTime atVCDU :
  switchRequired s atTime atVCDU = inr true ->
  truthy_opt (nextLoads s) = false ->
  checkAndChangeLoads fs atTime atVCDU s
  = (inl (CurrentLoadException "No new loads found"), s).
Proof.
  intros H Hn. unfold checkAndChangeLoads, bind, self, lift. rewrite H.
  destruct (nextLoads s) as [d|]; [|reflexivity].
  simpl in Hn. rewrite Hn. reflexivity.
Qed.

(** An exception of the condition itself escapes, the object as before. *)
Lemma checkAndChangeLoads_raises fs s atTime atVCDU e :
  switchRequired s atTime atVCDU = inl e ->
  checkAndChangeLoads fs atTime atVCDU s = (inl e, s).
Proof.
  intros H. unfold checkAndChangeLoads, bind, self, lift. rewrite H.
  reflexivity.
Qed.

Lemma getStateAtTime_stable fs s atTime r :
  switchRequired s (Some atTime) None = inr false ->
  linearTimeIndex (svrdb s) (currentStateIndex s) atTime = inr r ->
  getStateAtTime fs atTime s = (py_index (svrdb s) r, withIndex r s).
Proof.
  intros Hsw Hr. unfold getStateAtTime, bind.
  rewrite (checkAndChangeLoads_stable fs s _ _ Hsw).
  unfold self, lift. rewrite Hr. reflexivity.
Qed.

Lemma binaryGetStateAtTime_stable fs s atTime r :
  switchRequired s (Some atTime) None = inr false ->
  binaryTimeIndex (svrdb s) atTime = inr r ->
  binaryGetStateAtTime fs atTime s = (py_index (svrdb s) r, withIndex r s).
Proof.
  intros Hsw Hr. unfold binaryGetStateAtTime, bind.
  rewrite (checkAndChangeLoads_stable fs s _ _ Hsw).
  unfold self, lift. rewrite Hr. reflexivity.
Qed.

Lemma getStateAtVCDU_stable fs s atVCDU r :
  switchRequired s None (Some atVCDU) = inr false ->
  linearVCDUIndex (svrdb s) (currentStateIndex s) atVCDU = inr r ->
  getStateAtVCDU fs atVCDU s = (py_index (svrdb s) r, withIndex r s).
Proof.
  intros Hsw Hr. unfold getStateAtVCDU, bind.
  rewrite (checkAndChangeLoads_stable fs s _ _ Hsw).
  unfold self, lift. rewrite Hr. reflexivity.
Qed.

Lemma binaryGetStateAtVCDU_stable fs s atVCDU r :
  switchRequired s None (Some atVCDU) = inr false ->
  binaryVCDUIndex (svrdb s) atVCDU = inr r ->
  binaryGetStateAtVCDU fs atVCDU s = (py_index (svrdb s) r, withIndex r s).
Proof.
  intros Hsw Hr. unfold binaryGetStateAtVCDU, bind.
  rewrite (checkAndChangeLoads_stable fs s _ _ Hsw).
  unfold self, lift. rewrite Hr. reflexivity.
Qed.

(** ** Tie-break on equal timestamps *)

(** C5 (amended): on a load in time order with the cursor inside it, when
    the records at [i] and [i + 1] (both at or after [startIndex]) carry the
    queried timestamp and no later record does, the linear search of
    [getStateAtTime] and the bisection of [binaryGetStateAtTime] both arrive
    at [i + 1], the last matching index; and when no load switch is due for
    the query (the test of [checkAndChangeLoads] evaluates to false: the
    query is earlier than the cached activation time and than the time of
    the last record), both methods move the cursor to [i + 1] and return
    the record there. *)
Theorem tie_break_resolves_last_match fs s atTime i :
  timeOrdered (svrdb s) ->
  startIndex <= currentStateIndex s < Z.of_nat (length (svrdb s)) ->
  startIndex <= i ->
  stateTime (svrdb s) i = inr atTime ->
  stateTime (svrdb s) (i + 1) = inr atTime ->
  (forall j t, i + 1 < j -> stateTime (svrdb s) j = inr t -> t <> atTime) ->
  linearTimeIndex (svrdb s) (currentStateIndex s) atTime = inr (i + 1) /\
  binaryTimeIndex (svrdb s) atTime = inr (i + 1) /\
  (switchRequired s (Some atTime) None = inr false ->
   exists line,
     svrdb s !! Z.to_nat (i + 1) = Some line /\
     getStateAtTime fs atTime s = (inr line, withIndex (i + 1) s) /\
     binaryGetStateAtTime fs atTime s = (inr line, withIndex (i + 1) s)).
Proof.
  intros Hord Hcur Hi Hti Hti1 Hlast. pose proof startIndex_nonneg as H0.
  apply stateTime_inr in Hti as [Hilen Hi_eq]; [|lia].
  apply stateTime_inr in Hti1 as [Hi1len Hi1_eq]; [|lia].
  set (len := Z.of_nat (length (svrdb s))) in *.
  set (P := atOrBefore (svrdb s) atTime).
  assert (Hres : resolved startIndex len P (i + 1)).
  { split; [lia|]. split.
    - right. unfold P, atOrBefore. rewrite <- Hi1_eq. apply str_le_refl.
    - destruct (Z.eq_dec (i + 1 + 1) len) as [|Hne]; [left; assumption|right].
      unfold P, atOrBefore.
      destruct (str_le (timeAt (svrdb s) (i + 1 + 1)) atTime) eqn:E;
        [exfalso|reflexivity].
      apply (Hlast (i + 1 + 1) (timeAt (svrdb s) (i + 1 + 1)));
        [lia|apply stateTime_in_range; lia|].
      apply String.leb_antisym; [exact E|].
      rewrite Hi1_eq. apply (timeOrdered_pairwise (svrdb s)); try lia.
      exact Hord. }
  assert (Hstart : P startIndex = true).
  { unfold P, atOrBefore. rewrite Hi_eq.
    apply timeOrdered_pairwise; try lia. exact Hord. }
  destruct (linear_binary_time_agree (svrdb s) atTime (currentStateIndex s)
              Hord Hcur (or_intror Hstart)) as (r & Hlin & Hbin & Hr).
  assert (r = i + 1) as ->.
  { apply (resolved_unique startIndex len P); try assumption.
    apply atOrBefore_antitone. exact Hord. }
  split; [exact Hlin|]. split; [exact Hbin|]. intros Hsw.
  destruct (py_index_in_range (svrdb s) (i + 1) ltac:(lia)) as (line & Hl & Hpy).
  exists line. split; [exact Hl|]. split.
  - rewrite (getStateAtTime_stable fs s atTime (i + 1) Hsw Hlin), Hpy.
    reflexivity.
  - rewrite (binaryGetStateAtTime_stable fs s atTime (i + 1) Hsw Hbin), Hpy.
    reflexivity.
Qed.

(** ** Checking time order on a concrete load *)

(** Closed comparisons of integers and strings, by evaluation. *)
Ltac by_computation :=
  vm_compute; repeat split;
  first [reflexivity | discriminate | let H := fresh in intros H; discriminate H].

Lemma sortedb_lookup l n a b :
  sortedb l = true -> l !! n = Some a -> l !! S n = Some b ->
  str_le a b = true.
Proof.
  revert n. induction l as [|x l IH]; intros n Hs Ha Hb; [discriminate|].
  destruct l as [|y l]; [discriminate|].
  apply andb_prop in Hs as [Hxy Hrest].
  destruct n as [|n].
  - simpl in Ha, Hb. congruence.
  - apply (IH n); assumption.
Qed.

Lemma timeAt_lookup svrdb i :
  startIndex <= i < Z.of_nat (length svrdb) ->
  (py_take 21 <$> drop (Z.to_nat startIndex) svrdb)
    !! (Z.to_nat i - Z.to_nat startIndex)%nat = Some (timeAt svrdb i).
Proof.
  intros Hi. pose proof startIndex_nonneg.
  rewrite list_lookup_fmap, lookup_drop.
  replace (Z.to_nat startIndex + (Z.to_nat i - Z.to_nat startIndex))%nat
    with (Z.to_nat i) by lia.
  unfold timeAt.
  destruct (lookup_lt_is_Some_2 svrdb (Z.to_nat i)) as [line ->]; [lia|].
  reflexivity.
Qed.

Lemma timeOrderedb_sound svrdb :
  timeOrderedb svrdb = true -> timeOrdered svrdb.
Proof.
  intros Hb i t u Hi Ht Hu. pose proof startIndex_nonneg.
  apply stateTime_inr in Ht as [Hlt ->]; [|lia].
  apply stateTime_inr in Hu as [Hlt' ->]; [|lia].
  apply (sortedb_lookup _ (Z.to_nat i - Z.to_nat startIndex) _ _ Hb).
  - apply timeAt_lookup. lia.
  - replace (S (Z.to_nat i - Z.to_nat startIndex))
      with (Z.to_nat (i + 1) - Z.to_nat startIndex)%nat by lia.
    apply timeAt_lookup. lia.
Qed.

Lemma tie_svrdb_ordered : timeOrdered tie_svrdb.
Proof. apply timeOrderedb_sound. reflexivity. Qed.

Lemma demo_svrdb_ordered : timeOrdered demo_svrdb.
Proof. apply timeOrderedb_sound. reflexivity. Qed.

Lemma tie_end_svrdb_ordered : timeOrdered tie_end_svrdb.
Proof. apply timeOrderedb_sound. reflexivity. Qed.

(** The records 41 and 42 of [tie_svrdb] share a timestamp; queried for it
    from the cursor 40, both searches arrive at 42, and as the query is
    earlier than the last record (index 43) and than the cached activation
    time, both methods return record 42. *)
Lemma tie_break_resolves_last_match_witness :
  linearTimeIndex (svrdb (tie_load 40)) (currentStateIndex (tie_load 40))
    "2024:100:00:00:00.000" = inr (41 + 1) /\
  binaryTimeIndex (svrdb (tie_load 40)) "2024:100:00:00:00.000"
  = inr (41 + 1) /\
  exists line,
    svrdb (tie_load 40) !! Z.to_nat (41 + 1) = Some line /\
    getStateAtTime no_fs "2024:100:00:00:00.000" (tie_load 40)
    = (inr line, withIndex (41 + 1) (tie_load 40)) /\
    binaryGetStateAtTime no_fs "2024:100:00:00:00.000" (tie_load 40)
    = (inr line, withIndex (41 + 1) (tie_load 40)).
Proof.
  destruct (tie_break_resolves_last_match no_fs (tie_load 40)
              "2024:100:00:00:00.000" 41) as (Hlin & Hbin & Hmeth).
  - exact tie_svrdb_ordered.
  - by_computation.
  - by_computation.
  - reflexivity.
  - reflexivity.
  - intros j t Hj Ht.
    apply stateTime_inr in Ht as [Hlt ->]; [|lia].
    change (Z.of_nat (length (svrdb (tie_load 40)))) with 44 in Hlt.
    assert (j = 43) as -> by lia.
    by_computation.
  - split; [exact Hlin|]. split; [exact Hbin|]. apply Hmeth. reflexivity.
Defined.

(** C5 as stated does not hold for the methods, which test for a load
    switch before they search.  On [tie_end_svrdb] the records 41 and 42,
    the last two of the load, carry the queried timestamp.  The two searches
    alone arrive at 42; but the query is not earlier than the time of the
    last record, so [checkAndChangeLoads] activates the pending successor
    first, and the searches run on the new load: [getStateAtTime] ends on
    its index 39, [binaryGetStateAtTime] on its index 40, and neither
    returns record 42 of the load that was queried.  On a tracker whose
    boundary attributes were never assigned ([fresh_tie_load], tie at 41 and
    42 of 44 records) the switch test itself raises, and no search runs. *)
Lemma tie_at_end_of_load_switches :
  timeOrdered tie_end_svrdb /\
  length tie_end_svrdb = 43%nat /\
  stateTime tie_end_svrdb 41 = inr "2024:100:00:00:00.000" /\
  stateTime tie_end_svrdb 42 = inr "2024:100:00:00:00.000" /\
  linearTimeIndex tie_end_svrdb 40 "2024:100:00:00:00.000" = inr 42 /\
  binaryTimeIndex tie_end_svrdb "2024:100:00:00:00.000" = inr 42 /\
  switchRequired tie_end_load (Some "2024:100:00:00:00.000") None
  = inr true /\
  getStateAtTime next_fs "2024:100:00:00:00.000" tie_end_load
  = (inr "2024:107:00:00:00.000 5 carried", withIndex 39 switched_load) /\
  binaryGetStateAtTime next_fs "2024:100:00:00:00.000" tie_end_load
  = (inr "2024:107:00:00:01.000 8 n40", switched_load) /\
  tie_end_svrdb !! 42%nat = Some "2024:100:00:00:00.000 2041 s42" /\
  stateTime (svrdb fresh_tie_load) 41 = inr "2024:100:00:00:00.000" /\
  stateTime (svrdb fresh_tie_load) 42 = inr "2024:100:00:00:00.000" /\
  getStateAtTime no_fs "2024:100:00:00:00.000" fresh_tie_load
  = (inl (AttributeError "nextFirstTime"), fresh_tie_load) /\
  binaryGetStateAtTime no_fs "2024:100:00:00:00.000" fresh_tie_load
  = (inl (AttributeError "nextFirstTime"), fresh_tie_load).
Proof.
  split; [exact tie_end_svrdb_ordered|].
  repeat split; vm_compute; reflexivity.
Qed.

(** ** The backward scan from a cursor at [startIndex] *)

(** C1: at the failing input the two strategies part.  The load
    [demo_svrdb] is in time order and its counters increase; the cursor is
    at [startIndex] (where [slurpState] puts it), no switch is due, and the
    query precedes the record at [startIndex].  The linear searches arrive
    at index 39 and return a carried record, the binary searches arrive at
    index 40. *)
Theorem linear_and_binary_part_at_startIndex :
  timeOrdered (svrdb (demo_load 40)) /\
  startIndex <= currentStateIndex (demo_load 40)
             < Z.of_nat (length (svrdb (demo_load 40))) /\
  getStateAtTime no_fs "2024:099:12:00:00.000" (demo_load 40)
  = (inr carried, demo_load 39) /\
  binaryGetStateAtTime no_fs "2024:099:12:00:00.000" (demo_load 40)
  = (inr "2024:100:00:00:00.000 2000 s40", demo_load 40) /\
  getStateAtVCDU no_fs 1500 (demo_load 40)
  = (inr carried, demo_load 39) /\
  binaryGetStateAtVCDU no_fs 1500 (demo_load 40)
  = (inr "2024:100:00:00:00.000 2000 s40", demo_load 40).
Proof.
  split; [exact demo_svrdb_ordered|].
  split; [by_computation|].
  repeat split; vm_compute; reflexivity.
Qed.

(** C2: at the failing input the cursor leaves the range.  With the cursor
    at [startIndex] and a query that precedes the record there, both linear
    searches set the cursor to 39, below [startIndex], and return the
    carried record at that index, whose timestamp and counter are exactly
    the values queried; the binary searches stay at [startIndex]. *)
Theorem linear_search_returns_carried_record :
  getStateAtTime no_fs "2024:099:00:00:00.000" (demo_load startIndex)
  = (inr carried, demo_load 39) /\
  getStateAtVCDU no_fs 1000 (demo_load startIndex)
  = (inr carried, demo_load 39) /\
  39 < startIndex /\
  stateTime demo_svrdb 39 = inr "2024:099:00:00:00.000" /\
  stateVCDU demo_svrdb 39 = inr 1000 /\
  currentStateIndex
    (binaryGetStateAtTime no_fs "2024:099:00:00:00.000"
       (demo_load startIndex)).2 = startIndex /\
  currentStateIndex
    (binaryGetStateAtVCDU no_fs 1000 (demo_load startIndex)).2 = startIndex.
Proof. repeat split; vm_compute; reflexivity. Qed.

(** C7: at the failing input the resolved indices decrease.  The same
    query, issued again and again on one load without any switch, resolves
    to 40, then 39, then 38 by time, and to 40, then 39 by counter. *)
Theorem repeated_query_walks_down :
  getStateAtTime no_fs "2024:098:00:00:00.000" (demo_load 41)
  = (inr "2024:100:00:00:00.000 2000 s40", demo_load 40) /\
  getStateAtTime no_fs "2024:098:00:00:00.000" (demo_load 40)
  = (inr carried, demo_load 39) /\
  getStateAtTime no_fs "2024:098:00:00:00.000" (demo_load 39)
  = (inr carried, demo_load 38) /\
  getStateAtVCDU no_fs 1500 (demo_load 41)
  = (inr "2024:100:00:00:00.000 2000 s40", demo_load 40) /\
  getStateAtVCDU no_fs 1500 (demo_load 40)
  = (inr carried, demo_load 39).
Proof. repeat split; vm_compute; reflexivity. Qed.

(** Outside that case, a later query never resolves to an earlier index:
    on a load in time order, the resolved index is non-decreasing in the
    query time. *)
Lemma resolved_time_monotone svrdb t1 t2 r1 r2 :
  timeOrdered svrdb -> str_le t1 t2 = true ->
  resolved startIndex (Z.of_nat (length svrdb)) (atOrBefore svrdb t1) r1 ->
  resolved startIndex (Z.of_nat (length svrdb)) (atOrBefore svrdb t2) r2 ->
  r1 <= r2.
Proof.
  intros Hord Hle Hr1 Hr2.
  destruct Hr1 as (Hrange & [->|Hp] & _); [destruct Hr2; lia|].
  apply (resolved_greatest startIndex (Z.of_nat (length svrdb))
           (atOrBefore svrdb t2)); try assumption.
  - apply atOrBefore_antitone. exact Hord.
  - unfold atOrBefore in *. eapply str_le_trans; eassumption.
Qed.

(** Two successive linear queries by time, the second not earlier than the
    first and the first not before the record at [startIndex]: the cursor
    does not move back. *)
Lemma getStateAtTime_monotone fs s t1 t2 :
  timeOrdered (svrdb s) ->
  startIndex <= currentStateIndex s < Z.of_nat (length (svrdb s)) ->
  atOrBefore (svrdb s) t1 startIndex = true ->
  str_le t1 t2 = true ->
  switchRequired s (Some t1) None = inr false ->
  (forall i, switchRequired (withIndex i s) (Some t2) None = inr false) ->
  exists r1 r2 line1 line2,
    getStateAtTime fs t1 s = (inr line1, withIndex r1 s) /\
    getStateAtTime fs t2 (withIndex r1 s) = (inr line2, withIndex r2 s) /\
    startIndex <= r1 /\ r1 <= r2 /\ r2 < Z.of_nat (length (svrdb s)).
Proof.
  intros Hord Hcur Hp1 Hle Hsw1 Hsw2. pose proof startIndex_nonneg.
  destruct (linearTimeIndex_resolved (svrdb s) t1 (currentStateIndex s)
              Hcur (or_intror Hp1)) as (r1 & Hl1 & Hres1).
  assert (Hp2 : atOrBefore (svrdb s) t2 startIndex = true).
  { unfold atOrBefore in *. eapply str_le_trans; eassumption. }
  pose proof Hres1 as (Hrange1 & _).
  destruct (linearTimeIndex_resolved (svrdb s) t2 r1 Hrange1 (or_intror Hp2))
    as (r2 & Hl2 & Hres2).
  pose proof Hres2 as (Hrange2 & _).
  destruct (py_index_in_range (svrdb s) r1 ltac:(lia)) as (line1 & _ & Hpy1).
  destruct (py_index_in_range (svrdb s) r2 ltac:(lia)) as (line2 & _ & Hpy2).
  exists r1, r2, line1, line2.
  split; [rewrite (getStateAtTime_stable fs s t1 r1 Hsw1 Hl1), Hpy1; reflexivity|].
  split.
  - rewrite (getStateAtTime_stable fs (withIndex r1 s) t2 r2 (Hsw2 r1) Hl2).
    simpl. rewrite Hpy2. reflexivity.
  - split; [lia|]. split; [|lia].
    apply (resolved_time_monotone (svrdb s) t1 t2 r1 r2); assumption.
Qed.

(** ** The transition controller *)

(** What the condition of [checkAndChangeLoads] computes for a counter
    query: plain integer comparisons with the cached boundary and with the
    counter of the last record. *)
Lemma switchRequired_counter s v n c :
  nextFirstVCDU s = Some n ->
  stateVCDU (svrdb s) (Z.of_nat (length (svrdb s)) - 1) = inr c ->
  switchRequired s None (Some v) = inr ((v >=? n) || (v >=? c)).
Proof.
  intros Hn Hc. unfold switchRequired. rewrite Hn, Hc. simpl.
  destruct (v >=? n); simpl; [reflexivity|].
  destruct (v >=? c); reflexivity.
Qed.

(** And for a time query: string comparisons with the cached boundary and
    with the time tag of the last record. *)
Lemma switchRequired_time s t n l :
  t <> "" ->
  nextFirstTime s = Some n ->
  stateTime (svrdb s) (Z.of_nat (length (svrdb s)) - 1) = inr l ->
  switchRequired s (Some t) None = inr (str_ge t n || str_ge t l).
Proof.
  intros Ht Hn Hl. unfold switchRequired. simpl.
  unfold truthy. apply String.eqb_neq in Ht. rewrite Ht. simpl.
  rewrite Hn, Hl. simpl.
  destruct (str_ge t n); simpl; [reflexivity|].
  destruct (str_ge t l); reflexivity.
Qed.

(** C3: at the failing inputs the switch test differs from the signed
    wraparound difference.  The active load ends at counter 16777210 and the
    pending candidate starts at counter 5.  For [V = 3] the difference from
    the last record is [9 >= 0], yet no switch is required and the query is
    answered from the last record of the old load; for [V = 16777205] both
    differences are negative, yet a switch is required. *)
Theorem switch_test_compares_plain_counters :
  stateVCDU (svrdb wrap_load) (Z.of_nat (length (svrdb wrap_load)) - 1)
  = inr 16777210 /\
  nextFirstVCDU wrap_load = Some 5 /\
  (deltaVCDU 16777210 3 = 9 /\ deltaVCDU 5 3 = -2 /\
   switchRequired wrap_load None (Some 3) = inr false /\
   getStateAtVCDU next_fs 3 wrap_load
   = (inr "2024:100:00:00:20.000 16777210 s42", withIndex 42 wrap_load)) /\
  (deltaVCDU 16777210 16777205 = -5 /\ deltaVCDU 5 16777205 = -16 /\
   switchRequired wrap_load None (Some 16777205) = inr true).
Proof. repeat split; vm_compute; reflexivity. Qed.

(** The transition scenario of the specification itself runs as described:
    [V = 10] passes the cached boundary 5, the successor is activated once
    and the query resolves at its index 40. *)
Lemma transition_scenario :
  switchRequired wrap_load None (Some 10) = inr true /\
  checkAndChangeLoads next_fs None (Some 10) wrap_load
  = (inr tt, switched_load) /\
  getStateAtVCDU next_fs 10 wrap_load
  = (inr "2024:107:00:00:01.000 8 n40", switched_load) /\
  binaryGetStateAtVCDU next_fs 10 wrap_load
  = (inr "2024:107:00:00:01.000 8 n40", switched_load).
Proof. repeat split; vm_compute; reflexivity. Qed.

(** ** A boundary crossed without a successor *)

(** When the switch condition holds and no successor is set, each of the
    four queries raises "No new loads found" and leaves the object as it
    was. *)
Lemma no_successor_raises fs s atTime atVCDU :
  truthy_opt (nextLoads s) = false ->
  (switchRequired s (Some atTime) None = inr true ->
   getStateAtTime fs atTime s
   = (inl (CurrentLoadException "No new loads found"), s) /\
   binaryGetStateAtTime fs atTime s
   = (inl (CurrentLoadException "No new loads found"), s)) /\
  (switchRequired s None (Some atVCDU) = inr true ->
   getStateAtVCDU fs atVCDU s
   = (inl (CurrentLoadException "No new loads found"), s) /\
   binaryGetStateAtVCDU fs atVCDU s
   = (inl (CurrentLoadException "No new loads found"), s)).
Proof.
  intros Hn. split; intros Hsw.
  - unfold getStateAtTime, binaryGetStateAtTime, bind.
    rewrite (checkAndChangeLoads_no_successor fs s _ _ Hsw Hn).
    split; reflexivity.
  - unfold getStateAtVCDU, binaryGetStateAtVCDU, bind.
    rewrite (checkAndChangeLoads_no_successor fs s _ _ Hsw Hn).
    split; reflexivity.
Qed.

(** On a tracker whose boundary attributes were never assigned, the
    condition cannot be evaluated: every query by a non-empty time, and
    every query by counter, ends in [AttributeError], the object as it
    was. *)
Lemma unassigned_boundary_raises fs s atTime atVCDU :
  nextFirstTime s = None -> nextFirstVCDU s = None -> atTime <> "" ->
  getStateAtTime fs atTime s = (inl (AttributeError "nextFirstTime"), s) /\
  binaryGetStateAtTime fs atTime s
  = (inl (AttributeError "nextFirstTime"), s) /\
  getStateAtVCDU fs atVCDU s = (inl (AttributeError "nextFirstVCDU"), s) /\
  binaryGetStateAtVCDU fs atVCDU s
  = (inl (AttributeError "nextFirstVCDU"), s).
Proof.
  intros Ht Hv Hne.
  assert (H1 : switchRequired s (Some atTime) None
               = inl (AttributeError "nextFirstTime")).
  { unfold switchRequired. simpl. unfold truthy.
    apply String.eqb_neq in Hne. rewrite Hne, Ht. reflexivity. }
  assert (H2 : switchRequired s None (Some atVCDU)
               = inl (AttributeError "nextFirstVCDU")).
  { unfold switchRequired. rewrite Hv. reflexivity. }
  unfold getStateAtTime, binaryGetStateAtTime, getStateAtVCDU,
    binaryGetStateAtVCDU, bind.
  rewrite (checkAndChangeLoads_raises fs s _ _ _ H1).
  rewrite (checkAndChangeLoads_raises fs s _ _ _ H2).
  repeat split; reflexivity.
Qed.

(** C4: at the failing input the error is not "No new loads found".  The
    constructor, run on storage that holds one load and no successor,
    builds [fresh_load]; its last record is stamped
    [2024:100:00:00:20.000] with counter 2080.  Queries past that record
    raise [AttributeError] under both strategies; the object is
    unchanged. *)
Theorem query_past_end_of_only_load :
  init (single_fs "/d0/hrc/occ/mp/tmpq1w2e3") root_dir
       "/d0/hrc/occ/mp/tmpq1w2e3" "2024:100:00:00:05.000"
  = inr fresh_load /\
  nextLoads fresh_load = None /\
  stateTime (svrdb fresh_load) (Z.of_nat (length (svrdb fresh_load)) - 1)
  = inr "2024:100:00:00:20.000" /\
  stateVCDU (svrdb fresh_load) (Z.of_nat (length (svrdb fresh_load)) - 1)
  = inr 2080 /\
  getStateAtTime no_fs "2024:100:00:00:25.000" fresh_load
  = (inl (AttributeError "nextFirstTime"), fresh_load) /\
  binaryGetStateAtTime no_fs "2024:100:00:00:25.000" fresh_load
  = (inl (AttributeError "nextFirstTime"), fresh_load) /\
  getStateAtVCDU no_fs 2100 fresh_load
  = (inl (AttributeError "nextFirstVCDU"), fresh_load) /\
  binaryGetStateAtVCDU no_fs 2100 fresh_load
  = (inl (AttributeError "nextFirstVCDU"), fresh_load).
Proof. repeat split; vm_compute; reflexivity. Qed.

(** ** The lookahead planner *)

(** What [checkForNewLoads] does with the most recent candidate once both
    reads have returned. *)
Lemma checkForNewLoads_candidate fs s d rest st ft fv :
  nextLoads s = None ->
  getRecentLoads fs (loadReviewDir s) (currentLoads s) = inr (d :: rest) ->
  startTime fs d = inr st ->
  firstTimeVCDU fs d = inr (Some (ft, fv)) ->
  checkForNewLoads fs s
  = (inr tt, if truthy_opt st && negb (fv =? 0)
             then withPending d st ft fv s else s).
Proof.
  intros Hn Hdirs Hst Hfirst.
  unfold checkForNewLoads, bind, self, lift. rewrite Hn, Hdirs, Hst, Hfirst.
  destruct (truthy_opt st && negb (fv =? 0)); reflexivity.
Qed.

(** No candidate: nothing changes. *)
Lemma checkForNewLoads_none fs s :
  nextLoads s = None ->
  getRecentLoads fs (loadReviewDir s) (currentLoads s) = inr [] ->
  checkForNewLoads fs s = (inr tt, s).
Proof.
  intros Hn Hdirs. unfold checkForNewLoads, bind, self, lift.
  rewrite Hn, Hdirs. reflexivity.
Qed.

(** C8: at the failing inputs a readable candidate is discarded, and a
    failed read is raised.  [find] reports the successor and its first
    command time reads as [2024:107:00:00:00.000].  When its first state
    vector record has counter 0, both reads succeed and yet nothing is
    installed; with counter 5 the pending transition is installed; when the
    file has no time-tagged line, [TypeError] reaches the caller, and when
    it cannot be opened, [IOError] does. *)
Theorem candidate_with_counter_zero_is_discarded :
  getRecentLoads (candidate_fs ["2024:107:00:00:00.000 0 first"])
    root_dir old_dir = inr [new_dir] /\
  startTime (candidate_fs ["2024:107:00:00:00.000 0 first"]) new_dir
  = inr (Some "2024:107:00:00:00.000") /\
  firstTimeVCDU (candidate_fs ["2024:107:00:00:00.000 0 first"]) new_dir
  = inr (Some ("2024:107:00:00:00.000", 0)) /\
  checkForNewLoads (candidate_fs ["2024:107:00:00:00.000 0 first"]) fresh_load
  = (inr tt, fresh_load) /\
  checkForNewLoads (candidate_fs ["2024:107:00:00:00.000 5 first"]) fresh_load
  = (inr tt, withPending new_dir (Some "2024:107:00:00:00.000")
               "2024:107:00:00:00.000" 5 fresh_load) /\
  checkForNewLoads (candidate_fs ["# no state vectors"]) fresh_load
  = (inl TypeError, fresh_load) /\
  checkForNewLoads
    {| find_newer := find_newer (candidate_fs []);
       getmtime := getmtime (candidate_fs []);
       open_lines := fun p =>
         if String.eqb p (new_dir +:+ "/APR1624A.svrdb") then inl IOError
         else open_lines (candidate_fs []) p |} fresh_load
  = (inl IOError, fresh_load).
Proof. repeat split; vm_compute; reflexivity. Qed.

(** ** The boundary that outlives its transition *)

(** C10: let the pending transition [(d, t0, v0)] be cached, [t0] and [v0]
    being what [firstTimeVCDU] reads from [d].  When a query requires the
    switch, the state vectors of [d] are read and the planner finds no newer
    directory, the call completes with [d] active, [nextLoads] unset, and
    [nextFirstTime], [nextFirstVCDU] still [t0], [v0], the first two fields
    of the first time-tagged record of the load now active.
    From then on every query by a time at or after [t0], and every query by
    a counter [>= v0], raises "No new loads found" under both strategies
    and leaves the object as it is. *)
Theorem stale_boundary_blocks_queries fs s d t0 v0 lines atTime0 atVCDU0 :
  nextLoads s = Some d -> truthy d = true ->
  nextFirstTime s = Some t0 -> nextFirstVCDU s = Some v0 ->
  firstTimeVCDU fs d = inr (Some (t0, v0)) ->
  switchRequired s atTime0 atVCDU0 = inr true ->
  open_lines fs (d +:+ "/" +:+ py_last 8 d +:+ ".svrdb") = inr lines ->
  getRecentLoads fs (loadReviewDir s) d = inr [] ->
  let s' := activated d (py_rstrip <$> lines) s in
  checkAndChangeLoads fs atTime0 atVCDU0 s = (inr tt, s') /\
  nextLoads s' = None /\
  nextFirstTime s' = Some t0 /\ nextFirstVCDU s' = Some v0 /\
  (exists line vv,
     List.find (fun t => bool_decide (is_Some (gmtre_match t))) lines
     = Some line /\
     take 2 (py_split line) = [t0; vv] /\ py_int vv = inr v0) /\
  (forall fs' atTime, atTime <> "" -> str_ge atTime t0 = true ->
     getStateAtTime fs' atTime s'
     = (inl (CurrentLoadException "No new loads found"), s') /\
     binaryGetStateAtTime fs' atTime s'
     = (inl (CurrentLoadException "No new loads found"), s')) /\
  (forall fs' atVCDU, atVCDU >= v0 ->
     getStateAtVCDU fs' atVCDU s'
     = (inl (CurrentLoadException "No new loads found"), s') /\
     binaryGetStateAtVCDU fs' atVCDU s'
     = (inl (CurrentLoadException "No new loads found"), s')).
Proof.
  intros Hd Htruthy Ht0 Hv0 Hfirst Hsw Hopen Hnone s'.
  split.
  { unfold checkAndChangeLoads, bind, self, lift. rewrite Hsw, Hd, Htruthy.
    unfold slurpState, bind, lift, assign. rewrite Hopen.
    apply checkForNewLoads_none; [reflexivity|exact Hnone]. }
  split; [reflexivity|]. split; [exact Ht0|]. split; [exact Hv0|].
  split.
  { unfold firstTimeVCDU in Hfirst. rewrite Hopen in Hfirst. simpl in Hfirst.
    destruct (List.find _ lines) as [line|]; [|discriminate].
    destruct (py_split line) as [|a [|b l]] eqn:Hsplit; simpl in Hfirst;
      try discriminate.
    destruct (py_int b) as [e|z] eqn:Hb; simpl in Hfirst; [discriminate|].
    injection Hfirst as -> ->.
    exists line, b. split; [reflexivity|]. rewrite Hsplit.
    split; [reflexivity|exact Hb]. }
  split.
  - intros fs' atTime Hne Hge.
    apply (no_successor_raises fs' s' atTime 0); [reflexivity|].
    unfold switchRequired. simpl. unfold truthy.
    apply String.eqb_neq in Hne. rewrite Hne, Ht0. simpl. rewrite Hge.
    reflexivity.
  - intros fs' atVCDU Hge.
    apply (no_successor_raises fs' s' "" atVCDU); [reflexivity|].
    unfold switchRequired. simpl. rewrite Hv0. simpl.
    destruct (Z.geb_spec atVCDU v0); [reflexivity|lia].
Qed.

(** The transition scenario, continued: after the switch to the successor
    whose first record is stamped [2024:107:00:00:00.000] with counter 5,
    those values block the queries. *)
Lemma stale_boundary_blocks_queries_witness :
  let s' := activated new_dir (py_rstrip <$> new_lines) wrap_load in
  checkAndChangeLoads next_fs None (Some 10) wrap_load = (inr tt, s') /\
  nextLoads s' = None /\
  nextFirstTime s' = Some "2024:107:00:00:00.000" /\
  nextFirstVCDU s' = Some 5 /\
  (exists line vv,
     List.find (fun t => bool_decide (is_Some (gmtre_match t))) new_lines
     = Some line /\
     take 2 (py_split line) = ["2024:107:00:00:00.000"; vv] /\
     py_int vv = inr 5) /\
  (forall fs' atTime, atTime <> "" ->
     str_ge atTime "2024:107:00:00:00.000" = true ->
     getStateAtTime fs' atTime s'
     = (inl (CurrentLoadException "No new loads found"), s') /\
     binaryGetStateAtTime fs' atTime s'
     = (inl (CurrentLoadException "No new loads found"), s')) /\
  (forall fs' atVCDU, atVCDU >= 5 ->
     getStateAtVCDU fs' atVCDU s'
     = (inl (CurrentLoadException "No new loads found"), s') /\
     binaryGetStateAtVCDU fs' atVCDU s'
     = (inl (CurrentLoadException "No new loads found"), s')).
Proof.
  apply (stale_boundary_blocks_queries next_fs wrap_load new_dir
           "2024:107:00:00:00.000" 5 new_lines None (Some 10));
    vm_compute; reflexivity.
Defined.

(** ** The directory scanner *)

Lemma str_lt_le u x : str_lt u x = true -> str_le u x = true.
Proof.
  unfold str_lt, str_le, String.ltb, String.leb.
  destruct (String.compare u x); intros H; first [reflexivity|discriminate H].
Qed.

Lemma str_not_lt_ge u x : str_lt u x = false -> str_le x u = true.
Proof.
  unfold str_lt, str_le, String.ltb, String.leb.
  rewrite (String.compare_antisym x u).
  destruct (String.compare u x); simpl; intros H;
    first [reflexivity|discriminate H].
Qed.

Lemma pruneInv_empty : pruneInv [] ∅.
Proof.
  split.
  - intros k v H. rewrite lookup_empty in H. discriminate.
  - intros y Hy. apply elem_of_nil in Hy. contradiction.
Qed.

Lemma pruneInv_step l m x :
  pruneInv l m -> pruneInv (l ++ [x]) (prune_step m x).
Proof.
  intros [Hin Hmax]. unfold prune_step. cbv zeta. fold (loadTag x).
  destruct (m !! loadTag x) as [u|] eqn:Hu.
  - destruct (str_lt u x) eqn:Hlt.
    + split.
      * intros k v. rewrite lookup_insert. case_decide as Hk.
        -- intros [= <-]. split; [|exact Hk].
           apply elem_of_app. right. apply list_elem_of_singleton. reflexivity.
        -- intros Hv. destruct (Hin k v Hv) as [Hl Ht]. split; [|exact Ht].
           apply elem_of_app. left. exact Hl.
      * intros y Hy. apply elem_of_app in Hy as [Hy|Hy].
        -- destruct (Hmax y Hy) as (v & Hv & Hle).
           rewrite lookup_insert. case_decide as Hk.
           ++ exists x. split; [reflexivity|].
              rewrite <- Hk, Hu in Hv. injection Hv as <-.
              eapply str_le_trans; [exact Hle|]. apply str_lt_le. exact Hlt.
           ++ exists v. split; assumption.
        -- apply list_elem_of_singleton in Hy as ->.
           exists x. rewrite lookup_insert_eq. split; [reflexivity|].
           apply str_le_refl.
    + split.
      * intros k v Hv. destruct (Hin k v Hv) as [Hl Ht]. split; [|exact Ht].
        apply elem_of_app. left. exact Hl.
      * intros y Hy. apply elem_of_app in Hy as [Hy|Hy].
        -- apply Hmax. exact Hy.
        -- apply list_elem_of_singleton in Hy as ->.
           exists u. split; [exact Hu|]. apply str_not_lt_ge. exact Hlt.
  - split.
    + intros k v. rewrite lookup_insert. case_decide as Hk.
      * intros [= <-]. split; [|exact Hk].
        apply elem_of_app. right. apply list_elem_of_singleton. reflexivity.
      * intros Hv. destruct (Hin k v Hv) as [Hl Ht]. split; [|exact Ht].
        apply elem_of_app. left. exact Hl.
    + intros y Hy. apply elem_of_app in Hy as [Hy|Hy].
      * destruct (Hmax y Hy) as (v & Hv & Hle).
        exists v. split; [|exact Hle].
        rewrite lookup_insert_ne; [exact Hv|]. intros Hk.
        rewrite <- Hk, Hu in Hv. discriminate.
      * apply list_elem_of_singleton in Hy as ->.
        exists x. rewrite lookup_insert_eq. split; [reflexivity|].
        apply str_le_refl.
Qed.

Lemma pruneInv_foldl l : pruneInv l (foldl prune_step ∅ l).
Proof.
  induction l as [|x l IH] using rev_ind.
  - exact pruneInv_empty.
  - rewrite foldl_snoc. apply pruneInv_step. exact IH.
Qed.

(** The dictionary after the loop holds, under each tag, the greatest name
    of that tag. *)
Lemma pruned_lookup l k v :
  foldl prune_step ∅ l !! k = Some v <-> latestOfTag l v /\ loadTag v = k.
Proof.
  destruct (pruneInv_foldl l) as [Hin Hmax]. split.
  - intros Hv. destruct (Hin k v Hv) as [Hl Ht].
    split; [|exact Ht]. split; [exact Hl|].
    intros y Hy Hty. destruct (Hmax y Hy) as (v' & Hv' & Hle).
    rewrite Hty, Ht, Hv in Hv'. injection Hv' as <-. exact Hle.
  - intros [[Hl Hgreatest] Ht].
    destruct (Hmax v Hl) as (v' & Hv' & Hle).
    destruct (Hin _ _ Hv') as [Hl' Ht'].
    assert (v' = v) as ->.
    { apply String.leb_antisym; [|exact Hle]. apply Hgreatest; assumption. }
    rewrite <- Ht. exact Hv'.
Qed.

Lemma elem_of_dict_values (m : gmap string string) x :
  x ∈ dict_values m <-> exists k, m !! k = Some x.
Proof.
  unfold dict_values. rewrite list_elem_of_fmap. split.
  - intros ([k v] & -> & Hkv). exists k. apply elem_of_map_to_list. exact Hkv.
  - intros [k Hk]. exists (k, x). split; [reflexivity|].
    apply elem_of_map_to_list. exact Hk.
Qed.

Lemma elem_of_selectLatest rawlist x :
  x ∈ selectLatest rawlist <-> latestOfTag (omap lrdre_match rawlist) x.
Proof.
  unfold selectLatest. cbv zeta. rewrite elem_of_dict_values. split.
  - intros [k Hk]. apply pruned_lookup in Hk as [H _]. exact H.
  - intros H. exists (loadTag x). apply pruned_lookup. split; [exact H|reflexivity].
Qed.

Lemma NoDup_selectLatest rawlist : NoDup (selectLatest rawlist).
Proof.
  unfold selectLatest, dict_values. cbv zeta.
  apply NoDup_fmap_2_strong; [|apply NoDup_map_to_list].
  intros [k1 v1] [k2 v2] H1 H2 Hv. simpl in Hv. subst v2.
  apply elem_of_map_to_list in H1, H2.
  apply pruned_lookup in H1 as [_ <-]. apply pruned_lookup in H2 as [_ <-].
  reflexivity.
Qed.

(** The selection does not depend on the order of the lines. *)
Lemma selectLatest_Permutation l1 l2 :
  l1 ≡ₚ l2 -> selectLatest l1 = selectLatest l2.
Proof.
  intros Hp. unfold selectLatest. cbv zeta. f_equal.
  apply map_eq. intros k. apply option_eq. intros v.
  rewrite !pruned_lookup. unfold latestOfTag.
  assert (Hm : omap lrdre_match l1 ≡ₚ omap lrdre_match l2)
    by (rewrite Hp; reflexivity).
  split; intros [[Hl Hg] Ht]; (split; [split|exact Ht]).
  - rewrite <- Hm. exact Hl.
  - intros y Hy. apply Hg. rewrite Hm. exact Hy.
  - rewrite Hm. exact Hl.
  - intros y Hy. apply Hg. rewrite <- Hm. exact Hy.
Qed.

Global Instance mtime_ge_trans : Transitive mtime_ge.
Proof. intros a b c. unfold mtime_ge. lia. Qed.

Global Instance mtime_ge_total : Total mtime_ge.
Proof. intros a b. unfold mtime_ge. lia. Qed.

Lemma keyed_inr key l :
  (forall x, x ∈ l -> exists m, key x = inr m) ->
  exists ks, keyed key l = inr ks /\ ks.*2 = l /\
             Forall (fun p => key p.2 = inr p.1) ks.
Proof.
  induction l as [|x l IH]; intros Hkey.
  - exists []. repeat split. constructor.
  - destruct (Hkey x) as [m Hm]; [apply elem_of_cons; left; reflexivity|].
    destruct IH as (ks & Hks & Hsnd & Hall).
    { intros y Hy. apply Hkey. apply elem_of_cons. right. exact Hy. }
    exists ((m, x) :: ks). simpl. rewrite Hm, Hks. simpl.
    split; [reflexivity|]. split; [f_equal; exact Hsnd|].
    constructor; [exact Hm|exact Hall].
Qed.

Lemma recentFirst_of_keyed fs ks :
  StronglySorted mtime_ge ks ->
  Forall (fun p => getmtime fs p.2 = inr p.1) ks ->
  StronglySorted (recentFirst fs) ks.*2.
Proof.
  induction 1 as [|a ks Hss IH Hall]; intros Hkey; [constructor|].
  apply Forall_cons in Hkey as [Ha Hks]. simpl.
  constructor; [apply IH; exact Hks|].
  apply Forall_fmap. apply Forall_forall. intros b Hb.
  rewrite Forall_forall in Hall, Hks.
  exists a.1, b.1. split; [exact Ha|]. split; [apply Hks; exact Hb|].
  apply (Hall b Hb).
Qed.

(** The sort returns the same names, most recently modified first, as soon
    as every name can be examined. *)
Lemma sortRecentFirst_spec fs l :
  (forall x, x ∈ l -> exists m, getmtime fs x = inr m) ->
  exists dirs, sortRecentFirst fs l = inr dirs /\ dirs ≡ₚ l /\
               StronglySorted (recentFirst fs) dirs.
Proof.
  intros Hkey. destruct (keyed_inr _ _ Hkey) as (ks & Hks & Hsnd & Hall).
  unfold sortRecentFirst. rewrite Hks. simpl.
  exists ((merge_sort mtime_ge ks).*2). split; [reflexivity|]. split.
  - rewrite merge_sort_Permutation, Hsnd. reflexivity.
  - apply recentFirst_of_keyed; [apply StronglySorted_merge_sort; apply _|].
    rewrite merge_sort_Permutation. exact Hall.
Qed.

(** Every matched name has an entry of its tag at or above it. *)
Lemma selectLatest_covers rawlist y :
  y ∈ omap lrdre_match rawlist ->
  exists x, x ∈ selectLatest rawlist /\ loadTag x = loadTag y /\
            str_le y x = true.
Proof.
  intros Hy. destruct (pruneInv_foldl (omap lrdre_match rawlist)) as [Hin Hmax].
  destruct (Hmax y Hy) as (v & Hv & Hle).
  exists v. split; [|split; [|exact Hle]].
  - unfold selectLatest. cbv zeta. apply elem_of_dict_values.
    exists (loadTag y). exact Hv.
  - apply (Hin _ _ Hv).
Qed.

(** A failed [find] is raised with its error output. *)
Lemma getRecentLoads_find_failed fs root refFile :
  returncode (find_newer fs root refFile) <> 0 ->
  getRecentLoads fs root refFile
  = inl (CurrentLoadException (errout (find_newer fs root refFile))).
Proof.
  intros Hrc. unfold getRecentLoads. cbv zeta.
  destruct (Z.eqb_spec (returncode (find_newer fs root refFile)) 0);
    [contradiction|reflexivity].
Qed.

(** C9, as the specification states it, fails: the scanner keeps one
    directory per load tag, not one per year and day-of-year.  Two listed
    directories of the date [2024:100] with different tags are both
    returned; and of two listed directories of different dates with the
    same tag only one is returned, so that the date [2024:100] is left
    without a directory. *)
Lemma one_date_two_directories :
  getRecentLoads
    (listing_fs "/d0/hrc/occ/mp/2024:100:A-APR0924A
/d0/hrc/occ/mp/2024:100:B-APR1024B
") root_dir "/d0/hrc/occ/mp/ref"
  = inr ["/d0/hrc/occ/mp/2024:100:B-APR1024B";
         "/d0/hrc/occ/mp/2024:100:A-APR0924A"] /\
  yearAndDay "/d0/hrc/occ/mp/2024:100:B-APR1024B" = "2024:100" /\
  yearAndDay "/d0/hrc/occ/mp/2024:100:A-APR0924A" = "2024:100" /\
  getRecentLoads
    (listing_fs "/d0/hrc/occ/mp/2024:100:A-APR0924A
/d0/hrc/occ/mp/2024:101:B-APR0924B
") root_dir "/d0/hrc/occ/mp/ref"
  = inr ["/d0/hrc/occ/mp/2024:101:B-APR0924B"] /\
  yearAndDay "/d0/hrc/occ/mp/2024:101:B-APR0924B" = "2024:101".
Proof. repeat split; vm_compute; reflexivity. Qed.

(** C9 (amended): when [find] succeeds and every matched name can be
    examined, [getRecentLoads] returns: exactly the names that are group 1
    of a listed line matching the pattern and are the lexicographically
    greatest such name of their load tag (the seven characters before the
    final revision letter); without repetition, one name per tag, and a
    name for the tag of every matching line; most recently modified first;
    and the same selection whatever the order of the listed lines.  Lines
    that do not match contribute nothing. *)
Theorem getRecentLoads_latest_per_tag fs root refFile :
  returncode (find_newer fs root refFile) = 0 ->
  (forall t y,
     t ∈ py_split_lines "" (output (find_newer fs root refFile)) ->
     lrdre_match t = Some y -> exists m, getmtime fs y = inr m) ->
  exists dirs,
    getRecentLoads fs root refFile = inr dirs /\
    (forall x,
       x ∈ dirs <->
       latestOfTag
         (omap lrdre_match
            (py_split_lines "" (output (find_newer fs root refFile)))) x) /\
    NoDup dirs /\
    (forall x y, x ∈ dirs -> y ∈ dirs -> loadTag x = loadTag y -> x = y) /\
    (forall t y,
       t ∈ py_split_lines "" (output (find_newer fs root refFile)) ->
       lrdre_match t = Some y ->
       exists x, x ∈ dirs /\ loadTag x = loadTag y /\ str_le y x = true) /\
    StronglySorted (recentFirst fs) dirs /\
    (forall rawlist',
       rawlist' ≡ₚ py_split_lines "" (output (find_newer fs root refFile)) ->
       selectLatest rawlist' ≡ₚ dirs).
Proof.
  intros Hrc Hm.
  set (rawlist := py_split_lines "" (output (find_newer fs root refFile))) in *.
  destruct (sortRecentFirst_spec fs (selectLatest rawlist))
    as (dirs & Hsort & Hperm & Hsorted).
  { intros x Hx. apply elem_of_selectLatest in Hx as [Hx _].
    apply list_elem_of_omap in Hx as (t & Ht & Hmatch).
    exact (Hm t x Ht Hmatch). }
  assert (Hmem : forall x, x ∈ dirs <->
                           latestOfTag (omap lrdre_match rawlist) x).
  { intros x. rewrite Hperm. apply elem_of_selectLatest. }
  exists dirs. split.
  { unfold getRecentLoads. cbv zeta. rewrite Hrc. simpl. exact Hsort. }
  split; [exact Hmem|]. split.
  { rewrite Hperm. apply NoDup_selectLatest. }
  split.
  { intros x y Hx Hy Htag.
    apply Hmem in Hx as [Hx Hgx]. apply Hmem in Hy as [Hy Hgy].
    apply String.leb_antisym.
    - apply Hgy; [exact Hx|exact Htag].
    - apply Hgx; [exact Hy|symmetry; exact Htag]. }
  split.
  { intros t y Ht Hmatch.
    destruct (selectLatest_covers rawlist y) as (x & Hx & Htag & Hle).
    - apply list_elem_of_omap. exists t. split; assumption.
    - exists x. split; [rewrite Hperm; exact Hx|]. split; assumption. }
  split; [exact Hsorted|].
  intros rawlist' Hp. rewrite (selectLatest_Permutation _ _ Hp).
  symmetry. exact Hperm.
Qed.

(** The listing of two revisions of one load and a stray directory. *)
Lemma getRecentLoads_latest_per_tag_witness :
  exists dirs,
    getRecentLoads
      (listing_fs "/d0/hrc/occ/mp
/d0/hrc/occ/mp/2024:100:A-APR0924A
/d0/hrc/occ/mp/2024:101:B-APR0924B
/d0/hrc/occ/mp/notes
") root_dir "/d0/hrc/occ/mp/ref" = inr dirs /\
    NoDup dirs /\
    StronglySorted
      (recentFirst (listing_fs "/d0/hrc/occ/mp
/d0/hrc/occ/mp/2024:100:A-APR0924A
/d0/hrc/occ/mp/2024:101:B-APR0924B
/d0/hrc/occ/mp/notes
")) dirs.
Proof.
  destruct (getRecentLoads_latest_per_tag
              (listing_fs "/d0/hrc/occ/mp
/d0/hrc/occ/mp/2024:100:A-APR0924A
/d0/hrc/occ/mp/2024:101:B-APR0924B
/d0/hrc/occ/mp/notes
") root_dir "/d0/hrc/occ/mp/ref")
    as (dirs & Hret & _ & Hnodup & _ & _ & Hsorted & _).
  - reflexivity.
  - intros t y Ht Hmatch.
    change (t ∈ ["/d0/hrc/occ/mp"; "/d0/hrc/occ/mp/2024:100:A-APR0924A";
                 "/d0/hrc/occ/mp/2024:101:B-APR0924B";
                 "/d0/hrc/occ/mp/notes"; ""]) in Ht.
    repeat (apply elem_of_cons in Ht as [->|Ht]);
      [vm_compute in Hmatch; try discriminate Hmatch;
       injection Hmatch as <-; eexists; vm_compute; reflexivity ..|].
    apply elem_of_nil in Ht. contradiction.
  - exists dirs. split; [exact Hret|]. split; assumption.
Defined.

(** * Further properties of the tracker *)

(** ** The signed counter difference *)

(** Swapping the two counters negates the difference, for all integers and
    also at the antipodal distance, where the sign of [b - a] is kept. *)
Theorem deltaVCDU_antisymmetric (a b : Z) :
  deltaVCDU b a = - deltaVCDU a b.
Proof.
  unfold deltaVCDU. rewrite vcduWrap_val. cbv zeta.
  destruct (Z.ltb_spec (b - a) 0), (Z.ltb_spec (a - b) 0);
    repeat match goal with
           | |- context [?x >? ?y] => destruct (Z.gtb_spec x y)
           end; lia.
Qed.

(** On counters of the 24-bit range the magnitude of the difference is the
    shorter way round the cycle. *)
Theorem deltaVCDU_shorter_way (a b : Z) :
  0 <= a < 2 ^ 24 -> 0 <= b < 2 ^ 24 ->
  Z.abs (deltaVCDU a b) = Z.min (Z.abs (b - a)) (2 ^ 24 - Z.abs (b - a)).
Proof.
  change (2 ^ 24) with 16777216. intros Ha Hb.
  destruct (deltaVCDU_cases a b Ha Hb) as [[Hr ->]|[[Hr ->]|[Hr ->]]]; lia.
Qed.

Lemma deltaVCDU_shorter_way_witness :
  Z.abs (deltaVCDU 16777210 10)
  = Z.min (Z.abs (10 - 16777210)) (2 ^ 24 - Z.abs (10 - 16777210)).
Proof. apply deltaVCDU_shorter_way; by_computation. Defined.

(** Advancing both counters by the same amount, with wraparound, leaves the
    difference unchanged, as long as the two are less than half a cycle
    apart. *)
Theorem deltaVCDU_shift_invariant (a b k : Z) :
  0 <= a < 2 ^ 24 -> 0 <= b < 2 ^ 24 ->
  - 2 ^ 23 < deltaVCDU a b < 2 ^ 23 ->
  deltaVCDU ((a + k) mod 2 ^ 24) ((b + k) mod 2 ^ 24) = deltaVCDU a b.
Proof.
  change (2 ^ 24) with 16777216. change (2 ^ 23) with 8388608.
  intros Ha Hb Hd.
  assert (Hb' : exists q, b + k = a + k + deltaVCDU a b + q * 16777216).
  { destruct (deltaVCDU_cases a b Ha Hb) as [[Hr ->]|[[Hr ->]|[Hr ->]]];
      [exists (-1)|exists 0|exists 1]; lia. }
  destruct Hb' as [q Hq].
  replace ((b + k) mod 16777216)
    with ((a + k + deltaVCDU a b) mod 16777216)
    by (rewrite Hq; symmetry; apply Z_mod_plus_full).
  replace ((a + k) mod 16777216) with ((a + k + 0) mod 16777216)
    by (f_equal; lia).
  rewrite deltaVCDU_unwrapped by lia. lia.
Qed.

Lemma deltaVCDU_shift_invariant_witness :
  deltaVCDU ((16777210 + 100) mod 2 ^ 24) ((10 + 100) mod 2 ^ 24)
  = deltaVCDU 16777210 10.
Proof. apply deltaVCDU_shift_invariant; by_computation. Defined.

(** ** The query engine on one load *)

Lemma stateVCDU_inr svrdb i c :
  0 <= i -> stateVCDU svrdb i = inr c -> i < Z.of_nat (length svrdb).
Proof.
  intros Hi. unfold stateVCDU.
  destruct (py_index svrdb i) as [e|line] eqn:E; simpl; [discriminate|].
  intros _. apply (py_index_inr_nonneg _ _ _ Hi E).
Qed.

(** The binary search by time never leaves the range, whatever the order
    of the records and wherever the cursor was: when no switch is due and
    the load has a record at [startIndex], the call returns the record at
    an index of [[startIndex, len)] and leaves the cursor there. *)
Theorem binaryGetStateAtTime_in_range fs s atTime :
  startIndex < Z.of_nat (length (svrdb s)) ->
  switchRequired s (Some atTime) None = inr false ->
  exists r line,
    binaryGetStateAtTime fs atTime s = (inr line, withIndex r s) /\
    startIndex <= r < Z.of_nat (length (svrdb s)) /\
    svrdb s !! Z.to_nat r = Some line.
Proof.
  intros Hlen Hsw. pose proof startIndex_nonneg.
  destruct (binaryTimeIndex_resolved (svrdb s) atTime Hlen)
    as (r & Hr & Hrange & _).
  destruct (py_index_in_range (svrdb s) r ltac:(lia)) as (line & Hl & Hpy).
  exists r, line. split; [|split; assumption].
  rewrite (binaryGetStateAtTime_stable fs s atTime r Hsw Hr), Hpy.
  reflexivity.
Qed.

Lemma binaryGetStateAtTime_in_range_witness :
  exists r line,
    binaryGetStateAtTime no_fs "2024:098:00:00:00.000" (demo_load 42)
    = (inr line, withIndex r (demo_load 42)) /\
    startIndex <= r < Z.of_nat (length (svrdb (demo_load 42))) /\
    svrdb (demo_load 42) !! Z.to_nat r = Some line.
Proof.
  apply binaryGetStateAtTime_in_range; by_computation.
Defined.

(** The same for the binary search by counter, on a load whose counters
    read. *)
Theorem binaryGetStateAtVCDU_in_range fs s atVCDU :
  vcduReadable (svrdb s) ->
  startIndex < Z.of_nat (length (svrdb s)) ->
  switchRequired s None (Some atVCDU) = inr false ->
  exists r line,
    binaryGetStateAtVCDU fs atVCDU s = (inr line, withIndex r s) /\
    startIndex <= r < Z.of_nat (length (svrdb s)) /\
    svrdb s !! Z.to_nat r = Some line.
Proof.
  intros Hread Hlen Hsw. pose proof startIndex_nonneg.
  destruct (binaryVCDUIndex_resolved (svrdb s) atVCDU Hread Hlen)
    as (r & Hr & Hrange & _).
  destruct (py_index_in_range (svrdb s) r ltac:(lia)) as (line & Hl & Hpy).
  exists r, line. split; [|split; assumption].
  rewrite (binaryGetStateAtVCDU_stable fs s atVCDU r Hsw Hr), Hpy.
  reflexivity.
Qed.

(** Case analysis on an index of a three-record load. *)
Ltac three_records i Hlo Hhi :=
  let H := fresh in
  assert (H : i = 40 \/ i = 41 \/ i = 42)
    by (unfold startIndex in Hlo; simpl in Hhi; lia);
  destruct H as [->|[->| ->]].

Lemma demo_svrdb_readable : vcduReadable demo_svrdb.
Proof.
  intros i [Hlo Hhi]. three_records i Hlo Hhi; eexists; vm_compute; reflexivity.
Qed.

Lemma wrap_svrdb_readable : vcduReadable wrap_svrdb.
Proof.
  intros i [Hlo Hhi]. three_records i Hlo Hhi; eexists; vm_compute; reflexivity.
Qed.

Lemma binaryGetStateAtVCDU_in_range_witness :
  exists r line,
    binaryGetStateAtVCDU no_fs 1500 (demo_load 42)
    = (inr line, withIndex r (demo_load 42)) /\
    startIndex <= r < Z.of_nat (length (svrdb (demo_load 42))) /\
    svrdb (demo_load 42) !! Z.to_nat r = Some line.
Proof.
  apply binaryGetStateAtVCDU_in_range;
    [exact demo_svrdb_readable|by_computation..].
Defined.

(** On a load in time order the bisection of [binaryGetStateAtTime] arrives
    at the last record at or before the query: at an index [r] of the range
    such that every record of the range stamped at or before the query is at
    or before [r], and the record at [r] is itself stamped at or before the
    query unless [r] is [startIndex].  When no load switch is due for the
    query (the test of [checkAndChangeLoads] evaluates to false),
    [binaryGetStateAtTime] returns that record and leaves the cursor at
    [r]; when a switch is due the method switches or raises before it
    searches. *)
Theorem binaryGetStateAtTime_last_at_or_before fs s atTime :
  timeOrdered (svrdb s) ->
  startIndex < Z.of_nat (length (svrdb s)) ->
  exists r line,
    binaryTimeIndex (svrdb s) atTime = inr r /\
    svrdb s !! Z.to_nat r = Some line /\
    startIndex <= r < Z.of_nat (length (svrdb s)) /\
    (r = startIndex \/ str_le (py_take 21 line) atTime = true) /\
    (forall j t, startIndex <= j -> stateTime (svrdb s) j = inr t ->
                 str_le t atTime = true -> j <= r) /\
    (switchRequired s (Some atTime) None = inr false ->
     binaryGetStateAtTime fs atTime s = (inr line, withIndex r s)).
Proof.
  intros Hord Hlen. pose proof startIndex_nonneg.
  destruct (binaryTimeIndex_resolved (svrdb s) atTime Hlen)
    as (r & Hr & Hres).
  pose proof Hres as (Hrange & Hlo & _).
  destruct (py_index_in_range (svrdb s) r ltac:(lia)) as (line & Hl & Hpy).
  exists r, line. split; [exact Hr|]. split; [exact Hl|].
  split; [exact Hrange|]. split; [|split].
  - destruct Hlo as [->|Hp]; [left; reflexivity|right].
    unfold atOrBefore, timeAt in Hp. rewrite Hl in Hp. exact Hp.
  - intros j t Hj Ht Hle.
    apply stateTime_inr in Ht as [Hjlen ->]; [|lia].
    apply (resolved_greatest startIndex (Z.of_nat (length (svrdb s)))
             (atOrBefore (svrdb s) atTime)); try assumption.
    + apply atOrBefore_antitone. exact Hord.
    + lia.
  - intros Hsw.
    rewrite (binaryGetStateAtTime_stable fs s atTime r Hsw Hr), Hpy.
    reflexivity.
Qed.

(** On [demo_load 40], queried between the records 41 and 42: no switch is
    due, and the method returns the record the bisection arrives at. *)
Lemma binaryGetStateAtTime_last_at_or_before_witness :
  exists r line,
    binaryTimeIndex (svrdb (demo_load 40)) "2024:100:00:00:15.000" = inr r /\
    svrdb (demo_load 40) !! Z.to_nat r = Some line /\
    startIndex <= r < Z.of_nat (length (svrdb (demo_load 40))) /\
    (r = startIndex \/
     str_le (py_take 21 line) "2024:100:00:00:15.000" = true) /\
    (forall j t, startIndex <= j ->
                 stateTime (svrdb (demo_load 40)) j = inr t ->
                 str_le t "2024:100:00:00:15.000" = true -> j <= r) /\
    binaryGetStateAtTime no_fs "2024:100:00:00:15.000" (demo_load 40)
    = (inr line, withIndex r (demo_load 40)).
Proof.
  destruct (binaryGetStateAtTime_last_at_or_before no_fs (demo_load 40)
              "2024:100:00:00:15.000")
    as (r & line & Hr & Hl & Hrange & Hlo & Hmax & Hmeth).
  - exact demo_svrdb_ordered.
  - by_computation.
  - exists r, line. split; [exact Hr|]. split; [exact Hl|].
    split; [exact Hrange|]. split; [exact Hlo|]. split; [exact Hmax|].
    apply Hmeth. reflexivity.
Defined.

(** On a load in time order, from a cursor above [startIndex] or for a
    query at or after the record at [startIndex], [getStateAtTime] and
    [binaryGetStateAtTime] return the same record and leave the same
    object. *)
Theorem time_queries_agree fs s atTime :
  timeOrdered (svrdb s) ->
  startIndex <= currentStateIndex s < Z.of_nat (length (svrdb s)) ->
  (startIndex < currentStateIndex s \/
   exists t, stateTime (svrdb s) startIndex = inr t /\ str_le t atTime = true) ->
  switchRequired s (Some atTime) None = inr false ->
  getStateAtTime fs atTime s = binaryGetStateAtTime fs atTime s /\
  exists r line,
    getStateAtTime fs atTime s = (inr line, withIndex r s) /\
    startIndex <= r < Z.of_nat (length (svrdb s)).
Proof.
  intros Hord Hcur Hok Hsw. pose proof startIndex_nonneg.
  assert (Hok' : startIndex < currentStateIndex s \/
                 atOrBefore (svrdb s) atTime startIndex = true).
  { destruct Hok as [|(t & Ht & Hle)]; [left; assumption|right].
    apply stateTime_inr in Ht as [_ ->]; [exact Hle|lia]. }
  destruct (linear_binary_time_agree (svrdb s) atTime (currentStateIndex s)
              Hord Hcur Hok') as (r & Hlin & Hbin & Hrange & _).
  destruct (py_index_in_range (svrdb s) r ltac:(lia)) as (line & _ & Hpy).
  rewrite (getStateAtTime_stable fs s atTime r Hsw Hlin).
  rewrite (binaryGetStateAtTime_stable fs s atTime r Hsw Hbin).
  split; [reflexivity|]. exists r, line. rewrite Hpy. split; [reflexivity|lia].
Qed.

Lemma time_queries_agree_witness :
  getStateAtTime no_fs "2024:100:00:00:15.000" (demo_load 40)
  = binaryGetStateAtTime no_fs "2024:100:00:00:15.000" (demo_load 40) /\
  exists r line,
    getStateAtTime no_fs "2024:100:00:00:15.000" (demo_load 40)
    = (inr line, withIndex r (demo_load 40)) /\
    startIndex <= r < Z.of_nat (length (svrdb (demo_load 40))).
Proof.
  apply time_queries_agree.
  - exact demo_svrdb_ordered.
  - by_computation.
  - right. exists "2024:100:00:00:00.000". split; reflexivity.
  - reflexivity.
Defined.

(** Search by counter is unambiguous when the load spans less than half a
    cycle: if the counters from [startIndex] on are non-decreasing offsets
    from a base, reduced modulo [2^24], and the query is within half a cycle
    of each of them, then [getStateAtVCDU] and [binaryGetStateAtVCDU]
    return the same record and leave the same object, across the wrap (from
    a cursor above [startIndex], or for a query at or after the record at
    [startIndex]). *)
Theorem counter_queries_agree_within_half_cycle
    fs s atVCDU (base v : Z) (offs : Z -> Z) :
  vcduReadable (svrdb s) ->
  (forall i c, startIndex <= i -> stateVCDU (svrdb s) i = inr c ->
               c = (base + offs i) mod 2 ^ 24 /\
               - 2 ^ 23 < v - offs i < 2 ^ 23) ->
  (forall i j, startIndex <= i -> i <= j ->
               j < Z.of_nat (length (svrdb s)) -> offs i <= offs j) ->
  atVCDU = (base + v) mod 2 ^ 24 ->
  startIndex <= currentStateIndex s < Z.of_nat (length (svrdb s)) ->
  (startIndex < currentStateIndex s \/ offs startIndex <= v) ->
  switchRequired s None (Some atVCDU) = inr false ->
  getStateAtVCDU fs atVCDU s = binaryGetStateAtVCDU fs atVCDU s /\
  exists r line,
    getStateAtVCDU fs atVCDU s = (inr line, withIndex r s) /\
    startIndex <= r < Z.of_nat (length (svrdb s)).
Proof.
  change (2 ^ 24) with 16777216. change (2 ^ 23) with 8388608.
  intros Hread Hoffs Hmono HV Hcur Hok Hsw. pose proof startIndex_nonneg.
  assert (Hoffs' : forall i, startIndex <= i < Z.of_nat (length (svrdb s)) ->
             vcduAt (svrdb s) i = (base + offs i) mod 16777216 /\
             - 8388608 < v - offs i < 8388608).
  { intros i Hi. apply Hoffs; [lia|]. apply stateVCDU_in_range; assumption. }
  assert (Hanti : antitone startIndex (Z.of_nat (length (svrdb s)))
                    (counterAtOrBefore (svrdb s) atVCDU))
    by (apply (offsets_antitone _ _ base v offs); assumption).
  assert (Hok' : startIndex < currentStateIndex s \/
                 counterAtOrBefore (svrdb s) atVCDU startIndex = true).
  { destruct Hok as [|Hle]; [left; assumption|right].
    unfold counterAtOrBefore. destruct (Hoffs' startIndex ltac:(lia)) as [-> Hb].
    rewrite HV, deltaVCDU_unwrapped by assumption.
    destruct (Z.geb_spec (v - offs startIndex) 0); [reflexivity|lia]. }
  destruct (linear_binary_vcdu_agree (svrdb s) atVCDU Hread
              (currentStateIndex s) Hanti Hcur Hok')
    as (r & Hlin & Hbin & Hrange & _).
  destruct (py_index_in_range (svrdb s) r ltac:(lia)) as (line & _ & Hpy).
  rewrite (getStateAtVCDU_stable fs s atVCDU r Hsw Hlin).
  rewrite (binaryGetStateAtVCDU_stable fs s atVCDU r Hsw Hbin).
  split; [reflexivity|]. exists r, line. rewrite Hpy. split; [reflexivity|lia].
Qed.

(** The load that ends at counter 16777210, queried for the counter 3
    beyond the wrap. *)
Lemma counter_queries_agree_within_half_cycle_witness :
  getStateAtVCDU no_fs 3 wrap_load = binaryGetStateAtVCDU no_fs 3 wrap_load /\
  exists r line,
    getStateAtVCDU no_fs 3 wrap_load = (inr line, withIndex r wrap_load) /\
    startIndex <= r < Z.of_nat (length (svrdb wrap_load)).
Proof.
  apply (counter_queries_agree_within_half_cycle no_fs wrap_load 3
           16777100 119
           (fun i => if i =? 40 then 0 else if i =? 41 then 50 else 110)).
  - exact wrap_svrdb_readable.
  - intros i c Hlo Hc.
    assert (Hhi : i < Z.of_nat (length (svrdb wrap_load))).
    { apply (stateVCDU_inr _ _ c); [unfold startIndex in Hlo; lia|exact Hc]. }
    three_records i Hlo Hhi; vm_compute in Hc; injection Hc as <-;
      by_computation.
  - intros i j Hi Hij Hj.
    assert (Hi' : i < Z.of_nat (length (svrdb wrap_load))) by lia.
    assert (Hj' : startIndex <= j) by lia.
    three_records i Hi Hi'; three_records j Hj' Hj; simpl; lia.
  - reflexivity.
  - by_computation.
  - right. by_computation.
  - reflexivity.
Defined.

(** The switch test does not read the cursor. *)
Lemma switchRequired_withIndex i s atTime atVCDU :
  switchRequired (withIndex i s) atTime atVCDU = switchRequired s atTime atVCDU.
Proof. reflexivity. Qed.

(** Successive queries by time do not move the cursor back: on a load in
    time order, with no switch due, a query at or after the record at
    [startIndex] followed by a query at the same or a later time resolve to
    indices [r1 <= r2] of the range. *)
Theorem successive_time_queries_advance fs s t1 t2 :
  timeOrdered (svrdb s) ->
  startIndex <= currentStateIndex s < Z.of_nat (length (svrdb s)) ->
  (exists t, stateTime (svrdb s) startIndex = inr t /\ str_le t t1 = true) ->
  str_le t1 t2 = true ->
  switchRequired s (Some t1) None = inr false ->
  switchRequired s (Some t2) None = inr false ->
  exists r1 r2 line1 line2,
    getStateAtTime fs t1 s = (inr line1, withIndex r1 s) /\
    getStateAtTime fs t2 (withIndex r1 s) = (inr line2, withIndex r2 s) /\
    startIndex <= r1 /\ r1 <= r2 /\ r2 < Z.of_nat (length (svrdb s)).
Proof.
  intros Hord Hcur (t & Ht & Hle1) Hle Hsw1 Hsw2. pose proof startIndex_nonneg.
  apply (getStateAtTime_monotone fs s t1 t2); try assumption.
  - apply stateTime_inr in Ht as [_ ->]; [exact Hle1|lia].
  - intros i. rewrite switchRequired_withIndex. exact Hsw2.
Qed.

Lemma successive_time_queries_advance_witness :
  exists r1 r2 line1 line2,
    getStateAtTime no_fs "2024:100:00:00:05.000" (demo_load 42)
    = (inr line1, withIndex r1 (demo_load 42)) /\
    getStateAtTime no_fs "2024:100:00:00:15.000" (withIndex r1 (demo_load 42))
    = (inr line2, withIndex r2 (demo_load 42)) /\
    startIndex <= r1 /\ r1 <= r2 /\
    r2 < Z.of_nat (length (svrdb (demo_load 42))).
Proof.
  apply successive_time_queries_advance.
  - exact demo_svrdb_ordered.
  - by_computation.
  - exists "2024:100:00:00:00.000". split; reflexivity.
  - reflexivity.
  - reflexivity.
  - reflexivity.
Defined.

(** Asking again does not move the cursor: on a load in time order, a
    linear query by time at or after the record at [startIndex], repeated
    on the object it left, returns the same record and leaves the same
    object. *)
Theorem repeated_time_query_is_stable fs s atTime :
  timeOrdered (svrdb s) ->
  startIndex <= currentStateIndex s < Z.of_nat (length (svrdb s)) ->
  (exists t, stateTime (svrdb s) startIndex = inr t /\
             str_le t atTime = true) ->
  switchRequired s (Some atTime) None = inr false ->
  exists line s',
    getStateAtTime fs atTime s = (inr line, s') /\
    getStateAtTime fs atTime s' = (inr line, s').
Proof.
  intros Hord Hcur (t & Ht & Hle) Hsw. pose proof startIndex_nonneg.
  apply stateTime_inr in Ht as [_ ->]; [|lia].
  destruct (linearTimeIndex_resolved (svrdb s) atTime (currentStateIndex s)
              Hcur (or_intror Hle)) as (r & Hl & Hres).
  pose proof Hres as (Hrange & _).
  destruct (linearTimeIndex_resolved (svrdb s) atTime r Hrange (or_intror Hle))
    as (r' & Hl' & Hres').
  assert (r' = r) as ->.
  { apply (resolved_unique startIndex (Z.of_nat (length (svrdb s)))
             (atOrBefore (svrdb s) atTime)); try assumption.
    apply atOrBefore_antitone. exact Hord. }
  destruct (py_index_in_range (svrdb s) r ltac:(lia)) as (line & _ & Hpy).
  exists line, (withIndex r s). split.
  - rewrite (getStateAtTime_stable fs s atTime r Hsw Hl), Hpy. reflexivity.
  - rewrite (getStateAtTime_stable fs (withIndex r s) atTime r Hsw Hl').
    simpl. rewrite Hpy. reflexivity.
Qed.

Lemma repeated_time_query_is_stable_witness :
  exists line s',
    getStateAtTime no_fs "2024:100:00:00:15.000" (demo_load 40)
    = (inr line, s') /\
    getStateAtTime no_fs "2024:100:00:00:15.000" s' = (inr line, s').
Proof.
  apply repeated_time_query_is_stable.
  - exact demo_svrdb_ordered.
  - by_computation.
  - exists "2024:100:00:00:00.000". split; reflexivity.
  - reflexivity.
Defined.

(** A load without a record at [startIndex]: with the cursor where
    [slurpState] leaves it and no switch due, the linear queries raise
    [IndexError] and leave the object as it was, while the binary queries
    first set the cursor and then raise. *)
Theorem short_load_raises_IndexError fs s atTime atVCDU :
  Z.of_nat (length (svrdb s)) <= startIndex ->
  currentStateIndex s = startIndex ->
  switchRequired s (Some atTime) None = inr false ->
  switchRequired s None (Some atVCDU) = inr false ->
  getStateAtTime fs atTime s = (inl IndexError, s) /\
  binaryGetStateAtTime fs atTime s
  = (inl IndexError, withIndex startIndex s) /\
  getStateAtVCDU fs atVCDU s = (inl IndexError, s) /\
  binaryGetStateAtVCDU fs atVCDU s
  = (inl IndexError, withIndex startIndex s).
Proof.
  intros Hlen Hcur. pose proof startIndex_nonneg.
  assert (Hidx : py_index (svrdb s) startIndex = inl IndexError).
  { unfold py_index. cbv zeta.
    destruct (Z.ltb_spec startIndex 0); [lia|].
    destruct (Z.ltb_spec startIndex 0); [lia|].
    destruct (Z.leb_spec (Z.of_nat (length (svrdb s))) startIndex); [|lia].
    reflexivity. }
  intros Hsw Hsw'. split; [|split; [|split]].
  - unfold getStateAtTime, bind.
    rewrite (checkAndChangeLoads_stable fs s _ _ Hsw).
    unfold self, lift. cbv beta iota.
    unfold linearTimeIndex, stateTime. rewrite Hcur, Hidx.
    reflexivity.
  - unfold binaryGetStateAtTime, bind.
    rewrite (checkAndChangeLoads_stable fs s _ _ Hsw).
    unfold self, lift. cbv beta iota. unfold binaryTimeIndex, whileBisect.
    replace (Z.to_nat (Z.of_nat (length (svrdb s)) - startIndex))
      with O by lia.
    cbn [bisect]. unfold resolve, bind, assign, self, lift.
    cbn [svrdb currentStateIndex withIndex]. rewrite Hidx. reflexivity.
  - unfold getStateAtVCDU, bind.
    rewrite (checkAndChangeLoads_stable fs s _ _ Hsw').
    unfold self, lift. cbv beta iota.
    unfold linearVCDUIndex, stateVCDU. rewrite Hcur, Hidx.
    reflexivity.
  - unfold binaryGetStateAtVCDU, bind.
    rewrite (checkAndChangeLoads_stable fs s _ _ Hsw').
    unfold self, lift. cbv beta iota. unfold binaryVCDUIndex, whileBisect.
    replace (Z.to_nat (Z.of_nat (length (svrdb s)) - startIndex))
      with O by lia.
    cbn [bisect]. unfold resolve, bind, assign, self, lift.
    cbn [svrdb currentStateIndex withIndex]. rewrite Hidx. reflexivity.
Qed.

Lemma short_load_raises_IndexError_witness :
  getStateAtTime no_fs "2024:100:00:00:05.000" short_load
  = (inl IndexError, short_load) /\
  binaryGetStateAtTime no_fs "2024:100:00:00:05.000" short_load
  = (inl IndexError, withIndex startIndex short_load) /\
  getStateAtVCDU no_fs 2010 short_load = (inl IndexError, short_load) /\
  binaryGetStateAtVCDU no_fs 2010 short_load
  = (inl IndexError, withIndex startIndex short_load).
Proof. apply short_load_raises_IndexError; by_computation. Defined.

(** ** The text of names and records *)

Lemma py_take_0 s : py_take 0 s = "".
Proof. destruct s; reflexivity. Qed.

Lemma py_take_cons n c s : py_take (S n) (String c s) = String c (py_take n s).
Proof. reflexivity. Qed.

Lemma py_take_length n s :
  String.length (py_take n s) = Nat.min n (String.length s).
Proof.
  revert s. induction n as [|n IH]; intros s.
  - rewrite py_take_0. reflexivity.
  - destruct s as [|c s]; [reflexivity|].
    rewrite py_take_cons. simpl. rewrite IH. reflexivity.
Qed.

Lemma py_take_idem n s : py_take n (py_take n s) = py_take n s.
Proof.
  revert s. induction n as [|n IH]; intros s.
  - rewrite !py_take_0. reflexivity.
  - destruct s as [|c s]; [reflexivity|].
    rewrite !py_take_cons, IH. reflexivity.
Qed.

Lemma py_take_prefix n s : String.prefix (py_take n s) s = true.
Proof.
  revert s. induction n as [|n IH]; intros s.
  - rewrite py_take_0. destruct s; reflexivity.
  - destruct s as [|c s]; [reflexivity|].
    rewrite py_take_cons. simpl.
    destruct (ascii_dec c c); [apply IH|contradiction].
Qed.

Lemma py_take_get i n s :
  (i < n)%nat -> String.get i (py_take n s) = String.get i s.
Proof.
  revert n s. induction i as [|i IH]; intros n s Hi.
  - destruct n; [lia|]. destruct s; reflexivity.
  - destruct n; [lia|]. destruct s as [|c s]; [reflexivity|].
    rewrite py_take_cons. simpl. apply IH. lia.
Qed.

Lemma match_classes_length pat s :
  match_classes pat s = true -> (length pat <= String.length s)%nat.
Proof.
  revert s. induction pat as [|k pat IH]; intros s H; simpl; [lia|].
  destruct s as [|c s]; [discriminate|]. simpl in H.
  apply andb_prop in H as [_ H]. apply IH in H. simpl. lia.
Qed.

Lemma match_classes_take pat n s :
  (length pat <= n)%nat ->
  match_classes pat (py_take n s) = match_classes pat s.
Proof.
  revert n s. induction pat as [|k pat IH]; intros n s Hn; [reflexivity|].
  simpl in Hn. destruct n; [lia|]. destruct s as [|c s]; [reflexivity|].
  rewrite py_take_cons. simpl. rewrite IH by lia. reflexivity.
Qed.

Lemma gmtre_match_take21 t :
  match_classes gmt_classes t = true ->
  String.length (py_take 21 t) = 21%nat /\
  gmtre_match (py_take 21 t) = Some (py_take 21 t).
Proof.
  intros Hm. pose proof (match_classes_length _ _ Hm) as Hlen.
  simpl in Hlen. split; [rewrite py_take_length; lia|].
  unfold gmtre_match. rewrite match_classes_take by (simpl; lia).
  rewrite Hm, py_take_idem. reflexivity.
Qed.

(** The date-time tag that [gmtre] extracts is the first 21 characters of
    the line and is itself matched whole. *)
Theorem gmtre_match_tag t g :
  gmtre_match t = Some g ->
  g = py_take 21 t /\ String.length g = 21%nat /\
  String.prefix g t = true /\ gmtre_match g = Some g.
Proof.
  unfold gmtre_match at 1. destruct (match_classes gmt_classes t) eqn:Hm;
    [|discriminate].
  intros [= <-]. destruct (gmtre_match_take21 t Hm) as [Hlen Hg].
  split; [reflexivity|]. split; [exact Hlen|].
  split; [apply py_take_prefix|exact Hg].
Qed.

Lemma gmtre_match_tag_witness :
  "2024:100:00:00:00.000" = py_take 21 "2024:100:00:00:00.000 16777210 rest" /\
  String.length "2024:100:00:00:00.000" = 21%nat /\
  String.prefix "2024:100:00:00:00.000"
    "2024:100:00:00:00.000 16777210 rest" = true /\
  gmtre_match "2024:100:00:00:00.000" = Some "2024:100:00:00:00.000".
Proof. apply gmtre_match_tag. reflexivity. Defined.

Lemma lrd_tail_ok_length t :
  lrd_tail_ok t = true -> (20 <= String.length t)%nat.
Proof.
  unfold lrd_tail_ok. intros H. apply andb_prop in H as [H _].
  apply match_classes_length in H. exact H.
Qed.

Lemma lrd_tail_ok_take t : lrd_tail_ok (py_take 20 t) = lrd_tail_ok t.
Proof.
  unfold lrd_tail_ok. rewrite match_classes_take by (simpl; lia).
  rewrite !py_take_get by lia. reflexivity.
Qed.

Lemma lrdre_end_bounds t e :
  lrdre_end t = Some e -> (20 <= e <= String.length t)%nat.
Proof.
  revert e. induction t as [|c r IH]; intros e; simpl; [discriminate|].
  destruct (if Ascii.eqb c "010" then None else S <$> lrdre_end r)
    as [e'|] eqn:Hdeep.
  - intros [= <-]. destruct (Ascii.eqb c "010"); [discriminate|].
    destruct (lrdre_end r) as [e''|]; [|discriminate].
    injection Hdeep as <-. specialize (IH e'' eq_refl). lia.
  - destruct (lrd_tail_ok (String c r)) eqn:Hok; [|discriminate].
    intros [= <-]. apply lrd_tail_ok_length in Hok. simpl in Hok. lia.
Qed.

Lemma lrdre_end_take t e :
  lrdre_end t = Some e -> lrdre_end (py_take e t) = Some e.
Proof.
  revert e. induction t as [|c r IH]; intros e; [discriminate|].
  cbn [lrdre_end].
  destruct (if Ascii.eqb c "010" then None else S <$> lrdre_end r)
    as [e'|] eqn:Hdeep.
  - intros [= <-]. destruct (Ascii.eqb c "010") eqn:Hc; [discriminate|].
    destruct (lrdre_end r) as [e''|] eqn:Hr; [|discriminate].
    injection Hdeep as <-. rewrite py_take_cons. cbn [lrdre_end].
    rewrite Hc, (IH e'' eq_refl). reflexivity.
  - destruct (lrd_tail_ok (String c r)) eqn:Hok; [|discriminate].
    intros [= <-]. change 20%nat with (S 19) at 1. rewrite py_take_cons.
    cbn [lrdre_end].
    assert (Hnone : lrdre_end (py_take 19 r) = None).
    { destruct (lrdre_end (py_take 19 r)) as [e|] eqn:He; [|reflexivity].
      apply lrdre_end_bounds in He. rewrite py_take_length in He. lia. }
    rewrite Hnone.
    replace (if Ascii.eqb c "010" then None else S <$> None)
      with (@None nat) by (destruct (Ascii.eqb c "010"); reflexivity).
    change (String c (py_take 19 r)) with (py_take 20 (String c r)).
    rewrite lrd_tail_ok_take, Hok. reflexivity.
Qed.

(** The name that [lrdre] extracts from a line is a prefix of the line, at
    least twenty characters long, and is itself matched whole: scanning a
    name the scanner returned gives the same name again. *)
Theorem lrdre_match_fixed_point t x :
  lrdre_match t = Some x ->
  lrdre_match x = Some x /\ String.prefix x t = true /\
  (20 <= String.length x)%nat.
Proof.
  unfold lrdre_match. destruct (lrdre_end t) as [e|] eqn:He; [|discriminate].
  intros [= <-]. pose proof (lrdre_end_bounds _ _ He).
  split; [|split].
  - rewrite (lrdre_end_take _ _ He). simpl. rewrite py_take_idem. reflexivity.
  - apply py_take_prefix.
  - rewrite py_take_length. lia.
Qed.

Lemma lrdre_match_fixed_point_witness :
  lrdre_match "/d0/hrc/occ/mp/2024:100:A-APR0924A"
  = Some "/d0/hrc/occ/mp/2024:100:A-APR0924A" /\
  String.prefix "/d0/hrc/occ/mp/2024:100:A-APR0924A"
    "/d0/hrc/occ/mp/2024:100:A-APR0924A.old/x" = true /\
  (20 <= String.length "/d0/hrc/occ/mp/2024:100:A-APR0924A")%nat.
Proof.
  apply (lrdre_match_fixed_point "/d0/hrc/occ/mp/2024:100:A-APR0924A.old/x").
  reflexivity.
Defined.

(** ** Stored records and raw lines *)

Lemma py_rstrip_cons_graphic c r :
  Ascii.is_space c = false -> py_rstrip (String c r) = String c (py_rstrip r).
Proof.
  intros Hc. simpl. rewrite Hc. destruct (py_rstrip r); reflexivity.
Qed.

Lemma py_rstrip_idem s : py_rstrip (py_rstrip s) = py_rstrip s.
Proof.
  induction s as [|c r IH]; [reflexivity|]. simpl.
  destruct (py_rstrip r) as [|c' r'] eqn:Hr.
  - destruct (Ascii.is_space c) eqn:Hc; [reflexivity|].
    simpl. rewrite Hc. reflexivity.
  - change (py_rstrip (String c (String c' r')) = String c (String c' r')).
    cbn [py_rstrip]. cbn [py_rstrip] in IH. rewrite IH. reflexivity.
Qed.

(** Splitting into fields does not see the whitespace that [rstrip]
    removes. *)
Lemma words_go_cons cur a s :
  String.words_go cur (String a s)
  = if Ascii.is_space a
    then option_list (String.rev <$> cur) ++ String.words_go None s
    else String.words_go
           (Some (from_option (String a) (String a "") cur)) s.
Proof. reflexivity. Qed.

Lemma words_go_rstrip s :
  forall cur, String.words_go cur (py_rstrip s) = String.words_go cur s.
Proof.
  induction s as [|c r IH]; intros cur; [reflexivity|].
  rewrite (words_go_cons cur c r), <- !IH.
  cbn [py_rstrip]. destruct (py_rstrip r) as [|c' r'] eqn:Hr.
  - destruct (Ascii.is_space c) eqn:Hc.
    + simpl. rewrite app_nil_r. reflexivity.
    + rewrite words_go_cons, Hc. reflexivity.
  - rewrite words_go_cons. reflexivity.
Qed.

Lemma py_split_rstrip s : py_split (py_rstrip s) = py_split s.
Proof. apply words_go_rstrip. Qed.

Lemma in_range_graphic lo hi c :
  Ascii.is_space lo = false ->
  (N_of_ascii lo > 32)%N ->
  in_range lo hi c = true -> Ascii.is_space c = false.
Proof.
  intros _ Hlo. unfold in_range, Ascii.leb, Ascii.compare.
  intros H. apply andb_prop in H as [H _].
  destruct (N.compare_spec (N_of_ascii lo) (N_of_ascii c)) as [Heq|Hlt|Hgt];
    try discriminate H.
  - assert (Hc : (N_of_ascii c > 32)%N) by lia. clear -Hc.
    destruct c as [[] [] [] [] [] [] [] []]; vm_compute in Hc |- *;
      first [reflexivity|discriminate Hc|congruence].
  - assert (Hc : (N_of_ascii c > 32)%N) by lia. clear -Hc.
    destruct c as [[] [] [] [] [] [] [] []]; vm_compute in Hc |- *;
      first [reflexivity|discriminate Hc|congruence].
Qed.

Lemma cls_ok_graphic k c :
  graphic k = true -> cls_ok k c = true -> Ascii.is_space c = false.
Proof.
  destruct k as [| | |d]; simpl; intros Hk Hc.
  - apply (in_range_graphic "0" "9"); [reflexivity|reflexivity|exact Hc].
  - apply (in_range_graphic "A" "Z"); [reflexivity|reflexivity|exact Hc].
  - apply (in_range_graphic "A" "N"); [reflexivity|reflexivity|exact Hc].
  - apply Ascii.eqb_eq in Hc as <-. apply negb_true_iff in Hk. exact Hk.
Qed.

(** A prefix of non-blank characters survives [rstrip] and is the start of
    the first field. *)
Lemma match_classes_rstrip pat s :
  forallb graphic pat = true -> match_classes pat s = true ->
  match_classes pat (py_rstrip s) = true /\
  py_take (length pat) (py_rstrip s) = py_take (length pat) s /\
  py_take (length pat) (first_word s) = py_take (length pat) s.
Proof.
  revert s. induction pat as [|k pat IH]; intros s Hg Hm.
  - simpl. rewrite !py_take_0. repeat split; reflexivity.
  - destruct s as [|c r]; [discriminate|]. simpl in Hg, Hm.
    apply andb_prop in Hg as [Hk Hg]. apply andb_prop in Hm as [Hc Hm].
    pose proof (cls_ok_graphic k c Hk Hc) as Hsp.
    destruct (IH r Hg Hm) as (H1 & H2 & H3).
    rewrite py_rstrip_cons_graphic by exact Hsp.
    cbn [match_classes length first_word]. rewrite Hsp, Hc, H1.
    rewrite !py_take_cons, H2, H3. repeat split; reflexivity.
Qed.

Lemma py_rstrip_cases c r :
  py_rstrip (String c r) = "" \/
  py_rstrip (String c r) = String c (py_rstrip r).
Proof.
  simpl. destruct (py_rstrip r); [|right; reflexivity].
  destruct (Ascii.is_space c); [left|right]; reflexivity.
Qed.

(** What matches at the start of a stripped line matches at the start of
    the line. *)
Lemma match_classes_of_rstrip pat s :
  match_classes pat (py_rstrip s) = true -> match_classes pat s = true.
Proof.
  revert s. induction pat as [|k pat IH]; intros s H; [reflexivity|].
  destruct s as [|c r]; [discriminate|].
  destruct (py_rstrip_cases c r) as [E|E]; rewrite E in H; [discriminate|].
  simpl in H |- *. apply andb_prop in H as [Hc H].
  rewrite Hc, (IH r H). reflexivity.
Qed.

Lemma rev_app_cons acc c w :
  String.rev_app (String c acc) w = String.rev_app acc (String c w).
Proof. reflexivity. Qed.

(** The fields of a line: the first word, then the fields of the rest. *)
Lemma words_go_Some s :
  forall acc, String.words_go (Some acc) s
              = String.rev_app acc (first_word s)
                :: String.words_go None (after_word s).
Proof.
  induction s as [|c r IH]; intros acc; [reflexivity|].
  cbn [String.words_go first_word after_word].
  destruct (Ascii.is_space c); [reflexivity|].
  simpl from_option. rewrite IH. reflexivity.
Qed.

Lemma py_split_graphic c r :
  Ascii.is_space c = false ->
  py_split (String c r)
  = first_word (String c r) :: py_split (after_word (String c r)).
Proof.
  intros Hc. unfold py_split, String.words. cbn [String.words_go first_word after_word].
  rewrite Hc. simpl from_option. rewrite words_go_Some. reflexivity.
Qed.

Lemma py_index_fmap {A B : Type} (f : A -> B) (l : list A) k :
  py_index (f <$> l) k
  = match py_index l k with inl e => inl e | inr a => inr (f a) end.
Proof.
  unfold py_index. cbv zeta. rewrite length_fmap.
  destruct ((_ <? 0) || _); [reflexivity|].
  rewrite list_lookup_fmap. destruct (l !! _); reflexivity.
Qed.

Lemma py_index_second {A : Type} (a b : A) (l : list A) :
  py_index (a :: b :: l) 1 = inr b.
Proof.
  destruct (py_index_in_range (a :: b :: l) 1) as (x & Hx & ->).
  - simpl length. lia.
  - simpl in Hx. injection Hx as <-. reflexivity.
Qed.

(** The counter of a stored record is the counter of the raw line. *)
Lemma stateVCDU_rstrip lines k :
  stateVCDU (py_rstrip <$> lines) k = stateVCDU lines k.
Proof.
  unfold stateVCDU. rewrite py_index_fmap.
  destruct (py_index lines k) as [e|line]; [reflexivity|].
  simpl. rewrite py_split_rstrip. reflexivity.
Qed.

Lemma find_first {A : Type} (f : A -> bool) (l : list A) x :
  List.find f l = Some x ->
  exists k, l !! k = Some x /\ f x = true /\
            forall j y, (j < k)%nat -> l !! j = Some y -> f y = false.
Proof.
  induction l as [|a l IH]; [discriminate|]. simpl.
  destruct (f a) eqn:Ha.
  - intros [= <-]. exists O. split; [reflexivity|]. split; [exact Ha|].
    intros j y Hj. lia.
  - intros H. destruct (IH H) as (k & Hk & Hx & Hbefore).
    exists (S k). split; [exact Hk|]. split; [exact Hx|].
    intros [|j] y Hj Hy.
    + injection Hy as <-. exact Ha.
    + apply (Hbefore j); [lia|exact Hy].
Qed.

(** The boundary the planner caches is read from a record of the load it
    belongs to: when [firstTimeVCDU] gives [(t0, v0)] for a directory and
    [slurpState] then reads the same file, the stored records hold, at the
    index of the first time-tagged line, a record with counter [v0] and
    with the first 21 characters of [t0] as its time tag; no earlier line
    is time-tagged. *)
Theorem cached_boundary_is_a_stored_record fs d t0 v0 s s' :
  firstTimeVCDU fs d = inr (Some (t0, v0)) ->
  slurpState fs d s = (inr tt, s') ->
  exists k : nat,
    stateVCDU (svrdb s') (Z.of_nat k) = inr v0 /\
    stateTime (svrdb s') (Z.of_nat k) = inr (py_take 21 t0) /\
    gmtre_match (py_take 21 t0) = Some (py_take 21 t0) /\
    (forall j line, (j < k)%nat -> svrdb s' !! j = Some line ->
                    gmtre_match line = None) /\
    currentLoads s' = d /\ currentStateIndex s' = startIndex.
Proof.
  unfold firstTimeVCDU, slurpState, bind, lift, assign. cbv zeta.
  destruct (open_lines fs (d +:+ "/" +:+ py_last 8 d +:+ ".svrdb"))
    as [e|lines]; [discriminate|]. simpl.
  destruct (List.find _ lines) as [line|] eqn:Hfind; [|discriminate].
  destruct (find_first _ _ _ Hfind) as (k & Hk & Hmatch & Hbefore).
  apply bool_decide_eq_true in Hmatch. destruct Hmatch as [g Hg].
  assert (Hcls : match_classes gmt_classes line = true).
  { unfold gmtre_match in Hg.
    destruct (match_classes gmt_classes line); [reflexivity|discriminate]. }
  destruct (match_classes_rstrip gmt_classes line eq_refl Hcls)
    as (Hm' & Htake & Hword).
  change (length gmt_classes) with 21%nat in Htake, Hword.
  destruct line as [|c r]; [discriminate|].
  assert (Hc : Ascii.is_space c = false).
  { simpl in Hcls. apply andb_prop in Hcls as [Hc _].
    apply (cls_ok_graphic Digit c eq_refl Hc). }
  rewrite (py_split_graphic c r Hc).
  destruct (py_split (after_word (String c r))) as [|vv rest] eqn:Hrest;
    [discriminate|]. simpl.
  destruct (py_int vv) as [e|z] eqn:Hint; [discriminate|]. simpl.
  intros [= <- <-] [= <-]. exists k. cbn [svrdb currentLoads currentStateIndex activated].
  assert (Hrange : 0 <= Z.of_nat k < Z.of_nat (length lines)).
  { apply lookup_lt_Some in Hk. lia. }
  assert (Hidx : py_index lines (Z.of_nat k) = inr (String c r)).
  { destruct (py_index_in_range lines (Z.of_nat k) Hrange) as (a & Ha & ->).
    rewrite Nat2Z.id, Hk in Ha. injection Ha as <-. reflexivity. }
  split; [|split; [|split; [|split; [|split; reflexivity]]]].
  - rewrite stateVCDU_rstrip. unfold stateVCDU. rewrite Hidx. simpl.
    rewrite (py_split_graphic c r Hc), Hrest, py_index_second. exact Hint.
  - unfold stateTime. rewrite py_index_fmap, Hidx. cbn [res_bind].
    rewrite Htake. f_equal. symmetry. exact Hword.
  - assert (Hg21 : gmtre_match (py_take 21 (String c r))
                   = Some (py_take 21 (String c r))).
    { apply (gmtre_match_take21 (String c r)). exact Hcls. }
    rewrite <- Hword in Hg21. exact Hg21.
  - intros j y Hj Hy. rewrite list_lookup_fmap in Hy.
    destruct (lines !! j) as [raw|] eqn:Hraw; [|discriminate].
    injection Hy as <-. specialize (Hbefore j raw Hj Hraw).
    apply bool_decide_eq_false in Hbefore.
    destruct (gmtre_match (py_rstrip raw)) as [g'|] eqn:Hg'; [|reflexivity].
    exfalso. apply Hbefore. unfold gmtre_match in Hg' |- *.
    destruct (match_classes gmt_classes (py_rstrip raw)) eqn:Hraw';
      [|discriminate].
    rewrite (match_classes_of_rstrip _ _ Hraw'). eexists. reflexivity.
Qed.

Lemma cached_boundary_is_a_stored_record_witness :
  exists k : nat,
    stateVCDU (svrdb switched_load) (Z.of_nat k) = inr 5 /\
    stateTime (svrdb switched_load) (Z.of_nat k)
    = inr (py_take 21 "2024:107:00:00:00.000") /\
    gmtre_match (py_take 21 "2024:107:00:00:00.000")
    = Some (py_take 21 "2024:107:00:00:00.000") /\
    (forall j line, (j < k)%nat -> svrdb switched_load !! j = Some line ->
                    gmtre_match line = None) /\
    currentLoads switched_load = new_dir /\
    currentStateIndex switched_load = startIndex.
Proof.
  apply (cached_boundary_is_a_stored_record next_fs new_dir
           "2024:107:00:00:00.000" 5 wrap_load switched_load);
    vm_compute; reflexivity.
Defined.

(** ** The planner and the controller as a state machine *)

Lemma keyed_snd key l ks : keyed key l = inr ks -> ks.*2 = l.
Proof.
  revert ks. induction l as [|x l IH]; intros ks; simpl.
  - intros [= <-]. reflexivity.
  - destruct (key x) as [e|m]; simpl; [discriminate|].
    destruct (keyed key l) as [e|r]; simpl; [discriminate|].
    intros [= <-]. simpl. f_equal. apply (IH r eq_refl).
Qed.

(** Whatever [getRecentLoads] returns was extracted from a line of the
    listing. *)
Lemma getRecentLoads_members fs root refFile dirs x :
  getRecentLoads fs root refFile = inr dirs -> x ∈ dirs ->
  exists t, t ∈ py_split_lines "" (output (find_newer fs root refFile)) /\
            lrdre_match t = Some x.
Proof.
  unfold getRecentLoads, sortRecentFirst. cbv zeta.
  destruct (negb _); [discriminate|].
  destruct (keyed _ _) as [e|ks] eqn:Hks; simpl; [discriminate|].
  intros [= <-] Hx. rewrite merge_sort_Permutation, (keyed_snd _ _ _ Hks) in Hx.
  apply elem_of_selectLatest in Hx as [Hx _].
  apply list_elem_of_omap in Hx. exact Hx.
Qed.

Lemma lrdre_match_length t x :
  lrdre_match t = Some x -> (20 <= String.length x)%nat.
Proof.
  unfold lrdre_match. destruct (lrdre_end t) as [e|] eqn:He; [|discriminate].
  intros [= <-]. apply lrdre_end_bounds in He. rewrite py_take_length. lia.
Qed.

Lemma getRecentLoads_names fs root refFile dirs x :
  getRecentLoads fs root refFile = inr dirs -> x ∈ dirs ->
  (20 <= String.length x)%nat.
Proof.
  intros H Hx. destruct (getRecentLoads_members _ _ _ _ _ H Hx) as (t & _ & Ht).
  apply (lrdre_match_length t). exact Ht.
Qed.

Lemma head_omap_Some {A B : Type} (f : A -> option B) (l : list A) y :
  head (omap f l) = Some y -> exists x, x ∈ l /\ f x = Some y.
Proof.
  intros H. assert (Hy : y ∈ omap f l).
  { destruct (omap f l) as [|z zs]; [discriminate|].
    injection H as ->. apply elem_of_cons. left. reflexivity. }
  apply list_elem_of_omap in Hy. exact Hy.
Qed.

Lemma startTime_length fs d st :
  startTime fs d = inr (Some st) -> String.length st = 21%nat.
Proof.
  unfold startTime. cbv zeta.
  destruct (open_lines fs _) as [e|lines]; simpl; [discriminate|].
  intros [= H]. apply head_omap_Some in H as (t & _ & Ht).
  unfold gmtre_match in Ht.
  destruct (match_classes gmt_classes t) eqn:Hm; [|discriminate].
  injection Ht as <-. apply (gmtre_match_take21 t Hm).
Qed.

Lemma truthy_length s : (1 <= String.length s)%nat -> truthy s = true.
Proof. destruct s; simpl; [lia|reflexivity]. Qed.

Lemma checkForNewLoads_cases fs s :
  (checkForNewLoads fs s).2 = s \/
  (checkForNewLoads fs s).1 = inr tt /\
  exists ref d rest st ft fv,
    getRecentLoads fs (loadReviewDir s) ref = inr (d :: rest) /\
    startTime fs d = inr (Some st) /\
    firstTimeVCDU fs d = inr (Some (ft, fv)) /\ fv <> 0 /\
    (checkForNewLoads fs s).2 = withPending d (Some st) ft fv s.
Proof.
  unfold checkForNewLoads, bind, self, lift, ret, raise, assign.
  set (ref := match nextLoads s with
              | Some d => if truthy d then d else currentLoads s
              | None => currentLoads s
              end).
  assert (Href : match nextLoads s with
                 | Some d => if truthy d
                             then getRecentLoads fs (loadReviewDir s) d
                             else getRecentLoads fs (loadReviewDir s)
                                    (currentLoads s)
                 | None => getRecentLoads fs (loadReviewDir s) (currentLoads s)
                 end = getRecentLoads fs (loadReviewDir s) ref).
  { unfold ref. destruct (nextLoads s) as [d|]; [|reflexivity].
    destruct (truthy d); reflexivity. }
  rewrite Href. clearbody ref. clear Href.
  destruct (getRecentLoads fs (loadReviewDir s) ref) as [e|[|d rest]] eqn:Hdirs;
    [left; reflexivity..|].
  destruct (startTime fs d) as [e|st] eqn:Hst; [left; reflexivity|].
  destruct (firstTimeVCDU fs d) as [e|[[ft fv]|]] eqn:Hfirst;
    [left; reflexivity| |left; reflexivity].
  destruct st as [st|]; simpl; [|left; reflexivity].
  destruct (truthy st) eqn:Ht; simpl; [|left; reflexivity].
  destruct (Z.eqb_spec fv 0) as [->|Hne]; simpl; [left; reflexivity|].
  right. split; [reflexivity|].
  exists ref, d, rest, st, ft, fv. repeat split; assumption.
Qed.

Lemma checkAndChangeLoads_cases fs s atTime atVCDU :
  (checkAndChangeLoads fs atTime atVCDU s).2 = s \/
  exists d lines,
    switchRequired s atTime atVCDU = inr true /\
    nextLoads s = Some d /\
    open_lines fs (d +:+ "/" +:+ py_last 8 d +:+ ".svrdb") = inr lines /\
    (checkAndChangeLoads fs atTime atVCDU s).2
    = (checkForNewLoads fs (activated d (py_rstrip <$> lines) s)).2.
Proof.
  unfold checkAndChangeLoads, bind, self, lift, ret, raise.
  destruct (switchRequired s atTime atVCDU) as [e|[|]] eqn:Hsw;
    [left; reflexivity| |left; reflexivity].
  destruct (nextLoads s) as [d|] eqn:Hd; [|left; reflexivity].
  destruct (truthy d); [|left; reflexivity].
  unfold slurpState, bind, lift, assign.
  destruct (open_lines fs (d +:+ "/" +:+ py_last 8 d +:+ ".svrdb"))
    as [e|lines] eqn:Hopen; [left; reflexivity|].
  right. exists d, lines.
  split; [reflexivity|]. split; [reflexivity|]. split; [exact Hopen|].
  destruct (checkForNewLoads fs (activated d (py_rstrip <$> lines) s))
    as [[e|[]] s'']; reflexivity.
Qed.

(** [checkForNewLoads] is all or nothing: it leaves the object as it was,
    always so when it raises, or it returns having assigned exactly the
    four attributes of the pending transition, from a candidate that
    [getRecentLoads] lists first, whose first command time was found and
    whose first counter is not 0. *)
Theorem checkForNewLoads_all_or_nothing fs s :
  (checkForNewLoads fs s).2 = s \/
  (checkForNewLoads fs s).1 = inr tt /\
  exists ref d rest st ft fv,
    getRecentLoads fs (loadReviewDir s) ref = inr (d :: rest) /\
    startTime fs d = inr (Some st) /\
    firstTimeVCDU fs d = inr (Some (ft, fv)) /\ fv <> 0 /\
    (checkForNewLoads fs s).2 = withPending d (Some st) ft fv s.
Proof. apply checkForNewLoads_cases. Qed.

(** [checkAndChangeLoads] changes the active load at most once, and only to
    the pending successor: either the object is as it was, or the switch
    test held, the state vectors of the successor were read, and the object
    now has them as its records, the successor as its active load and the
    cursor at [startIndex], with the boundary attributes either kept or
    those of a newly found candidate. *)
Theorem checkAndChangeLoads_switches_to_pending fs s atTime atVCDU :
  (checkAndChangeLoads fs atTime atVCDU s).2 = s \/
  exists d lines,
    switchRequired s atTime atVCDU = inr true /\
    nextLoads s = Some d /\
    open_lines fs (d +:+ "/" +:+ py_last 8 d +:+ ".svrdb") = inr lines /\
    (checkAndChangeLoads fs atTime atVCDU s).2
    = (checkForNewLoads fs (activated d (py_rstrip <$> lines) s)).2.
Proof. apply checkAndChangeLoads_cases. Qed.

Lemma trackerInv_withIndex i s : trackerInv s -> trackerInv (withIndex i s).
Proof. intros H. exact H. Qed.

Lemma trackerInv_activated d lines s :
  (nextStart s = None <-> nextFirstTime s = None) ->
  (nextFirstTime s = None <-> nextFirstVCDU s = None) ->
  (forall st, nextStart s = Some st -> String.length st = 21%nat) ->
  nextFirstVCDU s <> Some 0 ->
  (20 <= String.length d)%nat ->
  trackerInv (activated d (py_rstrip <$> lines) s).
Proof.
  intros H1 H2 H3 H4 Hd. unfold trackerInv. simpl.
  split; [intros d' Hd'; discriminate|].
  split; [exact H1|]. split; [exact H2|]. split; [exact H3|].
  split; [exact H4|]. split; [|exact Hd].
  intros line Hline. apply list_elem_of_fmap in Hline as (raw & -> & _).
  apply py_rstrip_idem.
Qed.

Lemma trackerInv_withPending d st ft fv s :
  trackerInv s -> (20 <= String.length d)%nat ->
  String.length st = 21%nat -> fv <> 0 ->
  trackerInv (withPending d (Some st) ft fv s).
Proof.
  intros (_ & _ & _ & _ & _ & H6 & H7) Hd Hst Hfv. unfold trackerInv. simpl.
  split.
  { intros d' [= <-]. split; [exact Hd|]. exists st, ft, fv.
    repeat split; reflexivity. }
  split; [split; discriminate|]. split; [split; discriminate|].
  split; [intros st' [= <-]; exact Hst|].
  split; [intros [= ->]; contradiction|]. split; assumption.
Qed.

Lemma checkForNewLoads_inv fs s :
  trackerInv s -> trackerInv (checkForNewLoads fs s).2.
Proof.
  intros Hinv.
  destruct (checkForNewLoads_cases fs s)
    as [->|(_ & ref & d & rest & st & ft & fv & Hdirs & Hst & _ & Hfv & ->)];
    [exact Hinv|].
  apply trackerInv_withPending; [exact Hinv| |apply (startTime_length fs d st Hst)|exact Hfv].
  apply (getRecentLoads_names _ _ _ _ d Hdirs). apply elem_of_cons. left.
  reflexivity.
Qed.

Lemma checkAndChangeLoads_inv fs s atTime atVCDU :
  trackerInv s -> trackerInv (checkAndChangeLoads fs atTime atVCDU s).2.
Proof.
  intros Hinv.
  destruct (checkAndChangeLoads_cases fs s atTime atVCDU)
    as [->|(d & lines & _ & Hd & _ & ->)]; [exact Hinv|].
  apply checkForNewLoads_inv.
  destruct Hinv as (H1 & H2 & H3 & H4 & H5 & _).
  apply trackerInv_activated; try assumption.
  apply (H1 d Hd).
Qed.

(** A query leaves the object as the controller left it, up to the
    cursor. *)
Lemma query_state (c : M unit) (idx : CurrentLoad -> res Z) s :
  let out := (run _ <- c; run s' <- self; run i <- lift (idx s'); resolve i) s in
  out.2 = (c s).2 \/ exists i, out.2 = withIndex i (c s).2.
Proof.
  unfold bind, self, lift, resolve, assign. simpl.
  destruct (c s) as [[e|[]] s']; simpl; [left; reflexivity|].
  destruct (idx s') as [e|i]; simpl; [left; reflexivity|].
  right. exists i.
  destruct (py_index (svrdb s') i); reflexivity.
Qed.

Lemma query_inv (c : M unit) (idx : CurrentLoad -> res Z) s :
  trackerInv (c s).2 ->
  trackerInv ((run _ <- c; run s' <- self; run i <- lift (idx s'); resolve i) s).2.
Proof.
  intros H. destruct (query_state c idx s) as [->|[i ->]];
    [exact H|apply trackerInv_withIndex; exact H].
Qed.

Lemma firstStarted_elem fs now l d :
  firstStarted fs now l = inr (Some d) -> d ∈ l.
Proof.
  induction l as [|x l IH]; simpl; [discriminate|].
  destruct (startTime fs x) as [e|[st|]]; simpl; [discriminate| |].
  - destruct (truthy st && str_le st now).
    + intros [= <-]. apply elem_of_cons. left. reflexivity.
    + intros H. apply elem_of_cons. right. apply IH. exact H.
  - intros H. apply elem_of_cons. right. apply IH. exact H.
Qed.

Lemma init_inv fs root tf now s :
  init fs root tf now = inr s -> trackerInv s.
Proof.
  unfold init.
  destruct (getRecentLoads fs root tf) as [e|dirs] eqn:Hdirs; simpl;
    [discriminate|].
  destruct (firstStarted fs now dirs) as [e|[d|]] eqn:Hfound; simpl;
    [discriminate| |discriminate].
  unfold bind at 1. unfold slurpState, bind, lift, assign.
  destruct (open_lines fs _) as [e|lines]; [discriminate|].
  match goal with
  | |- context [checkForNewLoads fs ?s0] =>
      pose proof (checkForNewLoads_inv fs s0) as Hinv;
      destruct (checkForNewLoads fs s0) as [[e|[]] s1]
  end; [discriminate|].
  intros [= <-]. apply Hinv.
  apply trackerInv_activated; simpl; try (split; reflexivity);
    try discriminate.
  apply (getRecentLoads_names _ _ _ _ d Hdirs).
  apply (firstStarted_elem _ _ _ _ Hfound).
Qed.

(** Every tracker a program can hold satisfies [trackerInv]: the
    constructor establishes it and the planner and the four queries keep
    it, whether they return or raise. *)
Theorem reachable_trackerInv s : reachable s -> trackerInv s.
Proof.
  induction 1 as [fs root tf now s Hinit| | | | | ].
  - apply (init_inv _ _ _ _ _ Hinit).
  - apply checkForNewLoads_inv. assumption.
  - apply query_inv, checkAndChangeLoads_inv. assumption.
  - apply query_inv, checkAndChangeLoads_inv. assumption.
  - apply (query_inv _ (fun s' => binaryTimeIndex (svrdb s') atTime)),
      checkAndChangeLoads_inv. assumption.
  - apply (query_inv _ (fun s' => binaryVCDUIndex (svrdb s') atVCDU)),
      checkAndChangeLoads_inv. assumption.
Qed.

Lemma reachable_trackerInv_witness : trackerInv fresh_load.
Proof.
  apply reachable_trackerInv.
  apply (reach_init (single_fs "/d0/hrc/occ/mp/tmpq1w2e3") root_dir
           "/d0/hrc/occ/mp/tmpq1w2e3" "2024:100:00:00:05.000").
  vm_compute. reflexivity.
Defined.

(** ** The constructor *)

Lemma firstStarted_spec fs now l d :
  firstStarted fs now l = inr (Some d) ->
  exists before after st,
    l = before ++ d :: after /\
    startTime fs d = inr (Some st) /\ str_le st now = true /\
    forall p, p ∈ before ->
      exists o, startTime fs p = inr o /\
                forall t, o = Some t -> str_le t now = false.
Proof.
  induction l as [|x l IH]; simpl; [discriminate|].
  destruct (startTime fs x) as [e|[st|]] eqn:Hx; simpl; [discriminate| |].
  - destruct (truthy st && str_le st now) eqn:Hok.
    + intros [= <-]. exists [], l, st. apply andb_prop in Hok as [_ Hle].
      split; [reflexivity|]. split; [exact Hx|]. split; [exact Hle|].
      intros p Hp. apply elem_of_nil in Hp. contradiction.
    + intros H. destruct (IH H) as (before & after & st' & -> & Hd & Hle & Hb).
      exists (x :: before), after, st'.
      split; [reflexivity|]. split; [exact Hd|]. split; [exact Hle|].
      intros p Hp. apply elem_of_cons in Hp as [->|Hp]; [|apply Hb; exact Hp].
      exists (Some st). split; [exact Hx|]. intros t [= <-].
      rewrite truthy_length in Hok; [exact Hok|].
      rewrite (startTime_length fs x st Hx). lia.
  - intros H. destruct (IH H) as (before & after & st' & -> & Hd & Hle & Hb).
    exists (x :: before), after, st'.
    split; [reflexivity|]. split; [exact Hd|]. split; [exact Hle|].
    intros p Hp. apply elem_of_cons in Hp as [->|Hp]; [|apply Hb; exact Hp].
    exists None. split; [exact Hx|]. intros t Ht. discriminate Ht.
Qed.

(** The constructor activates the first directory, in the order of
    [getRecentLoads] (most recently modified first), whose first command
    time is at or before the present: every directory listed before it has
    no first command time or a later one, the records of the new object are
    the stripped lines of its state vector file, and the cursor is at
    [startIndex]. *)
Theorem init_activates_latest_started fs root tf now s :
  init fs root tf now = inr s ->
  exists before d after st lines,
    getRecentLoads fs root tf = inr (before ++ d :: after) /\
    startTime fs d = inr (Some st) /\ str_le st now = true /\
    (forall p, p ∈ before ->
       exists o, startTime fs p = inr o /\
                 forall t, o = Some t -> str_le t now = false) /\
    open_lines fs (d +:+ "/" +:+ py_last 8 d +:+ ".svrdb") = inr lines /\
    svrdb s = py_rstrip <$> lines /\ currentLoads s = d /\
    currentStateIndex s = startIndex /\ loadReviewDir s = root.
Proof.
  unfold init.
  destruct (getRecentLoads fs root tf) as [e|dirs] eqn:Hdirs; simpl;
    [discriminate|].
  destruct (firstStarted fs now dirs) as [e|[d|]] eqn:Hfound; simpl;
    [discriminate| |discriminate].
  destruct (firstStarted_spec _ _ _ _ Hfound)
    as (before & after & st & -> & Hst & Hle & Hbefore).
  unfold bind at 1. unfold slurpState, bind, lift, assign.
  destruct (open_lines fs _) as [e|lines] eqn:Hopen; [discriminate|].
  match goal with
  | |- context [checkForNewLoads fs ?s0] =>
      pose proof (checkForNewLoads_cases fs s0) as Hcases;
      destruct (checkForNewLoads fs s0) as [[e|[]] s1]
  end; [discriminate|].
  intros [= <-]. exists before, d, after, st, lines.
  split; [reflexivity|]. split; [exact Hst|]. split; [exact Hle|].
  split; [exact Hbefore|]. split; [exact Hopen|].
  destruct Hcases as [Heq|(_ & ref & d' & rest & st' & ft & fv & _ & _ & _ & _ & Heq)];
    simpl in Heq; rewrite Heq; repeat split; reflexivity.
Qed.

Lemma init_activates_latest_started_witness :
  exists before d after st lines,
    getRecentLoads (single_fs "/d0/hrc/occ/mp/tmpq1w2e3") root_dir
      "/d0/hrc/occ/mp/tmpq1w2e3" = inr (before ++ d :: after) /\
    startTime (single_fs "/d0/hrc/occ/mp/tmpq1w2e3") d = inr (Some st) /\
    str_le st "2024:100:00:00:05.000" = true /\
    (forall p, p ∈ before ->
       exists o, startTime (single_fs "/d0/hrc/occ/mp/tmpq1w2e3") p = inr o /\
                 forall t, o = Some t ->
                           str_le t "2024:100:00:00:05.000" = false) /\
    open_lines (single_fs "/d0/hrc/occ/mp/tmpq1w2e3")
      (d +:+ "/" +:+ py_last 8 d +:+ ".svrdb") = inr lines /\
    svrdb fresh_load = py_rstrip <$> lines /\ currentLoads fresh_load = d /\
    currentStateIndex fresh_load = startIndex /\
    loadReviewDir fresh_load = root_dir.
Proof.
  apply (init_activates_latest_started
           (single_fs "/d0/hrc/occ/mp/tmpq1w2e3") root_dir
           "/d0/hrc/occ/mp/tmpq1w2e3" "2024:100:00:00:05.000" fresh_load).
  vm_compute. reflexivity.
Defined.

Lemma firstStarted_none fs now l :
  (forall p, p ∈ l ->
     exists o, startTime fs p = inr o /\
               forall t, o = Some t -> str_le t now = false) ->
  firstStarted fs now l = inr None.
Proof.
  induction l as [|x l IH]; intros H; [reflexivity|]. simpl.
  destruct (H x) as (o & -> & Ho); [apply elem_of_cons; left; reflexivity|].
  simpl. assert (Hl : firstStarted fs now l = inr None).
  { apply IH. intros p Hp. apply H. apply elem_of_cons. right. exact Hp. }
  destruct o as [t|]; [|exact Hl].
  rewrite (Ho t eq_refl), andb_false_r. exact Hl.
Qed.

(** When no listed directory has started (none is listed, or each has no
    first command time or one later than the present), the constructor
    raises "Failed to locate active loads". *)
Theorem init_fails_without_started_load fs root tf now dirs :
  getRecentLoads fs root tf = inr dirs ->
  (forall p, p ∈ dirs ->
     exists o, startTime fs p = inr o /\
               forall t, o = Some t -> str_le t now = false) ->
  init fs root tf now
  = inl (CurrentLoadException "Failed to locate active loads").
Proof.
  intros Hdirs Hnone. unfold init. rewrite Hdirs. simpl.
  rewrite (firstStarted_none _ _ _ Hnone). reflexivity.
Qed.

(** The only load on storage starts at [2024:100:00:00:00.000]; a tracker
    constructed the day before finds no active load. *)
Lemma init_fails_without_started_load_witness :
  init (single_fs "/d0/hrc/occ/mp/tmpq1w2e3") root_dir
    "/d0/hrc/occ/mp/tmpq1w2e3" "2024:099:12:00:00.000"
  = inl (CurrentLoadException "Failed to locate active loads").
Proof.
  apply (init_fails_without_started_load _ _ _ _ [old_dir]).
  - vm_compute. reflexivity.
  - intros p Hp. apply list_elem_of_singleton in Hp as ->.
    exists (Some "2024:100:00:00:00.000"). split; [vm_compute; reflexivity|].
    intros t [= <-]. reflexivity.
Defined.

(** ** A listing without load directories *)

Lemma omap_none {A B : Type} (f : A -> option B) (l : list A) :
  (forall x, x ∈ l -> f x = None) -> omap f l = [].
Proof.
  induction l as [|x l IH]; intros H; [reflexivity|]. simpl.
  rewrite (H x) by (apply elem_of_cons; left; reflexivity).
  apply IH. intros y Hy. apply H. apply elem_of_cons. right. exact Hy.
Qed.

(** When [find] succeeds and no line of its output has the format of a load
    directory name, [getRecentLoads] returns the empty list without
    examining any path, and [checkForNewLoads] returns leaving the object as
    it was. *)
Theorem nothing_listed_nothing_pending fs s :
  (forall ref, returncode (find_newer fs (loadReviewDir s) ref) = 0 /\
     forall t,
       t ∈ py_split_lines "" (output (find_newer fs (loadReviewDir s) ref)) ->
       lrdre_match t = None) ->
  (forall ref, getRecentLoads fs (loadReviewDir s) ref = inr []) /\
  checkForNewLoads fs s = (inr tt, s).
Proof.
  intros H.
  assert (Hempty : forall ref, getRecentLoads fs (loadReviewDir s) ref = inr []).
  { intros ref. destruct (H ref) as [Hrc Hnone].
    unfold getRecentLoads, selectLatest. cbv zeta.
    rewrite Hrc, (omap_none _ _ Hnone). reflexivity. }
  split; [exact Hempty|].
  unfold checkForNewLoads, bind, self, lift, ret.
  destruct (nextLoads s) as [d|]; [destruct (truthy d)|];
    rewrite Hempty; reflexivity.
Qed.

Lemma nothing_listed_nothing_pending_witness :
  (forall ref,
     getRecentLoads (listing_fs "/d0/hrc/occ/mp
/d0/hrc/occ/mp/notes
/d0/hrc/occ/mp/2024:100:T-APR0924T
") (loadReviewDir fresh_load) ref = inr []) /\
  checkForNewLoads (listing_fs "/d0/hrc/occ/mp
/d0/hrc/occ/mp/notes
/d0/hrc/occ/mp/2024:100:T-APR0924T
") fresh_load = (inr tt, fresh_load).
Proof.
  apply nothing_listed_nothing_pending.
  intros ref. split; [reflexivity|]. intros t Ht.
  change (t ∈ ["/d0/hrc/occ/mp"; "/d0/hrc/occ/mp/notes";
               "/d0/hrc/occ/mp/2024:100:T-APR0924T"; ""]) in Ht.
  repeat (apply elem_of_cons in Ht as [->|Ht]); try reflexivity.
  apply elem_of_nil in Ht. contradiction.
Defined.

(** ** Random access *)

Lemma checkAndChangeLoads_withIndex fs s c atTime atVCDU :
  checkAndChangeLoads fs atTime atVCDU (withIndex c s)
  = checkAndChangeLoads fs atTime atVCDU s \/
  exists r, checkAndChangeLoads fs atTime atVCDU s = (r, s) /\
            checkAndChangeLoads fs atTime atVCDU (withIndex c s)
            = (r, withIndex c s).
Proof.
  unfold checkAndChangeLoads, bind, self, lift, ret, raise.
  rewrite switchRequired_withIndex.
  destruct (switchRequired s atTime atVCDU) as [e|[|]];
    [right; eexists; split; reflexivity| |right; eexists; split; reflexivity].
  change (nextLoads (withIndex c s)) with (nextLoads s).
  destruct (nextLoads s) as [d|]; [|right; eexists; split; reflexivity].
  destruct (truthy d); [|right; eexists; split; reflexivity].
  unfold slurpState, bind, lift, assign.
  destruct (open_lines fs (d +:+ "/" +:+ py_last 8 d +:+ ".svrdb"))
    as [e|lines]; [right; eexists; split; reflexivity|].
  left. reflexivity.
Qed.

Lemma binary_query_withIndex (check : M unit) (idx : list string -> res Z)
    (s : CurrentLoad) (c : Z) :
  (check (withIndex c s) = check s \/
   exists r, check s = (r, s) /\ check (withIndex c s) = (r, withIndex c s)) ->
  let q := run _ <- check; run s' <- self;
           run i <- lift (idx (svrdb s')); resolve i in
  (q (withIndex c s)).1 = (q s).1 /\
  forall line, (q s).1 = inr line -> q (withIndex c s) = q s.
Proof.
  intros [Heq|(r & Hs & Hc)]; cbv zeta; unfold bind.
  - rewrite Heq. split; [reflexivity|]. intros; reflexivity.
  - rewrite Hs, Hc. destruct r as [e|[]].
    + split; [reflexivity|]. intros line H. discriminate H.
    + unfold self, lift, resolve, bind, assign.
      change (svrdb (withIndex c s)) with (svrdb s).
      destruct (idx (svrdb s)) as [e|i].
      * split; [reflexivity|]. intros line H. discriminate H.
      * split; reflexivity.
Qed.

(** The binary searches give random access: the outcome of
    [binaryGetStateAtTime] and of [binaryGetStateAtVCDU] does not depend on
    where the cursor was, and a call that returns leaves the same object
    from any cursor. *)
Theorem binary_queries_ignore_cursor fs s c atTime atVCDU :
  ((binaryGetStateAtTime fs atTime (withIndex c s)).1
   = (binaryGetStateAtTime fs atTime s).1 /\
   forall line, (binaryGetStateAtTime fs atTime s).1 = inr line ->
     binaryGetStateAtTime fs atTime (withIndex c s)
     = binaryGetStateAtTime fs atTime s) /\
  ((binaryGetStateAtVCDU fs atVCDU (withIndex c s)).1
   = (binaryGetStateAtVCDU fs atVCDU s).1 /\
   forall line, (binaryGetStateAtVCDU fs atVCDU s).1 = inr line ->
     binaryGetStateAtVCDU fs atVCDU (withIndex c s)
     = binaryGetStateAtVCDU fs atVCDU s).
Proof.
  split.
  - apply (binary_query_withIndex (checkAndChangeLoads fs (Some atTime) None)
             (fun l => binaryTimeIndex l atTime)).
    apply checkAndChangeLoads_withIndex.
  - apply (binary_query_withIndex (checkAndChangeLoads fs None (Some atVCDU))
             (fun l => binaryVCDUIndex l atVCDU)).
    apply checkAndChangeLoads_withIndex.
Qed.

(** ** The end of the known loads *)

(** With no successor pending and the boundary attributes assigned, a query
    at or past the cached boundary, or at or past the last record, raises
    "No new loads found" under both strategies, and the object is as it
    was: by a non-empty time compared as strings, by a counter compared as
    plain integers. *)
Theorem boundary_crossed_without_successor
    fs s atTime atVCDU (n l : string) (m c : Z) :
  nextLoads s = None ->
  nextFirstTime s = Some n -> nextFirstVCDU s = Some m ->
  stateTime (svrdb s) (Z.of_nat (length (svrdb s)) - 1) = inr l ->
  stateVCDU (svrdb s) (Z.of_nat (length (svrdb s)) - 1) = inr c ->
  atTime <> "" ->
  str_ge atTime n = true \/ str_ge atTime l = true ->
  atVCDU >= m \/ atVCDU >= c ->
  getStateAtTime fs atTime s
  = (inl (CurrentLoadException "No new loads found"), s) /\
  binaryGetStateAtTime fs atTime s
  = (inl (CurrentLoadException "No new loads found"), s) /\
  getStateAtVCDU fs atVCDU s
  = (inl (CurrentLoadException "No new loads found"), s) /\
  binaryGetStateAtVCDU fs atVCDU s
  = (inl (CurrentLoadException "No new loads found"), s).
Proof.
  intros Hnone Hn Hm Hl Hc Hne Ht Hv.
  assert (Hnl : truthy_opt (nextLoads s) = false) by (rewrite Hnone; reflexivity).
  destruct (no_successor_raises fs s atTime atVCDU Hnl) as [Htime Hvcdu].
  assert (H1 : switchRequired s (Some atTime) None = inr true).
  { rewrite (switchRequired_time s atTime n l Hne Hn Hl). f_equal.
    destruct Ht as [-> | ->]; [reflexivity|apply orb_true_r]. }
  assert (H2 : switchRequired s None (Some atVCDU) = inr true).
  { rewrite (switchRequired_counter s atVCDU m c Hm Hc). f_equal.
    destruct Hv as [Hv|Hv].
    - destruct (Z.geb_spec atVCDU m); [reflexivity|lia].
    - destruct (Z.geb_spec atVCDU c); [apply orb_true_r|lia]. }
  destruct (Htime H1) as [-> ->]. destruct (Hvcdu H2) as [-> ->].
  repeat split; reflexivity.
Qed.

Lemma boundary_crossed_without_successor_witness :
  getStateAtTime no_fs "2024:107:00:00:25.000" switched_load
  = (inl (CurrentLoadException "No new loads found"), switched_load) /\
  binaryGetStateAtTime no_fs "2024:107:00:00:25.000" switched_load
  = (inl (CurrentLoadException "No new loads found"), switched_load) /\
  getStateAtVCDU no_fs 80 switched_load
  = (inl (CurrentLoadException "No new loads found"), switched_load) /\
  binaryGetStateAtVCDU no_fs 80 switched_load
  = (inl (CurrentLoadException "No new loads found"), switched_load).
Proof.
  apply (boundary_crossed_without_successor no_fs switched_load
           "2024:107:00:00:25.000" 80
           "2024:107:00:00:00.000" "2024:107:00:00:20.000" 5 70).
  - reflexivity.
  - reflexivity.
  - reflexivity.
  - reflexivity.
  - reflexivity.
  - by_computation.
  - left. reflexivity.
  - left. by_computation.
Defined.

(** A tracker without successor whose boundary attributes were never
    assigned, as the constructor leaves it when no newer directory is
    found. *)
Lemma unassigned_boundary_raises_witness :
  getStateAtTime no_fs "2024:100:00:00:05.000" fresh_load
  = (inl (AttributeError "nextFirstTime"), fresh_load) /\
  binaryGetStateAtTime no_fs "2024:100:00:00:05.000" fresh_load
  = (inl (AttributeError "nextFirstTime"), fresh_load) /\
  getStateAtVCDU no_fs 2010 fresh_load
  = (inl (AttributeError "nextFirstVCDU"), fresh_load) /\
  binaryGetStateAtVCDU no_fs 2010 fresh_load
  = (inl (AttributeError "nextFirstVCDU"), fresh_load).
Proof.
  apply unassigned_boundary_raises; [reflexivity|reflexivity|by_computation].
Defined.
